(** * Investi backend: a shallow embedding and its specification

    The Python modules [market_data], [calculator], [ai_advisor], [auth],
    [router_auth] and [main] are embedded as Rocq modules of the same names.

    Modelling conventions.
    - A Python [str] is a list of Unicode code points ([pystr]).
    - A Python [float] is an exact rational ([Q]); a missing observation
      (pandas' NaN) is [None].  Infinities and rounding error of binary
      floating point are outside the model.
    - A Python exception is a value of [PyExc]; a function that may raise
      returns [Exc A].
    - The libraries the code calls (yfinance, pandas, the LLM client, JWT,
      bcrypt, the Unicode tables of [str.upper]/[str.lower]) are records of
      functions the embedding is parameterised by. *)

From Stdlib Require Import ZArith NArith QArith Qabs Qcanon List String Ascii Lia.
From stdpp Require Import base list list_numbers gmap pretty.
Import ListNotations.

#[local] Set Warnings "-register-all".
#[local] Open Scope Z_scope.

(** ** Python strings *)

Definition pystr := list N.

(** Decoding of a UTF-8 byte sequence, so that the string constants of the
    source can be written as literals. *)
Fixpoint utf8_decode (bs : list N) : pystr :=
  match bs with
  | [] => []
  | b0 :: r0 =>
    if (b0 <? 128)%N then b0 :: utf8_decode r0
    else match r0 with
    | [] => []
    | b1 :: r1 =>
      if (b0 <? 224)%N then ((b0 - 192) * 64 + (b1 - 128))%N :: utf8_decode r1
      else match r1 with
      | [] => []
      | b2 :: r2 =>
        if (b0 <? 240)%N
        then ((b0 - 224) * 4096 + (b1 - 128) * 64 + (b2 - 128))%N :: utf8_decode r2
        else match r2 with
        | [] => []
        | b3 :: r3 =>
          ((b0 - 240) * 262144 + (b1 - 128) * 4096 + (b2 - 128) * 64 + (b3 - 128))%N
            :: utf8_decode r3
        end
      end
    end
  end.

Definition py (s : string) : pystr :=
  utf8_decode (map N_of_ascii (list_ascii_of_string s)).
Arguments py : simpl never.

Definition newline : pystr := [10%N].
Definition dquote : pystr := [34%N].

(** [sep.join(parts)] *)
Fixpoint join (sep : pystr) (parts : list pystr) : pystr :=
  match parts with
  | [] => []
  | [x] => x
  | x :: r => x ++ sep ++ join sep r
  end.

(** [str(n)] for an [int]. *)
Definition str_of_int (n : Z) : pystr := py (pretty n).
Arguments str_of_int : simpl never.

(** [len(s)] *)
Definition len {A} (l : list A) : Z := Z.of_nat (length l).

Definition pystr_eqb (a b : pystr) : bool := bool_decide (a = b).

(** The characters [str.split()] and [str.strip()] treat as whitespace. *)
Definition is_space (c : N) : bool :=
  ((9 <=? c) && (c <=? 13) || (28 <=? c) && (c <=? 32) || (c =? 133) || (c =? 160)
   || (c =? 5760) || (8192 <=? c) && (c <=? 8202) || (c =? 8232) || (c =? 8233)
   || (c =? 8239) || (c =? 8287) || (c =? 12288))%N.

Fixpoint lstrip (s : pystr) : pystr :=
  match s with
  | c :: r => if is_space c then lstrip r else s
  | [] => []
  end.

Definition strip (s : pystr) : pystr := rev (lstrip (rev (lstrip s))).

(** [s.split()]: maximal runs of non-whitespace characters. *)
Fixpoint split_from (cur : pystr) (s : pystr) : list pystr :=
  match s with
  | [] => match cur with [] => [] | _ => [rev cur] end
  | c :: r =>
    if is_space c
    then match cur with [] => split_from [] r | _ => rev cur :: split_from [] r end
    else split_from (c :: cur) r
  end.

Definition split (s : pystr) : list pystr := split_from [] s.

Fixpoint startswith (p s : pystr) : bool :=
  match p, s with
  | [], _ => true
  | a :: p', b :: s' => (a =? b)%N && startswith p' s'
  | _ :: _, [] => false
  end.

(** [k in s] for strings. *)
Fixpoint contains (k s : pystr) : bool :=
  startswith k s || match s with [] => false | _ :: r => contains k r end.

Definition is_AZ (c : N) : bool := ((65 <=? c) && (c <=? 90))%N.
Definition is_az (c : N) : bool := ((97 <=? c) && (c <=? 122))%N.

(** Case mapping.  ASCII letters are mapped here; what [str.upper] and
    [str.lower] do with every other code point comes from the Unicode
    tables of the interpreter, a parameter.  A lower-case mapping may look
    at the characters around it (final sigma). *)
Record Unicode := {
  unicode_upper : N -> pystr;
  unicode_lower : pystr -> N -> pystr -> pystr
}.

Definition upper (U : Unicode) (s : pystr) : pystr :=
  flat_map (fun c => if (c <? 128)%N then [if is_az c then (c - 32)%N else c]
                     else unicode_upper U c) s.

Fixpoint lower_from (U : Unicode) (before : pystr) (s : pystr) : pystr :=
  match s with
  | [] => []
  | c :: r =>
    (if (c <? 128)%N then [if is_AZ c then (c + 32)%N else c]
     else unicode_lower U (rev before) c r) ++ lower_from U (c :: before) r
  end.

Definition lower (U : Unicode) (s : pystr) : pystr := lower_from U [] s.

(** [d.get(k)] on a dict literal kept in source order. *)
Fixpoint dict_get {V} (d : list (pystr * V)) (k : pystr) : option V :=
  match d with
  | [] => None
  | (k', v) :: r => if pystr_eqb k' k then Some v else dict_get r k
  end.

(** ** Exceptions *)

Inductive PyExc :=
| HTTPException (status_code : Z) (detail : pystr) (headers : option (list (pystr * pystr)))
| JWTError (msg : pystr)
| Exception (cls : pystr) (msg : pystr).

(** [str(e)] *)
Definition exc_str (e : PyExc) : pystr :=
  match e with
  | HTTPException st d _ => str_of_int st ++ py ": " ++ d
  | JWTError m => m
  | Exception _ m => m
  end.

Definition Exc (A : Type) : Type := PyExc + A.

Definition ret {A} (a : A) : Exc A := inr a.
Definition raise {A} (e : PyExc) : Exc A := inl e.
Definition bind {A B} (c : Exc A) (k : A -> Exc B) : Exc B :=
  match c with inl e => inl e | inr a => k a end.

Notation "'let!' x ':=' c 'in' k" := (bind c (fun x => k))
  (at level 10, x pattern, c at level 100, k at level 200).

(** [try: body  except Exception as e: handler e] *)
Definition try_except {A} (body : Exc A) (handler : PyExc -> Exc A) : Exc A :=
  match body with inl e => handler e | inr a => inr a end.

(** A [for] loop whose body may raise. *)
Fixpoint for_each {A S} (xs : list A) (body : A -> S -> Exc S) (s : S) : Exc S :=
  match xs with
  | [] => ret s
  | x :: r => let! s' := body x s in for_each r body s'
  end.

(** [l[-1]] *)
Definition last_item {A} (l : list A) : Exc A :=
  match last l with
  | Some a => ret a
  | None => raise (Exception (py "IndexError") (py "list index out of range"))
  end.

(** ** Python floats, as rationals *)

#[local] Open Scope Q_scope.

(** Rounding to the nearest integer, ties to even. *)
Definition round_half_even (x : Q) : Z :=
  let n := Qnum x in
  let d := Zpos (Qden x) in
  let q := (n / d)%Z in
  match (2 * (n mod d) ?= d)%Z with
  | Lt => q
  | Gt => (q + 1)%Z
  | Eq => if Z.even q then q else (q + 1)%Z
  end.

(** [round(x, ndigits)] for a float [x] and [ndigits >= 0]. *)
Definition py_round (x : Q) (ndigits : nat) : Q :=
  let s := Z.to_pos (10 ^ Z.of_nat ndigits) in
  Qred (Qmake (round_half_even (Qred (x * inject_Z (Zpos s)))) s).

(** [x / y] on floats raises on a zero divisor. *)
Definition py_div (x y : Q) : Exc Q :=
  if Qeq_bool y 0
  then raise (Exception (py "ZeroDivisionError") (py "float division by zero"))
  else ret (x / y).

(** The outcome of [x ** y]: a float, a complex number (negative base with a
    fractional exponent), or an exception (overflow, zero to a negative
    power).  The power function itself is the interpreter's. *)
Inductive PowResult :=
| PowFloat (r : Q)
| PowComplex
| PowRaise (e : PyExc).

(** Values of mixed type: what [json.loads] returns and what a token
    payload holds. *)
Inductive PyValue :=
| PNone
| PBool (b : bool)
| PInt (n : Z)
| PFloat (x : Q)
| PStr (s : pystr)
| PDatetime (t : Z)
| PList (l : list PyValue)
| PDict (d : gmap pystr PyValue).

(** Built-ins of the interpreter that are not modelled further. *)
Record Interp := {
  (** [x ** y] on floats *)
  float_pow : Q -> Q -> PowResult;
  (** [int(v)] *)
  int_of : PyValue -> Exc Z
}.

#[local] Close Scope Q_scope.

(** [f"{x:.2f}"] with the options the code uses: [plus] for the [+] flag,
    [comma] for the thousands separator. *)
Fixpoint group3 (rev_digits : pystr) (n : nat) : pystr :=
  match rev_digits with
  | [] => []
  | d :: r =>
    match n with
    | 3%nat => 44%N :: d :: group3 r 1
    | _ => d :: group3 r (S n)
    end
  end.

Definition format_2f (plus comma : bool) (x : Q) : pystr :=
  let c := round_half_even (Qred (Qabs x * 100)%Q) in
  let ip := str_of_int (c / 100) in
  let fp := str_of_int (c mod 100) in
  (if Qlt_le_dec x 0%Q then py "-" else if plus then py "+" else [])
  ++ (if comma then rev (group3 (rev ip) 0) else ip)
  ++ py "." ++ (if (c mod 100 <? 10)%Z then py "0" else []) ++ fp.

(** ** External data: yfinance and pandas *)

Definition Timestamp := Z.

(** A column with its index; [None] is NaN. *)
Definition Series := list (Timestamp * option Q).

(** A price frame; only its [Close] column is ever read. *)
Record DataFrame := { Close : Series }.

(** [hist.empty], [len(hist)] *)
Definition df_empty (hist : DataFrame) : bool :=
  match Close hist with [] => true | _ => false end.
Definition df_len (hist : DataFrame) : Z := len (Close hist).

(** A column without NaN. *)
Definition Observations := list (Timestamp * Q).

(** [s.dropna()]; on a frame, [hist.dropna(subset=["Close"])["Close"]]. *)
Definition dropna (s : Series) : Observations :=
  omap (fun p => match snd p with
                 | Some v => Some (fst p, v)
                 | None => None
                 end) s.

(** [float(s.iloc[-k])] for [k >= 1] *)
Definition iloc_neg (s : Observations) (k : nat) : Exc Q :=
  match rev s !! pred k with
  | Some (_, v) => ret v
  | None => raise (Exception (py "IndexError")
                     (py "single positional indexer is out-of-bounds"))
  end.

(** What [yf.download(..., group_by="ticker")] gives: per-ticker frames for
    several tickers, one flat frame for a single ticker. *)
Inductive Downloaded :=
| Grouped (frames : gmap pystr DataFrame)
| Flat (frame : DataFrame).

Record YFinance := {
  (** [yf.Ticker(t).history(period=p)] *)
  history : pystr -> pystr -> Exc DataFrame;
  (** [yf.Ticker(t).info] *)
  info : pystr -> Exc (gmap pystr pystr);
  (** [yf.download(tickers, period=p, progress=False, group_by="ticker")] *)
  download : list pystr -> pystr -> Exc Downloaded
}.

Record Pandas := {
  (** [pd.to_datetime(index)] *)
  to_datetime : list Timestamp -> Exc (list Timestamp);
  (** [s.resample("ME").last()] *)
  resample_ME_last : Series -> Exc Series;
  (** [s.pct_change()] *)
  pct_change : Series -> Exc Series;
  (** [float(s.mean())]; [None] is NaN, the mean of an empty column *)
  mean : Observations -> Exc (option Q);
  (** [t.strftime(fmt)] *)
  strftime : Timestamp -> pystr -> pystr
}.

(** [hist.index = idx] *)
Definition set_index (hist : DataFrame) (idx : list Timestamp) : Exc DataFrame :=
  if (length idx =? length (Close hist))%nat
  then ret {| Close := zip idx (snd <$> Close hist) |}
  else raise (Exception (py "ValueError") (py "Length mismatch")).

(** [s.index[0]], [s.index[-1]] *)
Definition index_first (s : Series) : Exc Timestamp :=
  match s with
  | (t, _) :: _ => ret t
  | [] => raise (Exception (py "IndexError") (py "index 0 is out of bounds"))
  end.
Definition index_last (s : Series) : Exc Timestamp :=
  match last s with
  | Some (t, _) => ret t
  | None => raise (Exception (py "IndexError") (py "index -1 is out of bounds"))
  end.

(** * market_data.py *)
Module market_data.

Record Asset := { a_ticker : pystr; a_name : pystr; a_category : pystr }.

Definition TOP_ASSETS : list Asset := [
  {| a_ticker := py "AAPL";    a_name := py "Apple";       a_category := py "Acciones" |};
  {| a_ticker := py "TSLA";    a_name := py "Tesla";       a_category := py "Acciones" |};
  {| a_ticker := py "GOOGL";   a_name := py "Google";      a_category := py "Acciones" |};
  {| a_ticker := py "MSFT";    a_name := py "Microsoft";   a_category := py "Acciones" |};
  {| a_ticker := py "NVDA";    a_name := py "NVIDIA";      a_category := py "Acciones" |};
  {| a_ticker := py "AMZN";    a_name := py "Amazon";      a_category := py "Acciones" |};
  {| a_ticker := py "BTC-USD"; a_name := py "Bitcoin";     a_category := py "Cripto" |};
  {| a_ticker := py "ETH-USD"; a_name := py "Ethereum";    a_category := py "Cripto" |};
  {| a_ticker := py "SPY";     a_name := py "S&P 500 ETF"; a_category := py "ETFs" |}
].

(** The dict literal, in source order (the order [.items()] iterates in). *)
Definition KEYWORD_TO_TICKER : list (pystr * pystr) :=
  map (fun p => (py (fst p), py (snd p))) [
    ("apple", "AAPL"); ("aapl", "AAPL");
    ("tesla", "TSLA"); ("tsla", "TSLA");
    ("google", "GOOGL"); ("alphabet", "GOOGL"); ("googl", "GOOGL");
    ("microsoft", "MSFT"); ("msft", "MSFT");
    ("amazon", "AMZN"); ("amzn", "AMZN");
    ("nvidia", "NVDA"); ("nvda", "NVDA");
    ("meta", "META"); ("facebook", "META");
    ("netflix", "NFLX"); ("nflx", "NFLX");
    ("uber", "UBER");
    ("airbnb", "ABNB");
    ("disney", "DIS");
    ("samsung", "005930.KS");
    ("bitcoin", "BTC-USD"); ("btc", "BTC-USD");
    ("ethereum", "ETH-USD"); ("eth", "ETH-USD");
    ("solana", "SOL-USD"); ("sol", "SOL-USD");
    ("cardano", "ADA-USD"); ("ada", "ADA-USD");
    ("dogecoin", "DOGE-USD"); ("doge", "DOGE-USD");
    ("ripple", "XRP-USD"); ("xrp", "XRP-USD");
    ("sp500", "SPY"); ("spy", "SPY"); ("s&p", "SPY");
    ("nasdaq", "QQQ"); ("qqq", "QQQ");
    ("oro", "GLD"); ("gold", "GLD"); ("gld", "GLD")
  ]%string.

(** The dict [_get_yfinance_data] returns on success; [category] is the key
    the fallback of [get_top_assets] adds. *)
Record Snapshot := {
  source : pystr;
  ticker : pystr;
  name : pystr;
  price : pystr;
  change : pystr;
  change_percent : pystr;
  currency : pystr;
  category : option pystr
}.

(** A market dict either has the key ["error"] or is a snapshot. *)
Inductive MarketData :=
| MarketError (error : pystr)
| MarketSnapshot (s : Snapshot).

(** ["error" in d] *)
Definition has_error (d : MarketData) : bool :=
  match d with MarketError _ => true | MarketSnapshot _ => false end.

(** The dict the batch path of [get_top_assets] appends. *)
Record Quote := {
  q_ticker : pystr;
  q_name : pystr;
  q_category : pystr;
  q_price : Q;
  q_change : Q;
  q_change_pct : Q;
  q_currency : pystr
}.

Inductive TopEntry :=
| BatchQuote (q : Quote)
| FallbackItem (s : Snapshot).

(** The four lines both fetch paths share (lines 91-94 and 136-139):
<<
    price = float(closes.iloc[-1])
    prev_price = float(closes.iloc[-2]) if len(closes) >= 2 else price
    change = price - prev_price
    change_pct = (change / prev_price) * 100 if prev_price != 0 else 0
>> *)
Record PriceChange := { pc_price : Q; pc_prev_price : Q; pc_change : Q; pc_change_pct : Q }.

Definition price_change (closes : Observations) : Exc PriceChange :=
  let! price := iloc_neg closes 1 in
  let! prev_price := if (len closes >=? 2)%Z then iloc_neg closes 2 else ret price in
  let change := (price - prev_price)%Q in
  let! change_pct :=
    if negb (Qeq_bool prev_price 0)
    then let! r := py_div change prev_price in ret (r * 100)%Q
    else ret 0%Q in
  ret {| pc_price := price; pc_prev_price := prev_price;
         pc_change := change; pc_change_pct := change_pct |}.

Section with_libraries.
Context (U : Unicode) (yf : YFinance).

Definition _get_yfinance_data (ticker_symbol : pystr) : Exc MarketData :=
  try_except
    (let! hist := history yf ticker_symbol (py "2d") in
     if df_empty hist
     then ret (MarketError (py "No se encontraron datos para '" ++ ticker_symbol ++ py "'"))
     else
     let closes := dropna (Close hist) in
     if (len closes <? 1)%Z
     then ret (MarketError (py "No hay datos de cierre para '" ++ ticker_symbol ++ py "'"))
     else
     let! pc := price_change closes in
     let! name :=
       try_except
         (let! info := info yf ticker_symbol in
          ret (match info !! py "longName" with
               | Some ((_ :: _) as n) => n
               | _ => match info !! py "shortName" with
                      | Some ((_ :: _) as n) => n
                      | _ => upper U ticker_symbol
                      end
               end))
         (fun _ => ret (upper U ticker_symbol)) in
     ret (MarketSnapshot {|
       source := py "yfinance";
       ticker := upper U ticker_symbol;
       name := name;
       price := format_2f false true (pc_price pc);
       change := format_2f true false (pc_change pc);
       change_percent := format_2f true false (pc_change_pct pc) ++ py "%";
       currency := py "USD";
       category := None |}))
    (fun e => ret (MarketError (py "No se pudo obtener datos para '" ++ ticker_symbol ++ py "'"))).

Definition get_market_data (query : pystr) : Exc MarketData :=
  if pystr_eqb query [] || pystr_eqb query (py "UNKNOWN")
  then ret (MarketError (py "No se identificó un activo válido en tu mensaje"))
  else
  let ticker := default (upper U query) (dict_get KEYWORD_TO_TICKER (lower U query)) in
  _get_yfinance_data ticker.

(** The body of the batch loop for one asset; [None] is [continue]. *)
Definition batch_quote (tickers_list : list pystr) (data : Downloaded) (asset : Asset)
  : Exc (option Quote) :=
  let ticker := a_ticker asset in
  let key_error k := Exception (py "KeyError") k in
  let! ticker_data :=
    if (len tickers_list >? 1)%Z
    then match data with
         | Grouped frames =>
           match frames !! ticker with
           | Some f => ret (Close f)
           | None => raise (key_error ticker)
           end
         | Flat _ => raise (key_error ticker)
         end
    else match data with
         | Flat f => ret (Close f)
         | Grouped _ => raise (key_error (py "Close"))
         end in
  let ticker_data := dropna ticker_data in
  if (len ticker_data <? 1)%Z then ret None else
  let! pc := price_change ticker_data in
  ret (Some {|
    q_ticker := ticker;
    q_name := a_name asset;
    q_category := a_category asset;
    q_price := py_round (pc_price pc) 2;
    q_change := py_round (pc_change pc) 2;
    q_change_pct := py_round (pc_change_pct pc) 2;
    q_currency := py "USD" |}).

Definition get_top_assets : Exc (list TopEntry) :=
  let tickers_list := map a_ticker TOP_ASSETS in
  try_except
    (let! data := download yf tickers_list (py "2d") in
     for_each TOP_ASSETS
       (fun asset results =>
          try_except
            (let! q := batch_quote tickers_list data asset in
             ret (match q with
                  | Some q => results ++ [BatchQuote q]
                  | None => results
                  end))
            (fun e => ret results))
       [])
    (fun e =>
       for_each TOP_ASSETS
         (fun asset results =>
            let! item := _get_yfinance_data (a_ticker asset) in
            match item with
            | MarketSnapshot s =>
              ret (results ++ [FallbackItem
                     {| source := source s; ticker := ticker s; name := name s;
                        price := price s; change := change s;
                        change_percent := change_percent s; currency := currency s;
                        category := Some (a_category asset) |}])
            | MarketError _ => ret results
            end)
         []).

End with_libraries.
End market_data.

(** * calculator.py *)
Module calculator.

Definition ASSET_NAMES : list (pystr * pystr) :=
  map (fun p => (py (fst p), py (snd p))) [
    ("AAPL", "Apple Inc.");
    ("TSLA", "Tesla Inc.");
    ("GOOGL", "Alphabet (Google)");
    ("AMZN", "Amazon.com Inc.");
    ("MSFT", "Microsoft Corp.");
    ("NVDA", "NVIDIA Corp.");
    ("META", "Meta Platforms");
    ("BTC-USD", "Bitcoin");
    ("ETH-USD", "Ethereum");
    ("SPY", "S&P 500 ETF");
    ("QQQ", "Nasdaq 100 ETF");
    ("GLD", "Gold ETF")
  ]%string.

Record MonthlyProjection := {
  month : Z;
  value : Q;
  gain : Q;
  gain_pct : Q
}.

Record Projection := {
  ticker : pystr;
  asset_name : pystr;
  initial_amount : Q;
  final_value : Q;
  total_gain : Q;
  total_gain_pct : Q;
  annualized_return_pct : Q;
  avg_monthly_return_pct : Q;
  monthly_breakdown : list MonthlyProjection;
  data_period : pystr;
  disclaimer : pystr
}.

(** The projection dict of a NaN average.  Its [final_value], [total_gain],
    [total_gain_pct] and [avg_monthly_return_pct] and the [value], [gain]
    and [gain_pct] of every breakdown entry are [nan]; the fields below are
    the others, [nan_months] being the [month] of each breakdown entry and
    [None] in [nan_annualized_return_pct] being [nan]. *)
Record NanProjection := {
  nan_ticker : pystr;
  nan_asset_name : pystr;
  nan_initial_amount : Q;
  nan_annualized_return_pct : option Q;
  nan_months : list Z;
  nan_data_period : pystr;
  nan_disclaimer : pystr
}.

(** The returned dict either has the key ["error"] or is a projection, of
    numbers or of NaN. *)
Inductive Result :=
| ErrorResult (error : pystr)
| ProjectionResult (p : Projection)
| NanProjectionResult (p : NanProjection).

(** ["error" in result] *)
Definition has_error (r : Result) : bool :=
  match r with
  | ErrorResult _ => true
  | ProjectionResult _ | NanProjectionResult _ => false
  end.

Definition DISCLAIMER : pystr :=
  py "Este cálculo es estimativo, basado en rendimientos históricos promedio. El rendimiento pasado no garantiza resultados futuros. No constituye asesoría financiera oficial.".

(** One iteration of the projection loop (lines 66-74); the state is
    [(current_value, monthly_breakdown)]. *)
Definition project_month (amount : Q) (avg_monthly_return : Q) (m : Z)
    (st : Q * list MonthlyProjection) : Exc (Q * list MonthlyProjection) :=
  let '(current_value, monthly_breakdown) := st in
  let current_value := (current_value * (1 + avg_monthly_return))%Q in
  let gain := (current_value - amount)%Q in
  let! r := py_div gain amount in
  let gain_pct := (r * 100)%Q in
  ret (current_value,
       monthly_breakdown ++ [{|
         month := m;
         value := py_round current_value 2;
         gain := py_round gain 2;
         gain_pct := py_round gain_pct 2 |}]).

(** [nan / y]: the division raises on a zero divisor whatever the dividend,
    and is nan otherwise. *)
Definition nan_div (y : Q) : Exc unit :=
  if Qeq_bool y 0
  then raise (Exception (py "ZeroDivisionError") (py "float division by zero"))
  else ret tt.

(** One iteration of the projection loop when the average is NaN:
    [current_value] and [gain] are nan, the division is still checked, and
    the entry appended holds the month and three nan; the state is the
    months appended so far. *)
Definition project_month_nan (amount : Q) (m : Z) (months : list Z) : Exc (list Z) :=
  let! gain_pct := nan_div amount in
  ret (months ++ [m]).

Section with_libraries.
Context (U : Unicode) (I : Interp) (yf : YFinance) (pd : Pandas).

(** Lines 43-59: the history, its monthly closes and their average return,
    [None] for NaN.  [inl] is an early [return] of an error dict. *)
Definition average_monthly_return (ticker : pystr)
  : Exc (Result + option Q * pystr) :=
  let! hist := history yf ticker (py "2y") in
  if df_empty hist || (df_len hist <? 20)
  then ret (inl (ErrorResult (py "No hay datos históricos suficientes para " ++ ticker)))
  else
  let! idx := to_datetime pd (fst <$> Close hist) in
  let! hist := set_index hist idx in
  let! monthly_prices := resample_ME_last pd (Close hist) in
  if len monthly_prices <? 2
  then ret (inl (ErrorResult
         (py "Datos insuficientes para calcular retorno mensual de " ++ ticker)))
  else
  let! changes := pct_change pd monthly_prices in
  let monthly_returns := dropna changes in
  let! avg_monthly_return := mean pd monthly_returns in
  let! t_first := index_first monthly_prices in
  let! t_last := index_last monthly_prices in
  let data_period :=
    strftime pd t_first (py "%b %Y") ++ py " – " ++ strftime pd t_last (py "%b %Y") in
  ret (inr (avg_monthly_return, data_period)).

(** Lines 61-98: the projection itself. *)
Definition project (ticker : pystr) (amount : Q) (months : Z)
    (avg_monthly_return : Q) (data_period : pystr) : Exc Result :=
  let! st :=
    for_each (seqZ 1 months) (project_month amount avg_monthly_return) (amount, []) in
  let monthly_breakdown := snd st in
  let! last_entry := last_item monthly_breakdown in
  let final_value := value last_entry in
  let total_gain := (final_value - amount)%Q in
  let! r := py_div total_gain amount in
  let total_gain_pct := (r * 100)%Q in
  let years := (inject_Z months / 12)%Q in
  let! annualized_return :=
    if Qlt_le_dec 0 years
    then let! ratio := py_div final_value amount in
         let! exponent := py_div 1 years in
         match float_pow I ratio exponent with
         | PowFloat p => ret (Some ((p - 1) * 100)%Q)
         | PowComplex => ret None
         | PowRaise e => raise e
         end
    else ret (Some 0%Q) in
  let asset_name := default ticker (dict_get ASSET_NAMES ticker) in
  let! annualized_return_rounded :=
    match annualized_return with
    | Some a => ret (py_round a 2)
    | None => raise (Exception (py "TypeError")
                       (py "type complex doesn't define __round__ method"))
    end in
  ret (ProjectionResult {|
    ticker := ticker;
    asset_name := asset_name;
    initial_amount := py_round amount 2;
    final_value := py_round final_value 2;
    total_gain := py_round total_gain 2;
    total_gain_pct := py_round total_gain_pct 2;
    annualized_return_pct := annualized_return_rounded;
    avg_monthly_return_pct := py_round (avg_monthly_return * 100) 4;
    monthly_breakdown := monthly_breakdown;
    data_period := data_period;
    disclaimer := DISCLAIMER |}).

(** Lines 61-98 when the average is NaN.  Nothing raises on nan itself:
    [round] returns it unchanged, and [nan ** y] is nan unless [y] is zero,
    when it is 1. *)
Definition project_nan (ticker : pystr) (amount : Q) (months : Z)
    (data_period : pystr) : Exc Result :=
  let! breakdown_months := for_each (seqZ 1 months) (project_month_nan amount) [] in
  let! last_month := last_item breakdown_months in
  let! total_gain_pct := nan_div amount in
  let years := (inject_Z months / 12)%Q in
  let! annualized_return :=
    if Qlt_le_dec 0 years
    then let! ratio := nan_div amount in
         let! exponent := py_div 1 years in
         ret (if Qeq_bool exponent 0 then Some 0%Q else None)
    else ret (Some 0%Q) in
  let asset_name := default ticker (dict_get ASSET_NAMES ticker) in
  ret (NanProjectionResult {|
    nan_ticker := ticker;
    nan_asset_name := asset_name;
    nan_initial_amount := py_round amount 2;
    nan_annualized_return_pct := annualized_return;
    nan_months := breakdown_months;
    nan_data_period := data_period;
    nan_disclaimer := DISCLAIMER |}).

(** The body of the [try] block. *)
Definition projection_body (ticker : pystr) (amount : Q) (months : Z) : Exc Result :=
  let! stats := average_monthly_return ticker in
  match stats with
  | inl early => ret early
  | inr (Some avg_monthly_return, data_period) =>
    project ticker amount months avg_monthly_return data_period
  | inr (None, data_period) =>
    project_nan ticker amount months data_period
  end.

Definition calculate_projection (ticker : pystr) (amount : Q) (months : Z) : Exc Result :=
  let ticker := strip (upper U ticker) in
  try_except
    (projection_body ticker amount months)
    (fun e => ret (ErrorResult
       (py "No se pudo calcular la proyección para " ++ ticker ++ py ": " ++ exc_str e))).

End with_libraries.
End calculator.

(** ** External services of the advisor *)

Record GenAI := {
  (** [client.models.generate_content(model=m, contents=p).text] *)
  generate_content : pystr -> pystr -> Exc (option pystr)
}.

Record Json := {
  (** [json.loads(text)] *)
  loads : pystr -> Exc PyValue
}.

(** [data.get(key, default)] *)
Definition py_get (data : PyValue) (key : pystr) (dflt : PyValue) : Exc PyValue :=
  match data with
  | PDict d => ret (default dflt (d !! key))
  | _ => raise (Exception (py "AttributeError") (py "object has no attribute 'get'"))
  end.

(** [l[i]] for [i >= 0] *)
Definition getitem {A} (l : list A) (i : Z) : Exc A :=
  match l !! Z.to_nat i with
  | Some a => ret a
  | None => raise (Exception (py "IndexError") (py "list index out of range"))
  end.

(** A list comprehension whose element expression may raise. *)
Fixpoint comprehension {A B} (f : A -> Exc B) (xs : list A) : Exc (list B) :=
  match xs with
  | [] => ret []
  | x :: r => let! y := f x in let! ys := comprehension f r in ret (y :: ys)
  end.

(** [s.split(sep)[0]] for a one-character separator *)
Fixpoint first_piece (sep : N) (s : pystr) : pystr :=
  match s with
  | [] => []
  | c :: r => if (c =? sep)%N then [] else c :: first_piece sep r
  end.

(** * ai_advisor.py *)
Module ai_advisor.

Definition MODEL_NAME : pystr := py "gemini-2.0-flash".

(** [genai.GenerativeModel(name)] on line 66.  The module imported on line
    10, [from google import genai], is the SDK that is used through
    [genai.Client] (line 20); it has no attribute [GenerativeModel], so the
    lookup raises before anything is called. *)
Definition GenerativeModel (name : pystr) : Exc unit :=
  raise (Exception (py "AttributeError")
           (py "module 'google.genai' has no attribute 'GenerativeModel'")).

Definition RISK_QUESTIONS : list pystr := [
  py "1️⃣ **¿Cuál es tu objetivo principal al invertir?**" ++ newline ++
  py "   a) Conservar mi dinero y protegerme de la inflación" ++ newline ++
  py "   b) Crecer moderadamente con riesgo controlado" ++ newline ++
  py "   c) Maximizar el crecimiento aunque implique alta volatilidad";

  py "2️⃣ **Si tu inversión cayera un 20% en un mes, ¿qué harías?**" ++ newline ++
  py "   a) Vendería todo para evitar más pérdidas" ++ newline ++
  py "   b) Esperaría a que se recupere sin hacer nada" ++ newline ++
  py "   c) Compraría más, es una oportunidad de precio bajo";

  py "3️⃣ **¿Cuánto tiempo planeas mantener tu inversión?**" ++ newline ++
  py "   a) Menos de 1 año" ++ newline ++
  py "   b) Entre 1 y 5 años" ++ newline ++
  py "   c) Más de 5 años";

  py "4️⃣ **¿Con qué porcentaje de tus ahorros estás dispuesto a asumir riesgo?**" ++ newline ++
  py "   a) Menos del 20%" ++ newline ++
  py "   b) Entre el 20% y el 50%" ++ newline ++
  py "   c) Más del 50%, busco retornos altos";

  py "5️⃣ **¿Cuál de estas frases describe mejor tu situación financiera?**" ++ newline ++
  py "   a) Tengo ingresos fijos y no puedo permitirme grandes pérdidas" ++ newline ++
  py "   b) Tengo estabilidad pero quiero hacer crecer mi patrimonio" ++ newline ++
  py "   c) Tengo ingresos variables y alta tolerancia a la incertidumbre"
].

Definition get_risk_question (question_number : Z) : pystr :=
  if (0 <=? question_number) && (question_number <? len RISK_QUESTIONS)
  then default [] (RISK_QUESTIONS !! Z.to_nat question_number)
       ++ newline ++ newline ++ py "*Pregunta " ++ str_of_int (question_number + 1)
       ++ py " de " ++ str_of_int (len RISK_QUESTIONS) ++ py "*"
  else [].

Record RiskProfile := {
  profile : PyValue;
  explanation : PyValue;
  recommendations : PyValue
}.

(** The dict of the [except] branch of [evaluate_risk_profile]. *)
Definition DEFAULT_RISK_PROFILE : RiskProfile := {|
  profile := PStr (py "Moderado");
  explanation := PStr (py "No pudimos procesar tu test completamente, pero te asignamos un perfil Moderado por defecto.");
  recommendations := PStr (py "Considera ETFs diversificados como SPY o QQQ como punto de partida.")
|}.

(** [re.sub(r"```json|```", "", text)]; [skip] characters of a match are
    still to be dropped. *)
Fixpoint sub_fences (skip : nat) (text : pystr) : pystr :=
  match text with
  | [] => []
  | c :: r =>
    match skip with
    | S k => sub_fences k r
    | O =>
      if startswith (py "```json") text then sub_fences 6 r
      else if startswith (py "```") text then sub_fences 2 r
      else c :: sub_fences 0 r
    end
  end.

Definition risk_prompt (name_part qa_text : pystr) : pystr :=
  join newline [
    [];
    py "Actúa como un asesor financiero experto. " ++ name_part;
    py "El usuario ha respondido el Test de Perfil de Riesgo:";
    [];
    qa_text;
    [];
    py "TAREA: Analiza las respuestas y:";
    py "1. Clasifica al usuario como exactamente UNO de: **Conservador**, **Moderado**, o **Agresivo**";
    py "2. Explica brevemente por qué (2-3 oraciones, tono cálido y personalizado)";
    py "3. Da 2 recomendaciones de activos concretas y apropiadas para su perfil";
    [];
    py "Responde EXACTAMENTE en este formato JSON (sin markdown, solo JSON puro):";
    py "{";
    py "  " ++ dquote ++ py "profile" ++ dquote ++ py ": " ++ dquote
      ++ py "Conservador|Moderado|Agresivo" ++ dquote ++ py ",";
    py "  " ++ dquote ++ py "explanation" ++ dquote ++ py ": " ++ dquote
      ++ py "Tu explicación aquí..." ++ dquote ++ py ",";
    py "  " ++ dquote ++ py "recommendations" ++ dquote ++ py ": " ++ dquote
      ++ py "Tus recomendaciones aquí..." ++ dquote;
    py "}";
    []
  ].

Section with_libraries.
Context (U : Unicode) (ai : GenAI) (json : Json).

(** Lines 67-90: the prompt sent to the model. *)
Definition risk_test_prompt (answers : list pystr) (user_name : option pystr)
  : Exc pystr :=
  let! qa_lines :=
    comprehension
      (fun i =>
         let! question := getitem RISK_QUESTIONS i in
         let! answer := getitem answers i in
         ret (py "P" ++ str_of_int (i + 1) ++ py ": " ++ first_piece 10 question
              ++ newline ++ py "R" ++ str_of_int (i + 1) ++ py ": " ++ answer))
      (seqZ 0 (Z.min (len answers) 5)) in
  let qa_text := join newline qa_lines in
  let name_part :=
    match user_name with
    | Some ((_ :: _) as n) => py "El usuario se llama " ++ n ++ py "."
    | _ => []
    end in
  ret (risk_prompt name_part qa_text).

(** Lines 95 and 100: the text handed to [json.loads]. *)
Definition clean_response (response_text : pystr) : pystr :=
  strip (sub_fences 0 (strip response_text)).

(** Lines 95-107: from the text of the response to the returned dict. *)
Definition parse_risk_response (response_text : option pystr) : Exc RiskProfile :=
  let! text :=
    match response_text with
    | Some t => ret (clean_response t)
    | None => raise (Exception (py "AttributeError")
                       (py "'NoneType' object has no attribute 'strip'"))
    end in
  let! data := loads json text in
  let! p := py_get data (py "profile") (PStr (py "Moderado")) in
  let! e := py_get data (py "explanation") (PStr []) in
  let! r := py_get data (py "recommendations") (PStr []) in
  ret {| profile := p; explanation := e; recommendations := r |}.

(** The body of the [try] block of [evaluate_risk_profile]. *)
Definition evaluate_body (answers : list pystr) (user_name : option pystr)
  : Exc RiskProfile :=
  let! model := GenerativeModel MODEL_NAME in
  let! prompt := risk_test_prompt answers user_name in
  let! response_text := generate_content ai MODEL_NAME prompt in
  parse_risk_response response_text.

Definition evaluate_risk_profile (answers : list pystr) (user_name : option pystr)
  : Exc RiskProfile :=
  try_except (evaluate_body answers user_name) (fun e => ret DEFAULT_RISK_PROFILE).

Definition PROFILE_GUIDANCE : list (pystr * pystr) := [
  (py "Conservador", py "El usuario prefiere seguridad. Prioriza productos de bajo riesgo (bonos, ETFs diversificados, depósitos).");
  (py "Moderado", py "El usuario busca equilibrio riesgo/retorno. Acciones blue-chip, ETFs mixtos son adecuados.");
  (py "Agresivo", py "El usuario tolera alta volatilidad a cambio de mayores retornos. Acciones individuales, cripto, sectores de crecimiento.")
].

Definition market_context (market_data : option market_data.MarketData) : pystr :=
  match market_data with
  | Some (market_data.MarketSnapshot s) =>
    py "Datos de mercado en tiempo real:" ++ newline
    ++ py "  - Activo: " ++ market_data.name s ++ newline
    ++ py "  - Precio actual: $" ++ market_data.price s ++ newline
    ++ py "  - Cambio hoy: " ++ market_data.change s
    ++ py " (" ++ market_data.change_percent s ++ py ")" ++ newline
  | _ => py "No hay datos de mercado específicos para este mensaje."
  end.

Definition advisor_prompt (user_message user_profile profile_guidance context : pystr)
  : pystr :=
  join newline [
    [];
    py "Eres Investi, un asesor financiero experto, humano y ético. Hablas siempre en español.";
    [];
    py "PERFIL DEL CLIENTE: " ++ user_profile;
    py "GUÍA DE PERFIL: " ++ profile_guidance;
    [];
    py "MENSAJE DEL USUARIO: " ++ dquote ++ user_message ++ dquote;
    [];
    context;
    [];
    py "INSTRUCCIONES:";
    py "- Responde de forma natural, cálida y directa (máximo 4-5 párrafos)";
    py "- Si hay datos de mercado, analízalos brevemente en el contexto del perfil del usuario";
    py "- Si no hay datos específicos, da consejos generales de inversión relevantes al mensaje";
    py "- Usa negrita (**texto**) para destacar datos clave";
    py "- Termina SIEMPRE con: " ++ dquote
      ++ py "⚠️ *Este análisis es educativo y no constituye asesoría financiera oficial.*"
      ++ dquote;
    []
  ].

Definition get_unified_analysis (user_message user_profile : pystr)
    (market_data : option market_data.MarketData) : Exc (option pystr) :=
  try_except
    (let context := market_context market_data in
     let profile_guidance :=
       default (py "Perfil Moderado.") (dict_get PROFILE_GUIDANCE user_profile) in
     let prompt := advisor_prompt user_message user_profile profile_guidance context in
     generate_content ai MODEL_NAME prompt)
    (fun e => ret (Some
       (py "Lo siento, tuve un problema procesando tu consulta. Por favor intenta de nuevo. (Error: "
        ++ exc_str e ++ py ")"))).

End with_libraries.

(** Common Spanish/English stop words to ignore. *)
Definition STOP_WORDS : gset pystr :=
  list_to_set (map py [
    "HOY"; "COMO"; "ESTA"; "ACCION"; "RIESGO"; "BAJO"; "INVERTIR";
    "SECTORES"; "PRECIO"; "PARA"; "QUE"; "UNA"; "LAS"; "LOS"; "DEL";
    "CON"; "POR"; "MAS"; "SUS"; "HAY"; "SON"; "CUAL"; "ESTA";
    "DEBO"; "PUEDO"; "DEBERIA"; "QUIERO"; "HACER"; "TIENE"; "TIENE";
    "CUANTO"; "VALE"; "COTIZA"; "MERCADO"; "BOLSA"; "MEJOR"; "PEOR"
  ]%string).

(** The character class of the first [re.sub]: inverted and plain question
    and exclamation marks, full stop, comma, semicolon, colon, double and
    single quote, parentheses and the line feed. *)
Definition PUNCTUATION : list N :=
  [191; 63; 161; 33; 46; 44; 59; 58; 34; 39; 40; 41; 10]%N.

Definition sub_punctuation (message : pystr) : pystr :=
  map (fun c => if bool_decide (c ∈ PUNCTUATION) then 32%N else c) message.

(** [for keyword, ticker in KEYWORD_TO_TICKER.items(): if keyword in lower_msg:
    return ticker] *)
Fixpoint keyword_loop (items : list (pystr * pystr)) (lower_msg : pystr) : option pystr :=
  match items with
  | [] => None
  | (keyword, ticker) :: r =>
    if contains keyword lower_msg then Some ticker else keyword_loop r lower_msg
  end.

(** The greedy [[A-Z]{1,5}] of the cash-tag pattern: up to [n] capitals. *)
Fixpoint take_AZ (n : nat) (s : pystr) : pystr * pystr :=
  match n, s with
  | S k, c :: r =>
    if is_AZ c then let '(letters, rest) := take_AZ k r in (c :: letters, rest)
    else ([], s)
  | _, _ => ([], s)
  end.

(** A match of [([A-Z]{1,5}(?:-USD)?)] at the start of [s]: its group 1. *)
Definition cashtag_here (s : pystr) : option pystr :=
  let '(letters, rest) := take_AZ 5 s in
  match letters with
  | [] => None
  | _ => Some (letters ++ if startswith (py "-USD") rest then py "-USD" else [])
  end.

(** [re.search(r"\$([A-Z]{1,5}(?:-USD)?)", s)]: group 1 of the leftmost match. *)
Fixpoint search_cashtag (s : pystr) : option pystr :=
  match s with
  | [] => None
  | c :: r =>
    if (c =? 36)%N
    then match cashtag_here r with
         | Some g => Some g
         | None => search_cashtag r
         end
    else search_cashtag r
  end.

(** [re.sub(r"[^A-Z]", "", word.upper())] *)
Definition clean_word (U : Unicode) (word : pystr) : pystr :=
  filter (fun c => is_AZ c) (upper U word).

(** The test of the third loop. *)
Definition is_candidate (clean : pystr) : bool :=
  (2 <=? len clean) && (len clean <=? 5) && negb (bool_decide (clean ∈ STOP_WORDS)).

Fixpoint word_loop (U : Unicode) (words : list pystr) : option pystr :=
  match words with
  | [] => None
  | word :: r =>
    let clean := clean_word U word in
    if is_candidate clean then Some clean else word_loop U r
  end.

Definition extract_ticker_from_message (U : Unicode) (message : pystr) : pystr :=
  let words := split (sub_punctuation message) in
  let lower_msg := lower U message in
  match keyword_loop market_data.KEYWORD_TO_TICKER lower_msg with
  | Some ticker => ticker
  | None =>
    match search_cashtag (upper U message) with
    | Some symbol => symbol
    | None =>
      match word_loop U words with
      | Some clean => clean
      | None => py "UNKNOWN"
      end
    end
  end.

Definition extract_ticker_simple (U : Unicode) (message : pystr) : pystr :=
  extract_ticker_from_message U message.

End ai_advisor.

(** ** Persistence and cryptography *)

(** models.py: a row of the [users] table. *)
Module models.
Record User := {
  id : Z;
  name : pystr;
  email : option pystr;
  age : option Z;
  monthly_income : option Q;
  password_hash : option pystr;
  created_at : Timestamp
}.
End models.

(** A database session, as far as the code reads it: the rows of [users]. *)
Record Session := { users : list models.User }.

(** [db.query(User).filter(User.email == e).first()] *)
Definition first_by_email (db : Session) (e : pystr) : option models.User :=
  List.find (fun u => bool_decide (models.email u = Some e)) (users db).

(** [db.query(User).filter(User.id == i).first()] *)
Definition first_by_id (db : Session) (i : Z) : option models.User :=
  List.find (fun u => bool_decide (models.id u = i)) (users db).

Record Crypto := {
  (** [bcrypt.checkpw(plain, hashed)] *)
  checkpw : pystr -> pystr -> Exc bool;
  (** [jwt.encode(claims, key, algorithm=a)] *)
  jwt_encode : gmap pystr PyValue -> pystr -> pystr -> Exc pystr;
  (** [jwt.decode(token, key, algorithms=l)] *)
  jwt_decode : pystr -> pystr -> list pystr -> Exc (gmap pystr PyValue);
  (** [datetime.utcnow()], in seconds *)
  utcnow : Z
}.

(** * auth.py *)
Module auth.

Definition SECRET_KEY : pystr := py "investi-super-secret-key-2026-cambiar-en-produccion".
Definition ALGORITHM : pystr := py "HS256".
Definition ACCESS_TOKEN_EXPIRE_MINUTES : Z := 60 * 24.

Section with_libraries.
Context (I : Interp) (C : Crypto).

Definition verify_password (plain hashed : pystr) : Exc bool := checkpw C plain hashed.

(** [expires_delta or timedelta(minutes=15)], in minutes: a delta of zero
    is false and gives way to the default like a missing one. *)
Definition delta_or_default (expires_delta : option Z) : Z :=
  match expires_delta with
  | Some d => if d =? 0 then 15 else d
  | None => 15
  end.

(** [expires_delta] is a number of minutes, if given. *)
Definition create_access_token (data : gmap pystr PyValue) (expires_delta : option Z)
  : Exc pystr :=
  let to_encode := data in
  let expire := utcnow C + 60 * delta_or_default expires_delta in
  let to_encode := <[py "exp" := PDatetime expire]> to_encode in
  jwt_encode C to_encode SECRET_KEY ALGORITHM.

Definition credentials_exception : PyExc :=
  HTTPException 401 (py "Token inválido o expirado")
    (Some [(py "WWW-Authenticate", py "Bearer")]).

(** [try: body  except JWTError: handler] *)
Definition try_except_JWTError {A} (body : Exc A) (handler : Exc A) : Exc A :=
  match body with
  | inl (JWTError _) => handler
  | other => other
  end.

Definition get_current_user (token : pystr) (db : Session) : Exc models.User :=
  let! user_id :=
    try_except_JWTError
      (let! payload := jwt_decode C token SECRET_KEY [ALGORITHM] in
       let user_id := default PNone (payload !! py "sub") in
       match user_id with
       | PNone => raise credentials_exception
       | _ => ret user_id
       end)
      (raise credentials_exception) in
  let! uid := int_of I user_id in
  match first_by_id db uid with
  | None => raise credentials_exception
  | Some user => ret user
  end.

End with_libraries.
End auth.

(** * router_auth.py *)
Module router_auth.

Record OAuth2PasswordRequestForm := { username : pystr; password : pystr }.

Record TokenResponse := {
  access_token : pystr;
  token_type : pystr;
  user_id : Z;
  name : pystr
}.

(** [not user.password_hash] *)
Definition no_hash (h : option pystr) : bool :=
  match h with
  | None | Some [] => true
  | Some (_ :: _) => false
  end.

Section with_libraries.
Context (I : Interp) (C : Crypto).

Definition login (form : OAuth2PasswordRequestForm) (db : Session) : Exc TokenResponse :=
  let user := first_by_email db (username form) in
  let bad_credentials := HTTPException 401 (py "Email o contraseña incorrectos") None in
  let! user :=
    match user with
    | None => raise bad_credentials
    | Some user =>
      if no_hash (models.password_hash user) then raise bad_credentials
      else
        let! ok := auth.verify_password C (password form)
                     (default [] (models.password_hash user)) in
        if negb ok then raise bad_credentials else ret user
    end in
  let! token :=
    auth.create_access_token C
      {[ py "sub" := PStr (str_of_int (models.id user)) ]}
      (Some auth.ACCESS_TOKEN_EXPIRE_MINUTES) in
  ret {| access_token := token; token_type := py "bearer";
         user_id := models.id user; name := models.name user |}.

End with_libraries.
End router_auth.

(** * main.py *)
Module main.

(** What the framework sends for the outcome of an endpoint function. *)
Inductive Response (A : Type) :=
| Ok (body : A)
| Error (status : Z) (detail : pystr).
Arguments Ok {A} body.
Arguments Error {A} status detail.

Definition respond {A} (r : Exc A) : Response A :=
  match r with
  | inr body => Ok body
  | inl (HTTPException status detail _) => Error status detail
  | inl _ => Error 500 (py "Internal Server Error")
  end.

(** schemas.py *)
Record ChatRequest := { message : pystr; profile : pystr }.
Record CalculatorRequest := { ticker : pystr; amount : Q; months : Z }.
Record RiskTestEvaluateRequest := { answers : list pystr; user_name : option pystr }.

(** The [Field] constraints of [CalculatorRequest]. *)
Definition valid_calculator_request (r : CalculatorRequest) : Prop :=
  (10 <= amount r)%Q /\ 1 <= months r <= 48.

Record ChatResponse := {
  reply : option pystr;
  market_data : option market_data.MarketData;
  detected_ticker : pystr
}.

Record QuestionResponse := {
  question_number : Z;
  total_questions : Z;
  question : pystr
}.

Section with_libraries.
Context (U : Unicode) (I : Interp) (yf : YFinance) (pd : Pandas)
        (ai : GenAI) (json : Json).

Definition chat_endpoint (request : ChatRequest) : Exc ChatResponse :=
  let ticker := ai_advisor.extract_ticker_from_message U (message request) in
  let! market_data :=
    if negb (pystr_eqb ticker (py "UNKNOWN"))
    then let! d := market_data.get_market_data U yf ticker in ret (Some d)
    else ret None in
  let market_data :=
    match market_data with
    | Some d => if market_data.has_error d then None else Some d
    | None => None
    end in
  let! ai_reply :=
    ai_advisor.get_unified_analysis ai (message request) (profile request) market_data in
  ret {| reply := ai_reply; market_data := market_data; detected_ticker := ticker |}.

Definition market_top_assets : Exc (list market_data.TopEntry) :=
  market_data.get_top_assets U yf.


Definition calculate_endpoint (request : CalculatorRequest) : Exc calculator.Result :=
  let! result :=
    calculator.calculate_projection U I yf pd
      (ticker request) (amount request) (months request) in
  match result with
  | calculator.ErrorResult e => raise (HTTPException 422 e None)
  | calculator.ProjectionResult _ => ret result
  | calculator.NanProjectionResult _ =>
    (* the returned dict cannot be rendered: the framework encodes the body
       with [json.dumps(..., allow_nan=False)] *)
    raise (Exception (py "ValueError")
             (py "Out of range float values are not JSON compliant"))
  end.

Definition get_question (number : Z) : Exc QuestionResponse :=
  if negb ((1 <=? number) && (number <=? 5))
  then raise (HTTPException 400 (py "Question number must be between 1 and 5") None)
  else
  let question := ai_advisor.get_risk_question (number - 1) in
  ret {| question_number := number; total_questions := 5; question := question |}.

Definition evaluate_risk_test (request : RiskTestEvaluateRequest)
  : Exc ai_advisor.RiskProfile :=
  if len (answers request) <? 5
  then raise (HTTPException 400
         (py "Se necesitan 5 respuestas, se recibieron "
          ++ str_of_int (len (answers request))) None)
  else ai_advisor.evaluate_risk_profile ai json (answers request) (user_name request).

End with_libraries.
End main.

(** * Concrete libraries for running the embedding *)

(** Case tables that leave every non-ASCII character alone. *)
Definition plain_unicode : Unicode :=
  {| unicode_upper := fun c => [c]; unicode_lower := fun _ c _ => [c] |}.

(** Exact powers for whole exponents; anything else is reported as an
    overflow. *)
Definition whole_pow (b e : Q) : PowResult :=
  match Qred e with
  | Qmake n 1 => PowFloat (Qpower b n)
  | _ => PowRaise (Exception (py "OverflowError") (py "(34, 'Numerical result out of range')"))
  end.

Definition plain_interp : Interp :=
  {| float_pow := whole_pow;
     int_of := fun v =>
       match v with
       | PInt n => ret n
       | PStr [c] => if ((48 <=? c) && (c <=? 57))%N then ret (Z.of_N c - 48)
                     else raise (Exception (py "ValueError") (py "invalid literal for int()"))
       | _ => raise (Exception (py "ValueError") (py "invalid literal for int()"))
       end |}.

(** A provider with [n] daily closes at price [p] for every ticker. *)
Definition flat_history (n : nat) (p : Q) : DataFrame :=
  {| Close := map (fun i => (Z.of_nat i, Some p)) (seq 0 n) |}.

Definition flat_market (n : nat) (p : Q) : YFinance :=
  {| history := fun _ _ => ret (flat_history n p);
     info := fun _ => ret ∅;
     download := fun tickers _ =>
       ret (Grouped (list_to_map (map (fun t => (t, flat_history n p)) tickers))) |}.

(** A provider whose every call fails. *)
Definition offline_market : YFinance :=
  let e := Exception (py "ConnectionError") (py "network unreachable") in
  {| history := fun _ _ => raise e;
     info := fun _ => raise e;
     download := fun _ _ => raise e |}.

(** Month ends every 30 rows, and a fixed average return [avg]. *)
Definition coarse_pandas (avg : Q) : Pandas :=
  {| to_datetime := fun idx => ret idx;
     resample_ME_last := fun s =>
       ret (map (fun i => default (0, None) (s !! (i * 30)%nat))
                (seq 0 (length s / 30 + 1)));
     pct_change := fun s => ret (map (fun r => (fst r, Some avg)) (tail s));
     mean := fun _ => ret (Some avg);
     strftime := fun t _ => str_of_int t |}.


(** A model that answers every prompt with the same text. *)
Definition canned_llm (reply : pystr) : GenAI :=
  {| generate_content := fun _ _ => ret (Some reply) |}.

(** A model that cannot be reached. *)
Definition offline_llm : GenAI :=
  let e := Exception (py "ServerError") (py "503 UNAVAILABLE") in
  {| generate_content := fun _ _ => raise e |}.

(** A decoder that knows the empty object and rejects everything else. *)
Definition empty_object_json : Json :=
  {| loads := fun text =>
       if pystr_eqb text (py "{}") then ret (PDict ∅)
       else raise (Exception (py "JSONDecodeError") (py "Expecting value")) |}.

(** Password and token primitives over a table of known values. *)
Definition table_crypto (passwords : list (pystr * pystr))
    (tokens : list (pystr * gmap pystr PyValue)) : Crypto :=
  {| checkpw := fun plain hashed =>
       ret (bool_decide (dict_get passwords hashed = Some plain));
     jwt_encode := fun claims _ _ =>
       ret (py "token-" ++ match claims !! py "sub" with
                           | Some (PStr s) => s
                           | _ => []
                           end);
     jwt_decode := fun token _ _ =>
       match dict_get tokens token with
       | Some claims => ret claims
       | None => raise (JWTError (py "Signature verification failed."))
       end;
     utcnow := 0 |}.

(** A small [users] table and the primitives that go with it. *)
Definition two_users : Session :=
  {| users := [
       {| models.id := 1; models.name := py "Ana";
          models.email := Some (py "ana@example.com");
          models.age := Some 30; models.monthly_income := None;
          models.password_hash := Some (py "hash-of-secreto");
          models.created_at := 0 |};
       {| models.id := 2; models.name := py "Luis";
          models.email := Some (py "luis@example.com");
          models.age := None; models.monthly_income := None;
          models.password_hash := None;
          models.created_at := 0 |} ] |}.


(** * Vocabulary of the specification *)

(** ** Projection calculator *)

Section calculator_vocabulary.
Context (I : Interp) (yf : YFinance) (pd : Pandas).

(** The fetched daily history is empty or has fewer than 20 observations. *)
Definition insufficient_daily (t : pystr) : Prop :=
  exists hist, history yf t (py "2y") = inr hist /\
               (df_empty hist = true \/ df_len hist < 20).

(** [mp] are the monthly closes obtained by resampling the fetched history. *)
Definition monthly_closes (t : pystr) (mp : Series) : Prop :=
  exists hist idx hist',
    history yf t (py "2y") = inr hist /\
    to_datetime pd (fst <$> Close hist) = inr idx /\
    set_index hist idx = inr hist' /\
    resample_ME_last pd (Close hist') = inr mp.

(** Fewer than 2 monthly closes exist after resampling. *)
Definition insufficient_monthly (t : pystr) : Prop :=
  exists mp, monthly_closes t mp /\ len mp < 2.

(** An exception occurs while fetching or computing. *)
Definition raises (t : pystr) (amount : Q) (months : Z) (e : PyExc) : Prop :=
  calculator.projection_body I yf pd t amount months = inl e.

(** The average monthly return the calculator computes for [t]. *)
Definition computed_average (t : pystr) (avg : Q) : Prop :=
  exists period, calculator.average_monthly_return yf pd t = inr (inr (Some avg, period)).

(** The average monthly return the calculator computes for [t] is NaN. *)
Definition nan_average (t : pystr) : Prop :=
  exists period, calculator.average_monthly_return yf pd t = inr (inr (None, period)).

End calculator_vocabulary.

(** A breakdown value that is already a two-decimal number. *)
Definition rounded2 (e : calculator.MonthlyProjection) : Prop :=
  py_round (calculator.value e) 2 = calculator.value e.

(** ** Authentication *)

Section auth_vocabulary.
Context (I : Interp) (C : Crypto).



End auth_vocabulary.

(** ** Ticker resolver *)

(** [k] occurs as a substring of [s]. *)
Definition occurs_in (k s : pystr) : Prop := exists pre post, s = pre ++ k ++ post.

Definition starts_with_letter (s : pystr) : Prop :=
  exists c r, s = c :: r /\ is_AZ c = true.

(** [s] contains a dollar sign followed by a capital letter. *)
Definition has_cashtag (s : pystr) : Prop :=
  exists pre c post, s = pre ++ 36%N :: c :: post /\ is_AZ c = true.

(** [sym] is what the cash-tag pattern captures in [s]: after the leftmost
    dollar sign that a capital follows, the longest run of at most five
    capitals, with the suffix "-USD" when it comes next. *)
Definition captured_symbol (s sym : pystr) : Prop :=
  exists pre letters rest,
    s = pre ++ 36%N :: letters ++ rest /\
    ~ has_cashtag (pre ++ [36%N]) /\
    (1 <= length letters <= 5)%nat /\
    Forall (fun c => is_AZ c = true) letters /\
    (length letters = 5%nat \/ ~ starts_with_letter rest) /\
    (((exists r, rest = py "-USD" ++ r) /\ sym = letters ++ py "-USD") \/
     (~ (exists r, rest = py "-USD" ++ r) /\ sym = letters)).

(** The letters-only uppercased form [clean] of a token makes it a ticker
    candidate. *)
Definition qualifies (clean : pystr) : Prop :=
  2 <= len clean <= 5 /\ clean ∉ ai_advisor.STOP_WORDS.

(** A character that ends a token: whitespace, or one of the marks the
    resolver strips, which are the inverted and the plain question and
    exclamation mark, full stop, comma, semicolon, colon, double and single
    quote, the two parentheses and the line feed. *)
Definition separator (c : N) : Prop :=
  is_space c = true \/ c ∈ py "¿?¡!.,;:'()" \/ c = 34%N \/ c = 10%N.

(** [words] are the punctuation-stripped tokens of [s], in order: the
    maximal runs of characters that are no separators. *)
Inductive tokens_of : pystr -> list pystr -> Prop :=
| tokens_none (seps : pystr) :
    Forall separator seps ->
    tokens_of seps []
| tokens_last (seps w : pystr) :
    Forall separator seps ->
    w <> [] -> Forall (fun c => ~ separator c) w ->
    tokens_of (seps ++ w) [w]
| tokens_more (seps w : pystr) (c : N) (rest : pystr) (ws : list pystr) :
    Forall separator seps ->
    w <> [] -> Forall (fun c => ~ separator c) w ->
    separator c ->
    tokens_of (c :: rest) ws ->
    tokens_of (seps ++ w ++ c :: rest) (w :: ws).

(** [clean] is the letters-only form of [s]: its capitals A to Z, in order. *)
Inductive letters_only : pystr -> pystr -> Prop :=
| letters_nil : letters_only [] []
| letters_keep (c : N) (s clean : pystr) :
    is_AZ c = true -> letters_only s clean -> letters_only (c :: s) (c :: clean)
| letters_drop (c : N) (s clean : pystr) :
    is_AZ c = false -> letters_only s clean -> letters_only (c :: s) clean.

(** ** Shapes of a resolved ticker *)

(** One to five capitals, with or without the suffix "-USD". *)
Definition cashtag_shape (sym : pystr) : Prop :=
  exists letters,
    (1 <= length letters <= 5)%nat /\
    Forall (fun c => is_AZ c = true) letters /\
    (sym = letters \/ sym = letters ++ py "-USD").

(** Two to five capitals that are no stop word. *)
Definition ticker_word (w : pystr) : Prop :=
  2 <= len w <= 5 /\ Forall (fun c => is_AZ c = true) w /\ w ∉ ai_advisor.STOP_WORDS.

(** ** What a snapshot is computed from *)

(** The previous close: the one before the last, or the last itself. *)
Definition previous_close (init : Observations) (p : Q) : Q :=
  match last init with
  | Some (_, q) => q
  | None => p
  end.

(** The display name: [longName], else [shortName], else the symbol. *)
Definition display_name (U : Unicode) (yf : YFinance) (symbol : pystr) : pystr :=
  match info yf symbol with
  | inr i =>
    match i !! py "longName" with
    | Some ((_ :: _) as n) => n
    | _ => match i !! py "shortName" with
           | Some ((_ :: _) as n) => n
           | _ => upper U symbol
           end
    end
  | inl _ => upper U symbol
  end.

(** The fallback item for an asset: its snapshot, tagged with the category. *)
Definition with_category (c : pystr) (s : market_data.Snapshot) : market_data.Snapshot :=
  {| market_data.source := market_data.source s;
     market_data.ticker := market_data.ticker s;
     market_data.name := market_data.name s;
     market_data.price := market_data.price s;
     market_data.change := market_data.change s;
     market_data.change_percent := market_data.change_percent s;
     market_data.currency := market_data.currency s;
     market_data.category := Some c |}.

(** A provider whose rows carry no close at all. *)
Definition gap_market : YFinance :=
  {| history := fun _ _ => ret {| Close := [(0, None); (1, None)] |};
     info := fun _ => ret ∅;
     download := fun _ _ => ret (Grouped ∅) |}.

(** The snapshot [_get_yfinance_data] builds from the last close [p] and the
    previous close [prev]. *)
Definition snapshot_of (U : Unicode) (yf : YFinance) (symbol : pystr) (p prev : Q)
  : market_data.Snapshot :=
  {| market_data.source := py "yfinance";
     market_data.ticker := upper U symbol;
     market_data.name := display_name U yf symbol;
     market_data.price := format_2f false true p;
     market_data.change := format_2f true false (p - prev);
     market_data.change_percent :=
       format_2f true false
         (if Qeq_bool prev 0 then 0 else (p - prev) / prev * 100)%Q ++ py "%";
     market_data.currency := py "USD";
     market_data.category := None |}.

(** The ticker of an entry of the dashboard list. *)
Definition entry_ticker (e : market_data.TopEntry) : pystr :=
  match e with
  | market_data.BatchQuote q => market_data.q_ticker q
  | market_data.FallbackItem s => market_data.ticker s
  end.

(** A batch download that has data for Apple only, its latest row empty. *)
Definition apple_only : YFinance :=
  {| history := fun _ _ => raise (Exception (py "ConnectionError") (py "timeout"));
     info := fun _ => ret ∅;
     download := fun _ _ =>
       ret (Grouped {[ py "AAPL" := {| Close := [(0, Some 10%Q); (1, None)] |};
                       py "TSLA" := {| Close := [(0, None)] |} ]}) |}.

(** No batch download, and single fetches that work for Bitcoin only. *)
Definition bitcoin_only : YFinance :=
  {| history := fun t _ =>
       if pystr_eqb t (py "BTC-USD") then ret (flat_history 2 50000)
       else raise (Exception (py "ConnectionError") (py "timeout"));
     info := fun _ => ret ∅;
     download := fun _ _ => raise (Exception (py "ConnectionError") (py "timeout")) |}.

(** ** Compound growth *)

(** [q] to the power [n]. *)
Fixpoint compound (q : Q) (n : nat) : Q :=
  match n with
  | O => 1%Q
  | S k => (q * compound q k)%Q
  end.

(** The running value after [m] months. *)
Definition value_after (amount avg : Q) (m : nat) : Q :=
  (amount * compound (1 + avg) m)%Q.

(** ** Tokens for the small [users] table *)

(** The first row of [two_users]. *)
Definition ana : models.User :=
  {| models.id := 1; models.name := py "Ana";
     models.email := Some (py "ana@example.com");
     models.age := Some 30; models.monthly_income := None;
     models.password_hash := Some (py "hash-of-secreto");
     models.created_at := 0 |}.

(** Primitives that know Ana's password, a token for her and a token whose
    subject is no number. *)
Definition ana_crypto : Crypto :=
  table_crypto
    [(py "hash-of-secreto", py "secreto")]
    [(py "token-1", {[ py "sub" := PStr (py "1"); py "exp" := PInt 86400 ]});
     (py "token-x", {[ py "sub" := PStr (py "abc") ]})].

(** Primitives whose password check rejects every stored hash as malformed. *)
Definition strict_crypto : Crypto :=
  {| checkpw := fun _ _ => raise (Exception (py "ValueError") (py "Invalid salt"));
     jwt_encode := jwt_encode ana_crypto;
     jwt_decode := fun _ _ _ => raise (Exception (py "KeyError") (py "'alg'"));
     utcnow := 0 |}.

(** * Writing to the database *)

(** models.py: a row of the [profiles] table. *)
Record Profile := {
  p_id : Z;
  p_user_id : Z;
  p_risk_profile : pystr;
  p_test_answers : option pystr;
  p_created_at : Timestamp
}.

(** The database a session talks to: the [users] and the [profiles] table. *)
Record Database := { session : Session; profiles : list Profile }.

(** The columns the code sets on a [User(...)] before it is added. *)
Record NewUser := {
  n_name : pystr;
  n_email : option pystr;
  n_age : option Z;
  n_monthly_income : option Q;
  n_password_hash : option pystr
}.

(** The columns the code sets on a [Profile(...)] before it is added. *)
Record NewProfile := {
  np_user_id : Z;
  np_risk_profile : pystr;
  np_test_answers : option pystr
}.

(** SQLAlchemy and the engine behind it. *)
Record Orm := {
  (** [db.add(user); db.commit(); db.refresh(user)]: the database afterwards
      and the refreshed row; a failing commit raises and stores nothing *)
  insert_user : Database -> NewUser -> Exc (Database * models.User);
  (** the same for a profile *)
  insert_profile : Database -> NewProfile -> Exc (Database * Profile);
  (** [.order_by(Profile.created_at.desc())] *)
  order_by_created_at_desc : list Profile -> list Profile
}.

Record Bcrypt := {
  (** [bcrypt.gensalt()] *)
  gensalt : Exc pystr;
  (** [bcrypt.hashpw(password, salt)] *)
  hashpw : pystr -> pystr -> Exc pystr
}.

(** router_auth.py: the body of [POST /api/auth/register]. *)
Record RegisterRequest := {
  r_name : pystr;
  r_email : pystr;
  r_password : pystr;
  r_age : option Z;
  r_monthly_income : option Q
}.




Section with_storage.
Context (B : Bcrypt) (C : Crypto) (O : Orm).

(** auth.py *)
Definition hash_password (password : pystr) : Exc pystr :=
  let! salt := gensalt B in
  hashpw B password salt.

(** The row [register] adds. *)
Definition registered_row (data : RegisterRequest) (h : pystr) : NewUser :=
  {| n_name := r_name data;
     n_email := Some (r_email data);
     n_password_hash := Some h;
     n_age := r_age data;
     n_monthly_income := r_monthly_income data |}.

(** router_auth.py.  The database is returned beside the outcome: what was
    committed stays committed when a later step raises. *)
Definition register (data : RegisterRequest) (db : Database)
  : Database * Exc router_auth.TokenResponse :=
  match first_by_email (session db) (r_email data) with
  | Some existing =>
    (db, raise (HTTPException 409 (py "Este email ya está registrado") None))
  | None =>
    match (let! h := hash_password (r_password data) in
           insert_user O db (registered_row data h)) with
    | inl e => (db, inl e)
    | inr (db', user) =>
      (db',
       let! token :=
         auth.create_access_token C
           {[ py "sub" := PStr (str_of_int (models.id user)) ]}
           (Some auth.ACCESS_TOKEN_EXPIRE_MINUTES) in
       ret {| router_auth.access_token := token;
              router_auth.token_type := py "bearer";
              router_auth.user_id := models.id user;
              router_auth.name := models.name user |})
    end
  end.








End with_storage.

(** ** What the database is relied on for *)

(** The insert put the given columns into a new last row of [users], under
    an id no other row has, and left the profiles alone. *)
Definition user_stored (db : Database) (nu : NewUser) (db' : Database) (u : models.User)
  : Prop :=
  users (session db') = users (session db) ++ [u] /\
  profiles db' = profiles db /\
  models.name u = n_name nu /\
  models.email u = n_email nu /\
  models.age u = n_age nu /\
  models.monthly_income u = n_monthly_income nu /\
  models.password_hash u = n_password_hash nu /\
  Forall (fun v => models.id v <> models.id u) (users (session db)).



(** ** A database in memory *)

(** One more than the largest id in use. *)
Definition next_id (ids : list Z) : Z := 1 + foldr Z.max 0 ids.

Fixpoint insert_desc (p : Profile) (l : list Profile) : list Profile :=
  match l with
  | [] => [p]
  | q :: r =>
    if p_created_at q <=? p_created_at p then p :: l else q :: insert_desc p r
  end.


(** Rows are appended with the next id and the time [now]; a second row
    with an email already present violates the unique index. *)
Definition list_orm (now : Timestamp) : Orm :=
  {| insert_user := fun db nu =>
       let taken :=
         match n_email nu with
         | Some e => match first_by_email (session db) e with
                     | Some _ => true
                     | None => false
                     end
         | None => false
         end in
       if taken
       then raise (Exception (py "IntegrityError")
                     (py "UNIQUE constraint failed: users.email"))
       else
         let u := {| models.id := next_id (map models.id (users (session db)));
                     models.name := n_name nu;
                     models.email := n_email nu;
                     models.age := n_age nu;
                     models.monthly_income := n_monthly_income nu;
                     models.password_hash := n_password_hash nu;
                     models.created_at := now |} in
         ret ({| session := {| users := users (session db) ++ [u] |};
                 profiles := profiles db |}, u);
     insert_profile := fun db np =>
       let p := {| p_id := next_id (map p_id (profiles db));
                   p_user_id := np_user_id np;
                   p_risk_profile := np_risk_profile np;
                   p_test_answers := np_test_answers np;
                   p_created_at := now |} in
       ret ({| session := session db; profiles := profiles db ++ [p] |}, p);
     order_by_created_at_desc := foldr insert_desc [] |}.

(** A hashing primitive that marks the password instead of hashing it. *)
Definition marking_bcrypt : Bcrypt :=
  {| gensalt := ret (py "salt");
     hashpw := fun password _ => ret (py "hash-of-" ++ password) |}.

(** The small [users] table with Ana's two risk profiles. *)
Definition two_users_db : Database :=
  {| session := two_users;
     profiles := [
       {| p_id := 1; p_user_id := 1; p_risk_profile := py "Moderado";
          p_test_answers := None; p_created_at := 10 |};
       {| p_id := 2; p_user_id := 2; p_risk_profile := py "Agresivo";
          p_test_answers := None; p_created_at := 30 |};
       {| p_id := 3; p_user_id := 1; p_risk_profile := py "Conservador";
          p_test_answers := None; p_created_at := 20 |} ] |}.

(** Primitives that know the password of a user registered with
    [marking_bcrypt]. *)
Definition eva_crypto : Crypto :=
  table_crypto [(py "hash-of-clave", py "clave")] [].

(** ** A history that gives no monthly return *)

(** Forty daily rows: thirty without a close, then ten at [p]. *)
Definition late_history (p : Q) : DataFrame :=
  {| Close := map (fun i => (Z.of_nat i, None)) (seq 0 30)
              ++ map (fun i => (Z.of_nat i, Some p)) (seq 30 10) |}.

Definition late_market (p : Q) : YFinance :=
  {| history := fun _ _ => ret (late_history p);
     info := fun _ => ret ∅;
     download := fun _ _ => raise (Exception (py "ConnectionError") (py "timeout")) |}.

(** The last close of the rows that is a number, NaN when there is none. *)
Fixpoint last_valid (rows : Series) (found : option Q) : option Q :=
  match rows with
  | [] => found
  | (_, Some v) :: r => last_valid r (Some v)
  | (_, None) :: r => last_valid r found
  end.

(** The rows in blocks of [n]. *)
Fixpoint blocks (fuel n : nat) (s : Series) : list Series :=
  match fuel, s with
  | S f, _ :: _ => take n s :: blocks f n (drop n s)
  | _, _ => []
  end.

(** The change of each row relative to the row before: NaN for the first
    row and wherever one of the two is NaN.  (A previous close of zero,
    where pandas gives an infinity, has no place in a column of rationals;
    it is NaN here, and the rows of the examples have none.) *)
Fixpoint changes (prev : option Q) (s : Series) : Series :=
  match s with
  | [] => []
  | (t, v) :: r =>
    (t, match prev, v with
        | Some p, Some c => if Qeq_bool p 0 then None else Some ((c - p) / p)%Q
        | _, _ => None
        end) :: changes v r
  end.

(** Months of thirty rows, returns computed from the monthly closes, and
    the mean of the returns, which is NaN when there are none. *)
Definition thirty_day_pandas : Pandas :=
  {| to_datetime := fun idx => ret idx;
     resample_ME_last := fun s =>
       ret (map (fun b => (default 0 (fst <$> last b), last_valid b None))
                (blocks (length s) 30 s));
     pct_change := fun s => ret (changes None s);
     mean := fun obs =>
       ret (match obs with
            | [] => None
            | _ => Some (Qred (foldr (fun r acc => snd r + acc) 0 obs
                               / inject_Z (len obs)))%Q
            end);
     strftime := fun t _ => str_of_int t |}.
(** * Concrete runs of the primitives *)

Example round_ties_to_even :
  py_round (10125 # 1000) 2 = (253 # 25)%Q /\ py_round (10135 # 1000) 2 = (507 # 50)%Q /\
  py_round (-5 # 1000) 2 = 0%Q /\ py_round (10004 # 1000) 2 = 10%Q.
Proof. repeat split; reflexivity. Qed.

Example format_examples :
  format_2f false true (123456789 # 100) = py "1,234,567.89" /\
  format_2f true false (-5 # 2) = py "-2.50" /\
  format_2f true false 0 = py "+0.00".
Proof. repeat split; vm_compute; reflexivity. Qed.

Example split_example :
  split (py "  hola,  que tal ") = [py "hola,"; py "que"; py "tal"] /\
  strip (py "  aapl ") = py "aapl".
Proof. split; vm_compute; reflexivity. Qed.

Example upper_lower_ascii (U : Unicode) :
  upper U (py "btc-Usd 1") = py "BTC-USD 1" /\ lower U (py "$AAPL ya") = py "$aapl ya".
Proof. split; vm_compute; reflexivity. Qed.

Example str_of_int_examples : str_of_int 48 = py "48" /\ str_of_int (-7) = py "-7".
Proof. split; vm_compute; reflexivity. Qed.

(** * Facts about the numeric model *)

Lemma round_half_even_whole (k : Z) : round_half_even (inject_Z k) = k.
Proof.
  unfold round_half_even, inject_Z; simpl.
  rewrite Z.mod_1_r, Z.div_1_r. reflexivity.
Qed.

Lemma py_round_proper (x y : Q) (n : nat) : (x == y)%Q -> py_round x n = py_round y n.
Proof.
  intros Hxy. unfold py_round.
  assert (Hred : Qred (x * inject_Z (Z.pos (Z.to_pos (10 ^ Z.of_nat n))))
               = Qred (y * inject_Z (Z.pos (Z.to_pos (10 ^ Z.of_nat n))))).
  { apply Qred_complete. rewrite Hxy. reflexivity. }
  rewrite Hred. reflexivity.
Qed.

Lemma Qred_whole (k : Z) : Qred (inject_Z k) = inject_Z k.
Proof. apply Qred_identity. simpl. apply Z.gcd_1_r. Qed.

Lemma py_round_idempotent (x : Q) (n : nat) : py_round (py_round x n) n = py_round x n.
Proof.
  unfold py_round.
  set (s := Z.to_pos (10 ^ Z.of_nat n)).
  set (r := round_half_even (Qred (x * inject_Z (Z.pos s)))).
  assert (Hw : Qred (Qred (r # s) * inject_Z (Z.pos s)) = inject_Z r).
  { rewrite <- (Qred_whole r). apply Qred_complete. rewrite Qred_correct.
    unfold Qeq, Qmult, inject_Z; simpl. lia. }
  rewrite Hw, round_half_even_whole. reflexivity.
Qed.

Lemma py_round_zero (x : Q) (n : nat) : (x == 0)%Q -> py_round x n = 0%Q.
Proof.
  intros Hx. rewrite (py_round_proper x 0 n Hx). unfold py_round.
  assert (Hz : Qred (0 * inject_Z (Z.pos (Z.to_pos (10 ^ Z.of_nat n)))) = 0%Q).
  { transitivity (Qred 0); [apply Qred_complete; ring | reflexivity]. }
  rewrite Hz. change (round_half_even 0) with 0%Z.
  transitivity (Qred 0); [apply Qred_complete; reflexivity | reflexivity].
Qed.

Lemma py_div_nonzero (x y : Q) : ~ (y == 0)%Q -> py_div x y = ret (x / y)%Q.
Proof.
  intros Hy. unfold py_div.
  destruct (Qeq_bool y 0) eqn:E; [|reflexivity].
  apply Qeq_bool_iff in E. contradiction.
Qed.

Lemma py_div_inv (x y r : Q) : py_div x y = inr r -> ~ (y == 0)%Q /\ r = (x / y)%Q.
Proof.
  unfold py_div. destruct (Qeq_bool y 0) eqn:E; [discriminate|].
  intros [= <-]. split; [|reflexivity].
  intros Hy. apply Qeq_bool_iff in Hy. congruence.
Qed.

(** * Facts about the exception monad *)

Lemma bind_inr {A B} (c : Exc A) (k : A -> Exc B) (b : B) :
  bind c k = inr b -> exists a, c = inr a /\ k a = inr b.
Proof. destruct c as [e|a]; simpl; [discriminate|]. eauto. Qed.

Lemma try_except_total {A} (body : Exc A) (h : PyExc -> A) :
  exists a, try_except body (fun e => ret (h e)) = inr a.
Proof. destruct body as [e|a]; simpl; eauto. Qed.

Ltac bind_inv H :=
  let a := fresh "a" in
  let Ha := fresh "Ha" in
  apply bind_inr in H; destruct H as (a & Ha & H).

(** * The projection loop *)

Section projection_loop.
Import calculator.
Variables (amount avg : Q).

Lemma project_month_inv m cv bd cv' bd' :
  project_month amount avg m (cv, bd) = inr (cv', bd') ->
  ~ (amount == 0)%Q /\
  cv' = (cv * (1 + avg))%Q /\
  bd' = bd ++ [{| month := m;
                  value := py_round cv' 2;
                  gain := py_round (cv' - amount) 2;
                  gain_pct := py_round ((cv' - amount) / amount * 100) 2 |}].
Proof.
  unfold project_month. intros H. bind_inv H.
  apply py_div_inv in Ha as [Hnz ->].
  injection H as <- <-. auto.
Qed.

Lemma loop_months ms : forall st st',
  for_each ms (project_month amount avg) st = inr st' ->
  month <$> snd st' = (month <$> snd st) ++ ms.
Proof.
  induction ms as [|m ms IH]; intros [cv bd] [cv' bd']; simpl.
  - intros [= <- <-]. simpl. rewrite app_nil_r. reflexivity.
  - intros H. bind_inv H. destruct a as [cv1 bd1].
    apply project_month_inv in Ha as (_ & _ & ->).
    apply IH in H. simpl in *. rewrite H, fmap_app. simpl.
    rewrite <- app_assoc. reflexivity.
Qed.

(** With a zero average return the running value never moves. *)
Lemma loop_flat ms : forall st st',
  (avg == 0)%Q ->
  (fst st == amount)%Q ->
  for_each ms (project_month amount avg) st = inr st' ->
  (fst st' == amount)%Q /\
  exists new, snd st' = snd st ++ new /\
    Forall (fun e => value e = py_round amount 2 /\ gain e = 0%Q /\ gain_pct e = 0%Q) new.
Proof.
  induction ms as [|m ms IH]; intros [cv bd] [cv' bd'] Havg Hcv; simpl.
  - intros [= <- <-]. split; [exact Hcv|]. exists []. rewrite app_nil_r. auto.
  - intros H. bind_inv H. destruct a as [cv1 bd1].
    apply project_month_inv in Ha as (Hnz & -> & ->).
    assert (Hstep : (cv * (1 + avg) == amount)%Q).
    { simpl in Hcv. rewrite Havg, Hcv. ring. }
    apply IH in H as (Hfst & new & Hsnd & Hnew); [|exact Havg|exact Hstep].
    split; [exact Hfst|]. simpl in *.
    eexists (_ :: new). split.
    + rewrite Hsnd, <- app_assoc. reflexivity.
    + constructor; [|exact Hnew]. simpl. repeat split.
      * apply py_round_proper, Hstep.
      * apply py_round_zero. rewrite Hstep. ring.
      * apply py_round_zero. rewrite Hstep. field. exact Hnz.
Qed.

End projection_loop.


Section projection_results.
Import calculator.
Context (U : Unicode) (I : Interp) (yf : YFinance) (pd : Pandas).

Lemma loop_rounded amount avg ms : forall st st',
  Forall rounded2 (snd st) ->
  for_each ms (project_month amount avg) st = inr st' ->
  Forall rounded2 (snd st').
Proof.
  induction ms as [|m ms IH]; intros [cv bd] [cv' bd'] Hbd; simpl.
  - intros [= <- <-]. exact Hbd.
  - intros H. bind_inv H. destruct a as [cv1 bd1].
    apply project_month_inv in Ha as (_ & -> & ->).
    apply IH in H; [exact H|]. simpl.
    apply Forall_app. split; [exact Hbd|].
    constructor; [|constructor]. unfold rounded2; simpl.
    apply py_round_idempotent.
Qed.

(** What a successful run of lines 61-98 returns. *)
Lemma project_inv t amount months avg period r :
  project I t amount months avg period = inr r ->
  exists st e p,
    for_each (seqZ 1 months) (project_month amount avg) (amount, []) = inr st /\
    last (snd st) = Some e /\
    r = ProjectionResult p /\
    monthly_breakdown p = snd st /\
    final_value p = py_round (value e) 2 /\
    total_gain p = py_round (value e - amount) 2.
Proof.
  unfold project. intros H.
  bind_inv H. rename a into st.
  bind_inv H. rename a into e.
  bind_inv H.
  bind_inv H.
  bind_inv H.
  injection H as <-.
  unfold last_item in Ha0. destruct (last (snd st)) as [e'|] eqn:El; [|discriminate].
  injection Ha0 as ->.
  exists st, e. eexists. repeat split; eauto.
Qed.

(** The three ways lines 43-59 can end. *)
Lemma average_monthly_return_cases t :
  match average_monthly_return yf pd t with
  | inl e => ~ insufficient_daily yf t /\ ~ insufficient_monthly yf pd t
  | inr (inl r) =>
      (r = ErrorResult (py "No hay datos históricos suficientes para " ++ t)
       /\ insufficient_daily yf t) \/
      (r = ErrorResult (py "Datos insuficientes para calcular retorno mensual de " ++ t)
       /\ insufficient_monthly yf pd t)
  | inr (inr _) => ~ insufficient_daily yf t /\ ~ insufficient_monthly yf pd t
  end.
Proof.
  unfold average_monthly_return.
  destruct (history yf t (py "2y")) as [e|hist] eqn:Eh; unfold bind.
  { split; [intros (h & Hh & _) | intros (mp & (h & i & h' & Hh & _) & _)];
      congruence. }
  destruct (df_empty hist || (df_len hist <? 20)) eqn:Ed.
  { left. split; [reflexivity|]. exists hist. split; [exact Eh|].
    apply orb_true_iff in Ed as [Ed|Ed]; [left; exact Ed | right; lia]. }
  apply orb_false_iff in Ed as [Ed1 Ed2].
  assert (Hd : ~ insufficient_daily yf t).
  { intros (h & Hh & Hc). rewrite Eh in Hh. injection Hh as <-.
    destruct Hc as [Hc|Hc]; [congruence | lia]. }
  destruct (to_datetime pd (fst <$> Close hist)) as [e|idx] eqn:Et.
  { split; [exact Hd|]. intros (mp & (h & i & h' & Hh & Hi & _) & _).
    rewrite Eh in Hh. injection Hh as <-. congruence. }
  destruct (set_index hist idx) as [e|hist'] eqn:Es.
  { split; [exact Hd|]. intros (mp & (h & i & h' & Hh & Hi & Hs & _) & _).
    rewrite Eh in Hh. injection Hh as <-. congruence. }
  destruct (resample_ME_last pd (Close hist')) as [e|mp] eqn:Er.
  { split; [exact Hd|]. intros (mp & (h & i & h' & Hh & Hi & Hs & Hr) & _).
    rewrite Eh in Hh. injection Hh as <-.
    assert (idx = i) by congruence; subst i.
    assert (hist' = h') by congruence; subst h'. congruence. }
  destruct (len mp <? 2) eqn:El.
  { right. split; [reflexivity|]. exists mp. split; [|lia].
    exists hist, idx, hist'. auto. }
  assert (Hm : ~ insufficient_monthly yf pd t).
  { intros (mp0 & (h & i & h' & Hh & Hi & Hs & Hr) & Hl).
    rewrite Eh in Hh. injection Hh as <-.
    assert (idx = i) by congruence; subst i.
    assert (hist' = h') by congruence; subst h'.
    assert (mp = mp0) by congruence; subst mp0. lia. }
  destruct (pct_change pd mp) as [e|ch]; [auto|].
  destruct (mean pd (dropna ch)) as [e|avg]; [auto|].
  destruct (index_first mp) as [e|t0]; [auto|].
  destruct (index_last mp) as [e|t1]; [auto|].
  unfold ret. auto.
Qed.

(** The loop of a NaN average appends the months it is given. *)
Lemma nan_loop_months amount ms : forall done done',
  for_each ms (project_month_nan amount) done = inr done' -> done' = done ++ ms.
Proof.
  induction ms as [|m ms IH]; intros done done'; simpl.
  - intros [= <-]. rewrite app_nil_r. reflexivity.
  - intros H. bind_inv H. unfold project_month_nan in Ha. bind_inv Ha.
    injection Ha as <-. apply IH in H. rewrite H, <- app_assoc. reflexivity.
Qed.

(** What a successful run of lines 61-98 returns when the average is NaN. *)
Lemma project_nan_inv t amount months period r :
  project_nan t amount months period = inr r ->
  exists np, r = NanProjectionResult np /\ nan_months np = seqZ 1 months.
Proof.
  unfold project_nan. intros H.
  bind_inv H. rename a into ms. apply nan_loop_months in Ha. simpl in Ha. subst ms.
  bind_inv H. bind_inv H. bind_inv H.
  injection H as <-. eexists. split; reflexivity.
Qed.

Lemma project_never_errors t amount months avg period r :
  project I t amount months avg period = inr r -> has_error r = false.
Proof. intros H. apply project_inv in H as (? & ? & ? & _ & _ & -> & _). reflexivity. Qed.

Lemma calculate_projection_total t amount months :
  exists r, calculate_projection U I yf pd t amount months = inr r.
Proof. apply try_except_total. Qed.

Lemma calculate_projection_inv t amount months p :
  calculate_projection U I yf pd t amount months = inr (ProjectionResult p) ->
  exists avg period,
    average_monthly_return yf pd (strip (upper U t)) = inr (inr (Some avg, period)) /\
    project I (strip (upper U t)) amount months avg period = inr (ProjectionResult p).
Proof.
  unfold calculate_projection, try_except, projection_body.
  pose proof (average_monthly_return_cases (strip (upper U t))) as Hc.
  destruct (average_monthly_return yf pd (strip (upper U t)))
    as [e|[early|[[avg|] period]]]; simpl.
  - discriminate.
  - destruct Hc as [[-> _]|[-> _]]; discriminate.
  - destruct (project I (strip (upper U t)) amount months avg period) as [e|r'] eqn:Ep.
    + discriminate.
    + intros [= ->]. eauto.
  - destruct (project_nan (strip (upper U t)) amount months period) as [e|r'] eqn:Ep.
    + discriminate.
    + apply project_nan_inv in Ep as (np & -> & _). discriminate.
Qed.

End projection_results.

(** * Projection calculator: the claims *)

Section calculator_claims.
Import calculator.

(** X22.  For every valid input (amount at least 10, months between 1 and
    48) on which [calculate_projection] returns a projection of numbers,
    the monthly breakdown has exactly [months] entries, their month indices
    are 1, 2, ..., months in this order, and the [final_value] of the
    result is the [value] of the last breakdown entry. *)
Theorem breakdown_shape (U : Unicode) (I : Interp) (yf : YFinance) (pd : Pandas)
    (ticker : pystr) (amount : Q) (months : Z) (p : Projection) :
  (10 <= amount)%Q ->
  1 <= months <= 48 ->
  calculate_projection U I yf pd ticker amount months = inr (ProjectionResult p) ->
  len (monthly_breakdown p) = months /\
  month <$> monthly_breakdown p = seqZ 1 months /\
  (forall i e, monthly_breakdown p !! i = Some e -> month e = 1 + Z.of_nat i) /\
  exists e, last (monthly_breakdown p) = Some e /\ final_value p = value e.
Proof.
  intros _ Hmonths Hrun.
  apply calculate_projection_inv in Hrun as (avg & period & _ & Hrun).
  apply project_inv in Hrun as (st & e & p' & Hloop & Hlast & [= <-] & Hbd & Hfinal & _).
  pose proof (loop_months amount avg _ _ _ Hloop) as Hidx. simpl in Hidx.
  pose proof (loop_rounded amount avg _ (amount, []) st (Forall_nil_2 _) Hloop) as Hround.
  rewrite Hbd.
  assert (Hlen : len (snd st) = months).
  { unfold len. rewrite <- (length_fmap month), Hidx, length_seqZ. lia. }
  repeat split.
  - exact Hlen.
  - exact Hidx.
  - intros i e' Hi.
    assert (Hm : (month <$> snd st) !! i = Some (month e')).
    { rewrite list_lookup_fmap, Hi. reflexivity. }
    rewrite Hidx in Hm. apply lookup_seqZ in Hm. lia.
  - exists e. split; [exact Hlast|].
    rewrite Hfinal. rewrite Forall_forall in Hround. apply Hround.
    apply last_Some in Hlast as (l' & ->). apply elem_of_app. right.
    apply list_elem_of_singleton. reflexivity.
Qed.

Lemma breakdown_shape_witness :
  exists p,
    calculate_projection plain_unicode plain_interp (flat_market 40 100)
      (coarse_pandas (1 # 100)) (py "aapl") 100 3 = inr (ProjectionResult p) /\
    len (monthly_breakdown p) = 3 /\
    month <$> monthly_breakdown p = seqZ 1 3 /\
    (forall i e, monthly_breakdown p !! i = Some e -> month e = 1 + Z.of_nat i) /\
    exists e, last (monthly_breakdown p) = Some e /\ final_value p = value e.
Proof.
  eexists. split; [vm_compute; reflexivity|].
  apply (breakdown_shape plain_unicode plain_interp (flat_market 40 100)
           (coarse_pandas (1 # 100)) (py "aapl") 100 3).
  - unfold Qle; simpl; lia.
  - lia.
  - vm_compute; reflexivity.
Defined.

(** C1, where the code breaks it.  The ticker "xyz" has forty daily rows
    in two months, the closes of the first month missing.  There are
    enough rows and two monthly closes, so neither guard fires, but no
    monthly return survives [dropna] and the mean is NaN.  No step raises
    on it: for the amount 100 and 3 months [calculate_projection] returns a
    projection with three breakdown entries whose values are nan, and a
    [final_value] of nan, which is not equal to the last value, nan not
    being equal to itself.  The endpoint cannot render the result and the
    request ends in a server error. *)
Lemma nan_average_projection :
  nan_average (late_market 5) thirty_day_pandas (py "XYZ") /\
  calculate_projection plain_unicode plain_interp (late_market 5) thirty_day_pandas
    (py "xyz") 100 3
  = inr (NanProjectionResult
           {| nan_ticker := py "XYZ"; nan_asset_name := py "XYZ";
              nan_initial_amount := 100; nan_annualized_return_pct := None;
              nan_months := [1; 2; 3]; nan_data_period := py "29 – 39";
              nan_disclaimer := DISCLAIMER |}) /\
  main.respond (main.calculate_endpoint plain_unicode plain_interp (late_market 5)
                  thirty_day_pandas
                  {| main.ticker := py "xyz"; main.amount := 100; main.months := 3 |})
  = main.Error 500 (py "Internal Server Error").
Proof.
  split; [eexists; vm_compute; reflexivity|].
  split; vm_compute; reflexivity.
Qed.

(** C5, as the code has it.  For every valid (amount, months), if the
    computed average monthly return is 0 then every entry of the monthly
    breakdown has value [round(amount, 2)], gain 0 and gain percentage 0,
    and [final_value] is [round(amount, 2)]; when the amount is itself a
    two-decimal number, every value and [final_value] equal the amount and
    the total gain is 0. *)
Theorem zero_return_projection (U : Unicode) (I : Interp) (yf : YFinance) (pd : Pandas)
    (ticker : pystr) (amount : Q) (months : Z) (avg : Q) (p : Projection) :
  (10 <= amount)%Q ->
  1 <= months <= 48 ->
  computed_average yf pd (strip (upper U ticker)) avg ->
  (avg == 0)%Q ->
  calculate_projection U I yf pd ticker amount months = inr (ProjectionResult p) ->
  Forall (fun e => value e = py_round amount 2 /\ gain e = 0%Q /\ gain_pct e = 0%Q)
         (monthly_breakdown p) /\
  final_value p = py_round amount 2 /\
  ((py_round amount 2 == amount)%Q ->
   Forall (fun e => (value e == amount)%Q) (monthly_breakdown p) /\
   (final_value p == amount)%Q /\
   total_gain p = 0%Q).
Proof.
  intros _ _ (period & Havg) Hzero Hrun.
  apply calculate_projection_inv in Hrun as (avg' & period' & Havg' & Hrun).
  rewrite Havg in Havg'. injection Havg' as <- <-.
  apply project_inv in Hrun
    as (st & e & p' & Hloop & Hlast & [= <-] & Hbd & Hfinal & Hgain).
  apply loop_flat in Hloop as (_ & new & Hsnd & Hnew); [|exact Hzero|reflexivity].
  simpl in Hsnd. rewrite Hbd, Hsnd.
  assert (He : value e = py_round amount 2).
  { rewrite Forall_forall in Hnew. apply Hnew.
    rewrite Hsnd in Hlast. apply last_Some in Hlast as (l' & ->).
    apply elem_of_app. right. apply list_elem_of_singleton. reflexivity. }
  assert (Hfv : final_value p = py_round amount 2).
  { rewrite Hfinal, He. apply py_round_idempotent. }
  split; [exact Hnew|]. split; [exact Hfv|].
  intros Hexact. repeat split.
  - eapply Forall_impl; [exact Hnew|]. intros x (-> & _). exact Hexact.
  - rewrite Hfv. exact Hexact.
  - rewrite Hgain. apply py_round_zero. rewrite He, Hexact. ring.
Qed.

Lemma zero_return_projection_witness :
  exists p,
    calculate_projection plain_unicode plain_interp (flat_market 40 100)
      (coarse_pandas 0) (py "aapl") 100 3 = inr (ProjectionResult p) /\
    Forall (fun e => value e = py_round 100 2 /\ gain e = 0%Q /\ gain_pct e = 0%Q)
           (monthly_breakdown p) /\
    final_value p = py_round 100 2 /\
    Forall (fun e => (value e == 100)%Q) (monthly_breakdown p) /\
    (final_value p == 100)%Q /\
    total_gain p = 0%Q.
Proof.
  eexists. split; [vm_compute; reflexivity|].
  destruct (zero_return_projection plain_unicode plain_interp (flat_market 40 100)
              (coarse_pandas 0) (py "aapl") 100 3 0 _
              ltac:(unfold Qle; simpl; lia) ltac:(lia)
              ltac:(eexists; vm_compute; reflexivity) ltac:(reflexivity)
              ltac:(vm_compute; reflexivity)) as (H1 & H2 & H3).
  split; [exact H1|]. split; [exact H2|].
  apply H3. vm_compute. reflexivity.
Defined.

(** The claim C5 as stated fails for an amount with more than two decimals:
    with a zero average return and amount 10.004, the single breakdown entry
    has value 10, which is not the amount. *)
Lemma zero_return_unrounded_amount :
  computed_average (flat_market 40 100) (coarse_pandas 0)
    (strip (upper plain_unicode (py "aapl"))) 0 /\
  exists p,
    calculate_projection plain_unicode plain_interp (flat_market 40 100)
      (coarse_pandas 0) (py "aapl") (10004 # 1000) 1 = inr (ProjectionResult p) /\
    value <$> monthly_breakdown p = [10%Q] /\
    final_value p = 10%Q /\
    ~ (10 == 10004 # 1000)%Q.
Proof.
  split; [eexists; vm_compute; reflexivity|].
  eexists. split; [vm_compute; reflexivity|].
  split; [reflexivity|]. split; [reflexivity|].
  unfold Qeq; simpl. lia.
Qed.

(** C2.  [calculate_projection] never raises; it returns an error result
    exactly when the fetched daily history is empty or has fewer than 20
    observations, or fewer than 2 monthly closes exist after resampling, or
    an exception occurs while fetching or computing.  In the exception case
    the message carries the (normalised) ticker and the text of the
    exception; a failing fetch is such an exception.  The HTTP layer turns
    any error result into a 422 whose detail is the error text, and returns
    a projection unchanged. *)
Theorem projection_errors (U : Unicode) (I : Interp) (yf : YFinance) (pd : Pandas)
    (ticker : pystr) (amount : Q) (months : Z) :
  let t := strip (upper U ticker) in
  let request := {| main.ticker := ticker; main.amount := amount; main.months := months |} in
  exists r,
    calculate_projection U I yf pd ticker amount months = inr r /\
    (has_error r = true <->
       insufficient_daily yf t \/ insufficient_monthly yf pd t \/
       exists e, raises I yf pd t amount months e) /\
    (forall e, raises I yf pd t amount months e ->
       r = ErrorResult (py "No se pudo calcular la proyección para " ++ t
                        ++ py ": " ++ exc_str e)) /\
    (forall e, history yf t (py "2y") = inl e -> raises I yf pd t amount months e) /\
    (forall msg, r = ErrorResult msg ->
       main.respond (main.calculate_endpoint U I yf pd request) = main.Error 422 msg) /\
    (forall p, r = ProjectionResult p ->
       main.respond (main.calculate_endpoint U I yf pd request) = main.Ok r).
Proof.
  intros t request.
  destruct (calculate_projection_total U I yf pd ticker amount months) as (r & Hr).
  exists r. split; [exact Hr|].
  assert (Hend : forall msg, r = ErrorResult msg ->
     main.respond (main.calculate_endpoint U I yf pd request) = main.Error 422 msg).
  { intros msg ->. unfold main.calculate_endpoint. simpl. rewrite Hr. reflexivity. }
  assert (Hok : forall p, r = ProjectionResult p ->
     main.respond (main.calculate_endpoint U I yf pd request) = main.Ok r).
  { intros p ->. unfold main.calculate_endpoint. simpl. rewrite Hr. reflexivity. }
  assert (Hfetch : forall e, history yf t (py "2y") = inl e ->
     raises I yf pd t amount months e).
  { intros e He. unfold raises, projection_body, average_monthly_return.
    rewrite He. reflexivity. }
  unfold raises in *.
  revert Hr. unfold calculate_projection, try_except. fold t.
  pose proof (average_monthly_return_cases yf pd t) as Hc.
  unfold projection_body in *.
  destruct (average_monthly_return yf pd t) as [e|[early|[[avg|] period]]];
    unfold bind in *.
  - intros [= <-]. repeat split; auto.
    + intros _. right. right. exists e. reflexivity.
    + intros e' [= <-]. reflexivity.
  - intros [= <-]. repeat split; auto.
    + intros _. destruct Hc as [[_ Hc]|[_ Hc]]; auto.
    + destruct Hc as [[-> _]|[-> _]]; reflexivity.
    + intros e' He'. discriminate.
  - destruct Hc as [Hd Hm].
    destruct (project I t amount months avg period) as [e|r'] eqn:Ep.
    + intros [= <-]. repeat split; auto.
      * intros _. right. right. exists e. reflexivity.
      * intros e' [= <-]. reflexivity.
    + intros [= <-]. repeat split; auto.
      * rewrite (project_never_errors _ _ _ _ _ _ _ Ep). discriminate.
      * intros [H|[H|(e & H)]]; [contradiction|contradiction|discriminate].
      * intros e' He'. discriminate.
  - destruct Hc as [Hd Hm].
    destruct (project_nan t amount months period) as [e|r'] eqn:Ep.
    + intros [= <-]. repeat split; auto.
      * intros _. right. right. exists e. reflexivity.
      * intros e' [= <-]. reflexivity.
    + apply project_nan_inv in Ep as (np & -> & _).
      intros [= <-]. repeat split; auto.
      * discriminate.
      * intros [H|[H|(e & H)]]; [contradiction|contradiction|discriminate].
      * intros e' He'. discriminate.
Qed.

Lemma projection_errors_witness :
  exists r,
    calculate_projection plain_unicode plain_interp offline_market (coarse_pandas 0)
      (py " aapl ") 100 12 = inr r /\
    r = ErrorResult (py "No se pudo calcular la proyección para AAPL: network unreachable") /\
    main.respond (main.calculate_endpoint plain_unicode plain_interp offline_market
                    (coarse_pandas 0)
                    {| main.ticker := py " aapl "; main.amount := 100; main.months := 12 |})
    = main.Error 422 (py "No se pudo calcular la proyección para AAPL: network unreachable").
Proof.
  destruct (projection_errors plain_unicode plain_interp offline_market (coarse_pandas 0)
              (py " aapl ") 100 12) as (r & Hr & _ & Hmsg & Hfetch & Hend & _).
  exists r. split; [exact Hr|].
  assert (Hr' : r = ErrorResult
            (py "No se pudo calcular la proyección para AAPL: network unreachable")).
  { rewrite (Hmsg _ (Hfetch _ eq_refl)). vm_compute. reflexivity. }
  split; [exact Hr'|]. apply Hend. exact Hr'.
Defined.

End calculator_claims.

(** * Market data: price change *)

Section market_claims.
Import market_data.

Lemma format_2f_zero (x : Q) : (x == 0)%Q -> format_2f true false x = py "+0.00".
Proof.
  intros Hx. unfold format_2f.
  destruct (Qlt_le_dec x 0) as [Hlt|_].
  { rewrite Hx in Hlt. exfalso. revert Hlt. apply Qlt_irrefl. }
  assert (Hred : Qred (Qabs x * 100) = 0%Q).
  { transitivity (Qred 0); [|reflexivity]. apply Qred_complete.
    rewrite Hx. reflexivity. }
  rewrite Hred. vm_compute. reflexivity.
Qed.

(** The result of the four shared lines on a series without NaN. *)
Lemma price_change_inv (closes : Observations) (pc : PriceChange) :
  price_change closes = inr pc ->
  pc_change pc = (pc_price pc - pc_prev_price pc)%Q /\
  ((pc_prev_price pc == 0)%Q -> pc_change_pct pc = 0%Q) /\
  (~ (pc_prev_price pc == 0)%Q ->
   pc_change_pct pc = (pc_change pc / pc_prev_price pc * 100)%Q).
Proof.
  unfold price_change. intros H.
  bind_inv H. rename a into price.
  bind_inv H. rename a into prev.
  bind_inv H. rename a into pct.
  injection H as <-. simpl.
  split; [reflexivity|].
  destruct (Qeq_bool prev 0) eqn:E; simpl in Ha1.
  - injection Ha1 as <-. split; [reflexivity|].
    intros Hn. apply Qeq_bool_iff in E. contradiction.
  - bind_inv Ha1. injection Ha1 as <-.
    apply py_div_inv in Ha2 as [Hnz ->].
    split; [intros Hz; contradiction | reflexivity].
Qed.

(** On a non-empty series the four lines never raise: the division is
    reached only with a non-zero divisor. *)
Lemma price_change_total (closes : Observations) :
  closes <> [] ->
  exists pc, price_change closes = inr pc.
Proof.
  intros Hne. unfold price_change.
  assert (H1 : exists price, iloc_neg closes 1 = inr price).
  { unfold iloc_neg. destruct (rev closes) as [|[t v] r] eqn:Er; simpl.
    - apply (f_equal (@rev _)) in Er. rewrite rev_involutive in Er. contradiction.
    - eauto. }
  destruct H1 as (price & ->). unfold bind at 1.
  assert (H2 : exists prev,
     (if len closes >=? 2 then iloc_neg closes 2 else ret price) = inr prev).
  { destruct (len closes >=? 2) eqn:El; [|unfold ret; eauto].
    unfold iloc_neg.
    assert (Hlen : (2 <= length (rev closes))%nat).
    { rewrite length_rev. unfold len in El. lia. }
    destruct (rev closes) as [|a [|[t v] r]] eqn:Er; simpl in *; try lia.
    eauto. }
  destruct H2 as (prev & ->). unfold bind at 1.
  destruct (Qeq_bool prev 0) eqn:E; simpl.
  - eauto.
  - rewrite py_div_nonzero; [simpl; eauto|].
    intros Hz. apply Qeq_bool_iff in Hz. congruence.
Qed.

Lemma price_change_single (t : Timestamp) (p : Q) :
  exists pc,
    price_change [(t, p)] = inr pc /\
    pc_price pc = p /\ pc_prev_price pc = p /\
    (pc_change pc == 0)%Q /\ (pc_change_pct pc == 0)%Q.
Proof.
  destruct (price_change_total [(t, p)]) as (pc & Hpc); [discriminate|].
  exists pc. split; [exact Hpc|].
  pose proof (price_change_inv _ _ Hpc) as (Hch & Hz & Hnz).
  unfold price_change in Hpc. simpl in Hpc.
  bind_inv Hpc. injection Hpc as <-. simpl in *.
  split; [reflexivity|]. split; [reflexivity|].
  split; [ring|].
  destruct (Qeq_dec p 0) as [E|E].
  - rewrite (Hz E). reflexivity.
  - rewrite (Hnz E). field. exact E.
Qed.

(** The batch loop keeps one quote per asset whose body yields one. *)
Lemma batch_loop (tl : list pystr) (data : Downloaded) (assets : list Asset) :
  forall results,
  for_each assets
    (fun asset results =>
       try_except
         (let! q := batch_quote tl data asset in
          ret (match q with
               | Some q => results ++ [BatchQuote q]
               | None => results
               end))
         (fun e => ret results))
    results
  = inr (results ++
         omap (fun asset => match batch_quote tl data asset with
                            | inr (Some q) => Some (BatchQuote q)
                            | _ => None
                            end) assets).
Proof.
  induction assets as [|a assets IH]; intros results; simpl.
  - rewrite app_nil_r. reflexivity.
  - destruct (batch_quote tl data a) as [e|[q|]]; simpl; rewrite IH.
    + reflexivity.
    + rewrite <- app_assoc. reflexivity.
    + reflexivity.
Qed.

(** C6.  When exactly one closing price exists, the previous price is the
    latest price, so the change and the percentage change are 0; whenever
    the previous price is 0 the percentage change is 0 and no division
    takes place, so the computation never raises on the closes both paths
    pass to it.  In the single-ticker fetch the snapshot then shows a zero
    change and a zero percentage; in the batch path the quote of such a
    ticker has change 0 and percentage 0. *)
Theorem single_observation_change :
  (forall t p, exists pc,
     price_change [(t, p)] = inr pc /\
     pc_price pc = p /\ pc_prev_price pc = p /\
     (pc_change pc == 0)%Q /\ (pc_change_pct pc == 0)%Q) /\
  (forall closes pc,
     price_change closes = inr pc ->
     (pc_prev_price pc == 0)%Q -> pc_change_pct pc = 0%Q) /\
  (forall closes, closes <> [] -> exists pc, price_change closes = inr pc) /\
  (forall U yf symbol hist t p,
     history yf symbol (py "2d") = inr hist ->
     dropna (Close hist) = [(t, p)] ->
     exists s,
       _get_yfinance_data U yf symbol = inr (MarketSnapshot s) /\
       change s = py "+0.00" /\ change_percent s = py "+0.00%") /\
  (forall U yf frames asset f t p,
     download yf (map a_ticker TOP_ASSETS) (py "2d") = inr (Grouped frames) ->
     asset ∈ TOP_ASSETS ->
     frames !! a_ticker asset = Some f ->
     dropna (Close f) = [(t, p)] ->
     exists results q,
       get_top_assets U yf = inr results /\
       BatchQuote q ∈ results /\
       q_ticker q = a_ticker asset /\
       q_price q = py_round p 2 /\ q_change q = 0%Q /\ q_change_pct q = 0%Q).
Proof.
  split; [exact price_change_single|].
  split.
  { intros closes pc H Hz. apply (price_change_inv _ _ H). exact Hz. }
  split.
  { exact price_change_total. }
  split.
  - intros U yf symbol hist t p Hh Hd.
    destruct (price_change_single t p) as (pc & Hpc & Hp & Hprev & Hch & Hpct).
    unfold _get_yfinance_data. rewrite Hh. unfold bind at 1.
    assert (He : df_empty hist = false).
    { unfold df_empty. destruct (Close hist); [discriminate | reflexivity]. }
    rewrite He. cbv zeta. rewrite Hd.
    change (len [(t, p)] <? 1) with false. cbv iota.
    rewrite Hpc. unfold bind at 1.
    match goal with
    | |- context [bind (try_except ?b ?h)] =>
      destruct (try_except_total b (fun _ => upper U symbol)) as (nm & Hnm);
      rewrite Hnm
    end.
    unfold bind, ret, try_except. eexists. split; [reflexivity|]. simpl.
    rewrite !format_2f_zero by assumption. split; reflexivity.
  - intros U yf frames asset f t p Hdl Hin Hf Hd.
    destruct (price_change_single t p) as (pc & Hpc & Hp & Hprev & Hch & Hpct).
    unfold get_top_assets. rewrite Hdl. unfold bind at 1.
    rewrite batch_loop. unfold try_except.
    set (tl := map a_ticker TOP_ASSETS).
    assert (Hq : batch_quote tl (Grouped frames) asset = inr (Some
      {| q_ticker := a_ticker asset; q_name := a_name asset;
         q_category := a_category asset;
         q_price := py_round (pc_price pc) 2;
         q_change := py_round (pc_change pc) 2;
         q_change_pct := py_round (pc_change_pct pc) 2;
         q_currency := py "USD" |})).
    { unfold batch_quote. change (len tl >? 1) with true. cbv iota.
      rewrite Hf. cbn [bind ret]. rewrite Hd.
      change (len [(t, p)] <? 1) with false. cbv iota.
      rewrite Hpc. reflexivity. }
    eexists. eexists. split; [reflexivity|]. split.
    + rewrite app_nil_l. apply list_elem_of_omap. exists asset.
      split; [exact Hin|]. rewrite Hq. reflexivity.
    + simpl. rewrite Hp. repeat split; apply py_round_zero; assumption.
Qed.

Lemma single_observation_change_witness :
  (exists s,
     _get_yfinance_data plain_unicode (flat_market 1 100) (py "aapl")
       = inr (MarketSnapshot s) /\
     change s = py "+0.00" /\ change_percent s = py "+0.00%") /\
  (exists results q,
     get_top_assets plain_unicode (flat_market 1 100) = inr results /\
     BatchQuote q ∈ results /\
     q_ticker q = py "SPY" /\
     q_price q = py_round 100 2 /\ q_change q = 0%Q /\ q_change_pct q = 0%Q) /\
  (exists pc, price_change [(2, 0%Q); (3, 5%Q)] = inr pc /\ pc_change_pct pc = 0%Q).
Proof.
  destruct single_observation_change as (_ & Hguard & Htotal & Hone & Hbatch).
  split; [|split].
  - apply (Hone plain_unicode (flat_market 1 100) (py "aapl")
             (flat_history 1 100) 0 100%Q); reflexivity.
  - eapply (Hbatch plain_unicode (flat_market 1 100) _
             {| a_ticker := py "SPY"; a_name := py "S&P 500 ETF";
                a_category := py "ETFs" |} (flat_history 1 100) 0 100%Q).
    + reflexivity.
    + unfold TOP_ASSETS. do 8 right. left.
    + vm_compute. reflexivity.
    + reflexivity.
  - destruct (Htotal [(2, 0%Q); (3, 5%Q)]) as (pc & Hpc).
    { discriminate. }
    exists pc. split; [exact Hpc|].
    apply (Hguard _ _ Hpc).
    vm_compute in Hpc. injection Hpc as <-. reflexivity.
Defined.

End market_claims.

(** * Risk test questions *)

Section question_claims.
Import ai_advisor main.

(** C8.  [get_risk_question] returns the empty string for every 0-based
    index outside 0..4 and, for an index in 0..4, the non-empty text of that
    question followed by its position; [GET /api/risk-test/question/n]
    answers 400 for every [n] outside 1..5 and, for [n] in 1..5, the
    question of index [n - 1] with [total_questions = 5]. *)
Theorem risk_questions (i n : Z) :
  (~ (0 <= i <= 4) -> get_risk_question i = []) /\
  (0 <= i <= 4 ->
   exists text,
     RISK_QUESTIONS !! Z.to_nat i = Some text /\ text <> [] /\
     get_risk_question i
       = text ++ newline ++ newline ++ py "*Pregunta " ++ str_of_int (i + 1)
         ++ py " de 5*" /\
     get_risk_question i <> []) /\
  (~ (1 <= n <= 5) ->
   respond (get_question n)
     = Error 400 (py "Question number must be between 1 and 5")) /\
  (1 <= n <= 5 ->
   respond (get_question n)
     = Ok {| question_number := n; total_questions := 5;
             question := get_risk_question (n - 1) |} /\
   get_risk_question (n - 1) <> []).
Proof.
  assert (Hin : forall j, 0 <= j <= 4 ->
    exists text,
      RISK_QUESTIONS !! Z.to_nat j = Some text /\ text <> [] /\
      get_risk_question j
        = text ++ newline ++ newline ++ py "*Pregunta " ++ str_of_int (j + 1)
          ++ py " de 5*" /\
      get_risk_question j <> []).
  { intros j Hj.
    assert (Hcases : j = 0 \/ j = 1 \/ j = 2 \/ j = 3 \/ j = 4) by lia.
    destruct Hcases as [->|[->|[->|[->| ->]]]];
      (eexists; split; [reflexivity|]; split; [vm_compute; discriminate|];
       split; [vm_compute; reflexivity | vm_compute; discriminate]). }
  split; [|split; [|split]].
  - intros Hout. unfold get_risk_question.
    change (len RISK_QUESTIONS) with 5.
    destruct ((0 <=? i) && (i <? 5)) eqn:E; [|reflexivity].
    apply andb_true_iff in E as [E1 E2]. lia.
  - apply Hin.
  - intros Hout. unfold get_question.
    destruct ((1 <=? n) && (n <=? 5)) eqn:E; [|reflexivity].
    apply andb_true_iff in E as [E1 E2]. lia.
  - intros Hn. split.
    + unfold get_question.
      destruct ((1 <=? n) && (n <=? 5)) eqn:E; [reflexivity|].
      apply andb_false_iff in E as [E|E]; lia.
    + destruct (Hin (n - 1)) as (text & _ & _ & _ & Hne); [lia | exact Hne].
Qed.

Lemma risk_questions_witness :
  get_risk_question 7 = [] /\
  get_risk_question 2 <> [] /\
  respond (get_question 6) = Error 400 (py "Question number must be between 1 and 5") /\
  respond (get_question 3)
    = Ok {| question_number := 3; total_questions := 5;
            question := get_risk_question 2 |}.
Proof.
  destruct (risk_questions 7 6) as (Hout & _ & Hbad & _).
  destruct (risk_questions 2 3) as (_ & Hin & _ & Hgood).
  split; [apply Hout; lia|].
  split; [destruct Hin as (text & _ & _ & _ & Hne); [lia | exact Hne]|].
  split; [apply Hbad; lia|].
  apply Hgood; lia.
Defined.

End question_claims.

(** * Ticker resolver: the examples *)

Section resolver_example_facts.
Import ai_advisor.

(** C3, as the code has it.  The resolver returns "BTC-USD" for
    "quiero comprar bitcoin", "AAPL" for "$AAPL a buen precio", and "HOLA"
    for "hola que tal": the greeting has no keyword and no cash tag, and its
    first word is a 2-5 letter word outside the stop-word set. *)
Theorem resolver_examples (U : Unicode) :
  extract_ticker_from_message U (py "quiero comprar bitcoin") = py "BTC-USD" /\
  extract_ticker_from_message U (py "$AAPL a buen precio") = py "AAPL" /\
  extract_ticker_from_message U (py "hola que tal") = py "HOLA".
Proof. repeat split; vm_compute; reflexivity. Qed.

(** The third example of C3 as stated fails: the answer is not "UNKNOWN". *)
Lemma resolver_greeting_not_unknown :
  extract_ticker_from_message plain_unicode (py "hola que tal") <> py "UNKNOWN".
Proof. vm_compute. discriminate. Qed.

End resolver_example_facts.

(** * Risk classifier *)

Section classifier_claims.
Import ai_advisor.

Lemma comprehension_total {A B} (f : A -> Exc B) (xs : list A) :
  (forall x, x ∈ xs -> exists y, f x = inr y) ->
  exists ys, comprehension f xs = inr ys.
Proof.
  induction xs as [|x xs IH]; intros Hf; simpl.
  - eexists. reflexivity.
  - destruct (Hf x) as (y & ->); [left|].
    destruct IH as (ys & ->); [intros z Hz; apply Hf; right; exact Hz|].
    simpl. eexists. reflexivity.
Qed.

Lemma getitem_total {A} (l : list A) (i : Z) :
  0 <= i < len l -> exists a, getitem l i = inr a.
Proof.
  intros Hi. unfold getitem.
  destruct (l !! Z.to_nat i) as [a|] eqn:E; [eexists; reflexivity|].
  apply lookup_ge_None in E. unfold len in Hi. lia.
Qed.

Lemma risk_test_prompt_total (answers : list pystr) (user_name : option pystr) :
  exists prompt, risk_test_prompt answers user_name = inr prompt.
Proof.
  unfold risk_test_prompt.
  match goal with
  | |- context [comprehension ?f ?xs] =>
    destruct (comprehension_total f xs) as (ys & ->)
  end.
  - intros i Hi. apply elem_of_seqZ in Hi.
    destruct (getitem_total RISK_QUESTIONS i) as (q & ->).
    { change (len RISK_QUESTIONS) with 5. lia. }
    destruct (getitem_total answers i) as (a & ->); [lia|].
    simpl. eexists. reflexivity.
  - simpl. eexists. reflexivity.
Qed.

(** C4.  For every answers list (of length at least 5 or not) and optional
    user name, [evaluate_risk_profile] never raises and returns exactly the
    fixed default: profile "Moderado", the canned apology and the canned
    recommendation.  It does so whatever the model and the JSON decoder do,
    so in particular on an error of the model call, on malformed JSON and
    on a parsed object with missing fields: the first statement of the
    [try] block raises, and every call ends in the [except] branch. *)
Theorem risk_profile_fallback (ai : GenAI) (json : Json)
    (answers : list pystr) (user_name : option pystr) :
  evaluate_risk_profile ai json answers user_name = inr DEFAULT_RISK_PROFILE /\
  profile DEFAULT_RISK_PROFILE = PStr (py "Moderado") /\
  explanation DEFAULT_RISK_PROFILE
  = PStr (py "No pudimos procesar tu test completamente, pero te asignamos un perfil Moderado por defecto.") /\
  recommendations DEFAULT_RISK_PROFILE
  = PStr (py "Considera ETFs diversificados como SPY o QQQ como punto de partida.").
Proof.
  split; [|split; [|split]]; [|reflexivity ..].
  unfold evaluate_risk_profile, evaluate_body, GenerativeModel.
  cbn [bind raise try_except]. reflexivity.
Qed.

Lemma risk_profile_fallback_witness :
  evaluate_risk_profile offline_llm empty_object_json (replicate 5 (py "b")) None
    = inr DEFAULT_RISK_PROFILE /\
  evaluate_risk_profile (canned_llm (py "no lo se")) empty_object_json
    (replicate 5 (py "b")) (Some (py "Ana"))
    = inr DEFAULT_RISK_PROFILE /\
  evaluate_risk_profile (canned_llm (py "{}")) empty_object_json
    (replicate 5 (py "b")) None
    = inr DEFAULT_RISK_PROFILE.
Proof.
  split; [|split].
  - apply (risk_profile_fallback offline_llm empty_object_json (replicate 5 (py "b")) None).
  - apply (risk_profile_fallback (canned_llm (py "no lo se")) empty_object_json
             (replicate 5 (py "b")) (Some (py "Ana"))).
  - apply (risk_profile_fallback (canned_llm (py "{}")) empty_object_json
             (replicate 5 (py "b")) None).
Defined.

End classifier_claims.

(** * Authentication *)

Section auth_claims.
Import router_auth auth.



(** C9, where the code breaks it.  The token decodes (it is signed with the
    key of the source), and its subject is the text "abc", which matches no
    user.  [int] rejects the subject outside the [try], nothing catches the
    [ValueError], and the request ends in a server error: not the 401 that
    an undecodable token gets. *)
Lemma malformed_subject_server_error :
  jwt_decode ana_crypto (py "token-x") SECRET_KEY [ALGORITHM]
  = inr {[ py "sub" := PStr (py "abc") ]} /\
  get_current_user plain_interp ana_crypto (py "token-x") two_users
  = inl (Exception (py "ValueError") (py "invalid literal for int()")) /\
  main.respond (get_current_user plain_interp ana_crypto (py "token-x") two_users)
  = main.Error 500 (py "Internal Server Error") /\
  main.respond (get_current_user plain_interp ana_crypto (py "garbage") two_users)
  = main.Error 401 (py "Token inválido o expirado").
Proof.
  split; [vm_compute; reflexivity|].
  split; [vm_compute; reflexivity|].
  split; vm_compute; reflexivity.
Qed.

End auth_claims.

(** * Chat endpoint *)

Section chat_claims.
Import main.

Lemma get_market_data_total (U : Unicode) (yf : YFinance) (query : pystr) :
  exists d, market_data.get_market_data U yf query = inr d.
Proof.
  unfold market_data.get_market_data.
  destruct (pystr_eqb query [] || pystr_eqb query (py "UNKNOWN")).
  - eexists. reflexivity.
  - unfold market_data._get_yfinance_data.
    match goal with
    | |- context [try_except ?b (fun e => ret ?h)] =>
      apply (try_except_total b (fun _ => h))
    end.
Qed.

Lemma get_unified_analysis_total (ai : GenAI) (msg prof : pystr)
    (md : option market_data.MarketData) :
  exists reply, ai_advisor.get_unified_analysis ai msg prof md = inr reply.
Proof.
  unfold ai_advisor.get_unified_analysis.
  match goal with
  | |- context [try_except ?b (fun e => ret (@?h e))] => apply (try_except_total b h)
  end.
Qed.

(** C10.  [POST /api/chat] always answers, and in its response the
    [market_data] field is either null or a snapshot, never a dict with an
    error: it is null when the resolved ticker is "UNKNOWN" and when the
    market lookup returns an error, and the advisor is called with this same
    coerced value.  The [detected_ticker] field is the resolver's output for
    the request message. *)
Theorem chat_market_data (U : Unicode) (yf : YFinance) (ai : GenAI)
    (request : ChatRequest) :
  let ticker := ai_advisor.extract_ticker_from_message U (message request) in
  exists resp,
    chat_endpoint U yf ai request = inr resp /\
    detected_ticker resp = ticker /\
    (market_data resp = None \/
     exists s, market_data resp = Some (market_data.MarketSnapshot s) /\
               market_data.get_market_data U yf ticker
                 = inr (market_data.MarketSnapshot s)) /\
    (ticker = py "UNKNOWN" -> market_data resp = None) /\
    (forall err,
       market_data.get_market_data U yf ticker = inr (market_data.MarketError err) ->
       market_data resp = None) /\
    ai_advisor.get_unified_analysis ai (message request) (profile request)
      (market_data resp) = inr (reply resp).
Proof.
  intros ticker. unfold chat_endpoint. fold ticker.
  destruct (get_market_data_total U yf ticker) as (d & Hd).
  unfold pystr_eqb.
  destruct (bool_decide (ticker = py "UNKNOWN")) eqn:E; cbn [negb bind ret].
  - apply bool_decide_eq_true in E.
    destruct (get_unified_analysis_total ai (message request) (profile request) None)
      as (rep & Hrep).
    rewrite Hrep. cbn [bind ret]. eexists. split; [reflexivity|]. cbn.
    repeat split; auto.
  - apply bool_decide_eq_false in E.
    rewrite Hd. cbn [bind ret].
    destruct d as [err|s]; cbn [market_data.has_error].
    + destruct (get_unified_analysis_total ai (message request) (profile request) None)
        as (rep & Hrep).
      rewrite Hrep. cbn [bind ret]. eexists. split; [reflexivity|]. cbn.
      repeat split; auto.
    + destruct (get_unified_analysis_total ai (message request) (profile request)
                  (Some (market_data.MarketSnapshot s))) as (rep & Hrep).
      rewrite Hrep. cbn [bind ret]. eexists. split; [reflexivity|]. cbn.
      repeat split; auto.
      * right. exists s. auto.
      * intros Hu. contradiction.
      * intros err Herr. discriminate.
Qed.

Lemma chat_market_data_witness :
  exists resp,
    chat_endpoint plain_unicode offline_market (canned_llm (py "Hola"))
      {| message := py "que hay hoy"; profile := py "Moderado" |} = inr resp /\
    detected_ticker resp = py "UNKNOWN" /\
    market_data resp = None.
Proof.
  destruct (chat_market_data plain_unicode offline_market (canned_llm (py "Hola"))
              {| message := py "que hay hoy"; profile := py "Moderado" |})
    as (resp & Hrun & Hticker & _ & Hunknown & _).
  exists resp. split; [exact Hrun|]. split.
  - rewrite Hticker. vm_compute. reflexivity.
  - apply Hunknown. vm_compute. reflexivity.
Defined.

End chat_claims.

(** * Ticker resolver: the priority order *)

Section resolver_priority_facts.
Import ai_advisor.

Lemma startswith_spec (p s : pystr) :
  startswith p s = true <-> exists r, s = p ++ r.
Proof.
  revert s. induction p as [|a p IH]; intros s; simpl.
  - split; [intros _; exists s; reflexivity | reflexivity].
  - destruct s as [|b s].
    + split; [discriminate | intros (r & Hr); discriminate].
    + rewrite andb_true_iff, N.eqb_eq, IH. split.
      * intros (-> & r & ->). exists r. reflexivity.
      * intros (r & [= -> ->]). split; [reflexivity | exists r; reflexivity].
Qed.

Lemma contains_spec (k s : pystr) : contains k s = true <-> occurs_in k s.
Proof.
  unfold occurs_in. induction s as [|c s IH]; simpl.
  - rewrite orb_false_r, startswith_spec. split.
    + intros (r & Hr). exists [], r. exact Hr.
    + intros (pre & post & H). destruct pre; [exists post; exact H | discriminate].
  - rewrite orb_true_iff, startswith_spec, IH. split.
    + intros [(r & ->)|(pre & post & ->)].
      * exists [], r. reflexivity.
      * exists (c :: pre), post. reflexivity.
    + intros (pre & post & H). destruct pre as [|x pre].
      * left. exists post. exact H.
      * right. injection H as -> ->. exists pre, post. reflexivity.
Qed.

Lemma contains_false (k s : pystr) : contains k s = false <-> ~ occurs_in k s.
Proof. rewrite <- contains_spec. destruct (contains k s); split; congruence. Qed.

(** The first loop returns the ticker of the first keyword that occurs. *)
Lemma keyword_loop_first (lower_msg : pystr) (pre : list (pystr * pystr)) :
  forall keyword ticker post,
  occurs_in keyword lower_msg ->
  (forall k t, (k, t) ∈ pre -> ~ occurs_in k lower_msg) ->
  keyword_loop (pre ++ (keyword, ticker) :: post) lower_msg = Some ticker.
Proof.
  induction pre as [|[k t] pre IH]; intros keyword ticker post Hocc Hpre; simpl.
  - apply contains_spec in Hocc. rewrite Hocc. reflexivity.
  - assert (Hk : contains k lower_msg = false).
    { apply contains_false, (Hpre k t). left. }
    rewrite Hk. apply IH; [exact Hocc|].
    intros k' t' Hin. apply (Hpre k' t'). right. exact Hin.
Qed.

Lemma keyword_loop_none (lower_msg : pystr) (items : list (pystr * pystr)) :
  (forall k t, (k, t) ∈ items -> ~ occurs_in k lower_msg) ->
  keyword_loop items lower_msg = None.
Proof.
  induction items as [|[k t] items IH]; intros Hall; simpl; [reflexivity|].
  assert (Hk : contains k lower_msg = false).
  { apply contains_false, (Hall k t). left. }
  rewrite Hk. apply IH. intros k' t' Hin. apply (Hall k' t'). right. exact Hin.
Qed.

Lemma take_AZ_sound (n : nat) : forall s letters rest,
  take_AZ n s = (letters, rest) ->
  s = letters ++ rest /\ (length letters <= n)%nat /\
  Forall (fun c => is_AZ c = true) letters /\
  (length letters = n \/ ~ starts_with_letter rest).
Proof.
  induction n as [|n IH]; intros s letters rest; simpl.
  - destruct s; intros [= <- <-];
      (split; [reflexivity|]; split; [simpl; lia|]; split; [constructor|]; left; reflexivity).
  - destruct s as [|c s].
    + intros [= <- <-].
      split; [reflexivity|]. split; [simpl; lia|]. split; [constructor|].
      right. intros (c & r & H & _). discriminate.
    + destruct (is_AZ c) eqn:Ec.
      * destruct (take_AZ n s) as [l r] eqn:Et. intros [= <- <-].
        destruct (IH _ _ _ Et) as (-> & Hlen & Hall & Hmax).
        split; [reflexivity|]. split; [simpl; lia|].
        split; [constructor; assumption|].
        destruct Hmax as [Hmax|Hmax]; [left; simpl; lia | right; exact Hmax].
      * intros [= <- <-].
        split; [reflexivity|]. split; [simpl; lia|]. split; [constructor|].
        right. intros (c' & r & [= <- <-] & Hc). congruence.
Qed.

Lemma take_AZ_complete (n : nat) : forall letters rest,
  (length letters <= n)%nat ->
  Forall (fun c => is_AZ c = true) letters ->
  (length letters = n \/ ~ starts_with_letter rest) ->
  take_AZ n (letters ++ rest) = (letters, rest).
Proof.
  induction n as [|n IH]; intros letters rest Hlen Hall Hmax.
  - destruct letters; [|simpl in Hlen; lia]. simpl. destruct rest; reflexivity.
  - destruct letters as [|c letters]; simpl.
    + destruct Hmax as [Hmax|Hmax]; [discriminate|].
      destruct rest as [|c r]; [reflexivity|].
      destruct (is_AZ c) eqn:Ec; [|reflexivity].
      exfalso. apply Hmax. exists c, r. auto.
    + inversion Hall as [|? ? Hc Hall']; subst. rewrite Hc.
      rewrite IH; [reflexivity | simpl in Hlen; lia | exact Hall' |].
      destruct Hmax as [Hmax|Hmax]; [left; simpl in Hmax; lia | right; exact Hmax].
Qed.

Lemma cashtag_here_none (s : pystr) :
  cashtag_here s = None <-> ~ starts_with_letter s.
Proof.
  unfold cashtag_here. destruct (take_AZ 5 s) as [letters rest] eqn:Et.
  destruct (take_AZ_sound _ _ _ _ Et) as (-> & _ & Hall & Hmax).
  destruct letters as [|c letters].
  - split; [|reflexivity]. intros _.
    destruct Hmax as [Hmax|Hmax]; [discriminate | exact Hmax].
  - split; [discriminate|]. intros Hn. exfalso. apply Hn.
    inversion Hall; subst. exists c, (letters ++ rest). auto.
Qed.

Lemma not_has_cashtag_single : ~ has_cashtag [36%N].
Proof.
  intros (pre & c & post & H & _).
  apply (f_equal (@length _)) in H. rewrite length_app in H. simpl in H. lia.
Qed.

Lemma has_cashtag_cons (c : N) (s : pystr) :
  has_cashtag (c :: s) <-> (c = 36%N /\ starts_with_letter s) \/ has_cashtag s.
Proof.
  unfold has_cashtag, starts_with_letter. split.
  - intros (pre & x & post & H & Hx). destruct pre as [|p pre].
    + injection H as -> ->. left. split; [reflexivity|]. exists x, post. auto.
    + injection H as -> ->. right. exists pre, x, post. auto.
  - intros [(-> & x & r & -> & Hx)|(pre & x & post & -> & Hx)].
    + exists [], x, r. auto.
    + exists (c :: pre), x, post. auto.
Qed.

Lemma starts_with_letter_prefix (pre tail : pystr) :
  starts_with_letter (pre ++ 36%N :: tail) -> starts_with_letter (pre ++ [36%N]).
Proof.
  intros (c & r & H & Hc). destruct pre as [|p pre].
  - injection H as <- _. discriminate.
  - injection H as -> _. exists c, (pre ++ [36%N]). auto.
Qed.

Lemma classic_letter (s : pystr) : starts_with_letter s \/ ~ starts_with_letter s.
Proof.
  destruct s as [|c r].
  - right. intros (x & y & H & _). discriminate.
  - destruct (is_AZ c) eqn:Ec.
    + left. exists c, r. auto.
    + right. intros (x & y & [= <- <-] & Hx). congruence.
Qed.

(** The search returns exactly what the pattern captures. *)
Lemma search_cashtag_sound (s : pystr) : forall sym,
  search_cashtag s = Some sym -> captured_symbol s sym.
Proof.
  induction s as [|c s IH]; intros sym; simpl; [discriminate|].
  destruct (c =? 36)%N eqn:Ec.
  - apply N.eqb_eq in Ec. subst c.
    destruct (cashtag_here s) as [g|] eqn:Eh.
    + intros [= <-]. unfold cashtag_here in Eh.
      destruct (take_AZ 5 s) as [letters rest] eqn:Et.
      destruct (take_AZ_sound _ _ _ _ Et) as (-> & Hlen & Hall & Hmax).
      destruct letters as [|l letters]; [discriminate|].
      exists [], (l :: letters), rest.
      split; [reflexivity|]. split; [exact not_has_cashtag_single|].
      split; [simpl in Hlen; simpl; lia|]. split; [exact Hall|]. split; [exact Hmax|].
      destruct (startswith (py "-USD") rest) eqn:Es; injection Eh as <-.
      * left. split; [apply startswith_spec; exact Es | reflexivity].
      * right. split; [|rewrite app_nil_r; reflexivity].
        intros Hr. apply startswith_spec in Hr. congruence.
    + intros Hs. destruct (IH _ Hs) as (pre & letters & rest & -> & Hleft & Hrest).
      exists (36%N :: pre), letters, rest. split; [reflexivity|].
      split; [|exact Hrest].
      simpl. rewrite has_cashtag_cons. intros [(_ & Hl)|Hc]; [|contradiction].
      apply cashtag_here_none in Eh. apply Eh.
      destruct Hl as (x & r & Hx & HAZ). destruct pre as [|p pre].
      * injection Hx as <- _. discriminate.
      * injection Hx as -> _. eexists _, _. split; [reflexivity | exact HAZ].
  - intros Hs. destruct (IH _ Hs) as (pre & letters & rest & -> & Hleft & Hrest).
    exists (c :: pre), letters, rest. split; [reflexivity|].
    split; [|exact Hrest].
    simpl. rewrite has_cashtag_cons. intros [(-> & _)|Hc]; [discriminate|contradiction].
Qed.

Lemma search_cashtag_none (s : pystr) :
  search_cashtag s = None <-> ~ has_cashtag s.
Proof.
  induction s as [|c s IH]; simpl.
  - split; [|reflexivity]. intros _ (pre & x & post & H & _).
    destruct pre; discriminate.
  - rewrite has_cashtag_cons. destruct (c =? 36)%N eqn:Ec.
    + apply N.eqb_eq in Ec. subst c.
      destruct (cashtag_here s) as [g|] eqn:Eh.
      * split; [discriminate|]. intros Hn. exfalso. apply Hn. left.
        split; [reflexivity|].
        destruct (classic_letter s) as [Hl|Hl]; [exact Hl|].
        apply cashtag_here_none in Hl. congruence.
      * rewrite IH. apply cashtag_here_none in Eh. tauto.
    + rewrite IH. apply N.eqb_neq in Ec. tauto.
Qed.

Lemma search_cashtag_complete (s sym : pystr) :
  captured_symbol s sym -> search_cashtag s = Some sym.
Proof.
  intros (pre & letters & rest & -> & Hleft & Hlen & Hall & Hmax & Hsuf).
  induction pre as [|c pre IH]; simpl.
  - unfold cashtag_here.
    rewrite take_AZ_complete; [|lia|exact Hall|exact Hmax].
    destruct letters as [|l letters]; [simpl in Hlen; lia|].
    destruct Hsuf as [(Hr & ->)|(Hr & ->)].
    + apply startswith_spec in Hr. rewrite Hr. reflexivity.
    + destruct (startswith (py "-USD") rest) eqn:Es.
      * exfalso. apply Hr. apply startswith_spec. exact Es.
      * rewrite app_nil_r. reflexivity.
  - simpl in Hleft. rewrite has_cashtag_cons in Hleft.
    assert (Hpre : ~ has_cashtag (pre ++ [36%N])) by tauto.
    destruct (c =? 36)%N eqn:Ec; [|exact (IH Hpre)].
    apply N.eqb_eq in Ec.
    assert (Hn : cashtag_here (pre ++ 36%N :: letters ++ rest) = None).
    { apply cashtag_here_none. intros Hl.
      apply starts_with_letter_prefix in Hl. tauto. }
    rewrite Hn. exact (IH Hpre).
Qed.

Lemma is_candidate_spec (clean : pystr) : is_candidate clean = true <-> qualifies clean.
Proof.
  unfold is_candidate, qualifies.
  rewrite !andb_true_iff, negb_true_iff, bool_decide_eq_false, !Z.leb_le. tauto.
Qed.

Lemma is_candidate_false (clean : pystr) : is_candidate clean = false <-> ~ qualifies clean.
Proof.
  rewrite <- is_candidate_spec. destruct (is_candidate clean); split; congruence.
Qed.

(** The third loop returns the cleaned form of the first token that has a
    qualifying one. *)
Lemma word_loop_first (U : Unicode) (pre : list pystr) :
  forall word post,
  qualifies (clean_word U word) ->
  (forall w, w ∈ pre -> ~ qualifies (clean_word U w)) ->
  word_loop U (pre ++ word :: post) = Some (clean_word U word).
Proof.
  induction pre as [|w pre IH]; intros word post Hq Hpre; simpl.
  - apply is_candidate_spec in Hq. rewrite Hq. reflexivity.
  - assert (Hw : is_candidate (clean_word U w) = false).
    { apply is_candidate_false, Hpre. left. }
    rewrite Hw. apply IH; [exact Hq|].
    intros w' Hin. apply Hpre. right. exact Hin.
Qed.

Lemma word_loop_none (U : Unicode) (words : list pystr) :
  (forall w, w ∈ words -> ~ qualifies (clean_word U w)) ->
  word_loop U words = None.
Proof.
  induction words as [|w words IH]; intros Hall; simpl; [reflexivity|].
  assert (Hw : is_candidate (clean_word U w) = false).
  { apply is_candidate_false, Hall. left. }
  rewrite Hw. apply IH. intros w' Hin. apply Hall. right. exact Hin.
Qed.

(** ** Tokens and their letters *)

Lemma punctuation_marks (c : N) :
  c ∈ PUNCTUATION <-> c ∈ py "¿?¡!.,;:'()" \/ c = 34%N \/ c = 10%N.
Proof.
  assert (Hm : py "¿?¡!.,;:'()" = [191; 63; 161; 33; 46; 44; 59; 58; 39; 40; 41]%N)
    by (vm_compute; reflexivity).
  rewrite Hm. unfold PUNCTUATION. rewrite !elem_of_cons, !elem_of_nil. tauto.
Qed.

(** A separator is what becomes whitespace when the marks are replaced. *)
Lemma separator_iff (c : N) :
  separator c <-> is_space (if bool_decide (c ∈ PUNCTUATION) then 32%N else c) = true.
Proof.
  unfold separator. rewrite <- punctuation_marks.
  destruct (bool_decide (c ∈ PUNCTUATION)) eqn:E.
  - apply bool_decide_eq_true in E. split; [reflexivity | auto].
  - apply bool_decide_eq_false in E. tauto.
Qed.

Lemma not_separator (c : N) :
  ~ separator c ->
  (if bool_decide (c ∈ PUNCTUATION) then 32%N else c) = c /\ is_space c = false.
Proof.
  intros Hn. rewrite separator_iff in Hn.
  destruct (bool_decide (c ∈ PUNCTUATION)).
  - exfalso. apply Hn. reflexivity.
  - split; [reflexivity|]. destruct (is_space c); [contradiction | reflexivity].
Qed.

Lemma sub_punctuation_app (a b : pystr) :
  sub_punctuation (a ++ b) = sub_punctuation a ++ sub_punctuation b.
Proof. apply map_app. Qed.

(** Separators before a token are skipped. *)
Lemma split_from_separators (seps : pystr) :
  Forall separator seps ->
  forall t, split_from [] (sub_punctuation seps ++ t) = split_from [] t.
Proof.
  induction 1 as [|c seps Hc _ IH]; intros t; [reflexivity|].
  cbn [sub_punctuation map app split_from].
  apply separator_iff in Hc. rewrite Hc. apply IH.
Qed.

(** The characters of a token are collected. *)
Lemma split_from_token (w : pystr) :
  Forall (fun c => ~ separator c) w ->
  forall cur t, split_from cur (sub_punctuation w ++ t) = split_from (rev w ++ cur) t.
Proof.
  induction 1 as [|c w Hc _ IH]; intros cur t; [reflexivity|].
  cbn [sub_punctuation map app split_from].
  destruct (not_separator c Hc) as (-> & ->).
  fold (sub_punctuation w). rewrite IH. cbn [rev]. rewrite <- app_assoc. reflexivity.
Qed.

Lemma split_from_end (w : pystr) : w <> [] -> split_from (rev w) [] = [w].
Proof.
  intros Hne. cbn [split_from]. destruct (rev w) as [|x l] eqn:E.
  - apply (f_equal (@rev _)) in E. rewrite rev_involutive in E. contradiction.
  - rewrite <- E, rev_involutive. reflexivity.
Qed.

(** The tokens of a message are what the resolver splits it into. *)
Lemma tokens_of_split (s : pystr) (ws : list pystr) :
  tokens_of s ws -> split (sub_punctuation s) = ws.
Proof.
  unfold split. induction 1 as [seps Hs | seps w Hs Hne Hw | seps w c rest ws Hs Hne Hw Hc _ IH].
  - rewrite <- (app_nil_r (sub_punctuation seps)). rewrite split_from_separators by exact Hs.
    reflexivity.
  - rewrite sub_punctuation_app, split_from_separators by exact Hs.
    rewrite <- (app_nil_r (sub_punctuation w)), split_from_token by exact Hw.
    rewrite app_nil_r. apply split_from_end, Hne.
  - rewrite sub_punctuation_app, split_from_separators by exact Hs.
    rewrite sub_punctuation_app, split_from_token by exact Hw.
    rewrite app_nil_r.
    cbn [sub_punctuation map split_from] in IH |- *.
    apply separator_iff in Hc. rewrite Hc in IH |- *.
    destruct (rev w) as [|x l] eqn:E.
    + apply (f_equal (@rev _)) in E. rewrite rev_involutive in E. contradiction.
    + rewrite <- E, rev_involutive. rewrite IH. reflexivity.
Qed.

Lemma tokens_of_separator (c : N) (s : pystr) (ws : list pystr) :
  separator c -> tokens_of s ws -> tokens_of (c :: s) ws.
Proof.
  intros Hc H. destruct H as [seps Hs | seps w Hs Hne Hw | seps w c' rest ws Hs Hne Hw Hc' Hr].
  - apply tokens_none. constructor; assumption.
  - apply (tokens_last (c :: seps)); [constructor|..]; assumption.
  - apply (tokens_more (c :: seps)); [constructor|..]; assumption.
Qed.

(** Every message has tokens: what the resolver splits it into. *)
Lemma split_from_tokens (s : pystr) :
  tokens_of s (split_from [] (sub_punctuation s)) /\
  forall cur, cur <> [] -> Forall (fun c => ~ separator c) cur ->
    tokens_of (rev cur ++ s) (split_from cur (sub_punctuation s)).
Proof.
  induction s as [|c s (IH0 & IH1)].
  - split; [apply tokens_none; constructor|].
    intros cur Hne Hcur. rewrite app_nil_r. cbn [sub_punctuation map split_from].
    destruct cur as [|x l]; [contradiction|].
    apply (tokens_last [] (rev (x :: l))).
    + constructor.
    + intros E. apply (f_equal (@rev _)) in E. rewrite rev_involutive in E. discriminate.
    + apply Forall_forall. intros y Hy. rewrite Forall_forall in Hcur. apply Hcur.
      apply list_elem_of_In. apply in_rev. apply list_elem_of_In. exact Hy.
  - cbn [sub_punctuation map split_from]. fold (sub_punctuation s).
    destruct (is_space (if bool_decide (c ∈ PUNCTUATION) then 32%N else c)) eqn:E.
    + apply separator_iff in E. split.
      * apply tokens_of_separator; assumption.
      * intros cur Hne Hcur. destruct cur as [|x l]; [contradiction|].
        apply (tokens_more [] (rev (x :: l)) c s).
        -- constructor.
        -- intros E'. apply (f_equal (@rev _)) in E'. rewrite rev_involutive in E'.
           discriminate.
        -- apply Forall_forall. intros y Hy. rewrite Forall_forall in Hcur. apply Hcur.
           apply list_elem_of_In. apply in_rev. apply list_elem_of_In. exact Hy.
        -- exact E.
        -- apply tokens_of_separator; assumption.
    + assert (Hc : ~ separator c).
      { intros Hc. apply separator_iff in Hc. congruence. }
      destruct (not_separator c Hc) as (Hsub & _). rewrite Hsub in *.
      split.
      * apply (IH1 [c]); [discriminate | constructor; [exact Hc | constructor]].
      * intros cur Hne Hcur.
        replace (rev cur ++ c :: s) with (rev (c :: cur) ++ s)
          by (cbn [rev]; rewrite <- app_assoc; reflexivity).
        apply IH1; [discriminate | constructor; assumption].
Qed.

Lemma filter_capitals_cons (c : N) (s : pystr) :
  filter (fun c => is_AZ c) (c :: s)
  = if is_AZ c then c :: filter (fun c => is_AZ c) s else filter (fun c => is_AZ c) s.
Proof. unfold filter. cbn [list_filter]. destruct (is_AZ c); reflexivity. Qed.

(** The letters-only form is what the resolver cleans a word to. *)
Lemma letters_only_filter (s clean : pystr) :
  letters_only s clean <-> clean = filter (fun c => is_AZ c) s.
Proof.
  split.
  - induction 1 as [|c s clean Hc _ IH|c s clean Hc _ IH].
    + reflexivity.
    + rewrite filter_capitals_cons, Hc, IH. reflexivity.
    + rewrite filter_capitals_cons, Hc. exact IH.
  - intros ->. induction s as [|c s IH]; [constructor|].
    rewrite filter_capitals_cons. destruct (is_AZ c) eqn:Hc.
    + apply letters_keep; assumption.
    + apply letters_drop; assumption.
Qed.

(** C7.  For every message the resolver applies a strict priority order.
    (1) If a keyword of the mapping occurs in the lowercased message, the
    ticker of the first such keyword in the order of the mapping is
    returned, whatever longer keyword may occur later.  Otherwise (2) if
    the uppercased message contains a dollar sign followed by a capital
    letter, the symbol the pattern captures there is returned: 1 to 5
    letters, with "-USD" when it follows.  Otherwise (3) the first token of
    the punctuation-stripped message whose letters-only uppercased form has
    2 to 5 letters and is no stop word is returned, in that form.
    Otherwise (4) the answer is "UNKNOWN".  The tokens are the maximal runs
    of characters that are neither whitespace nor one of the stripped
    marks, and the letters-only form keeps the capitals A to Z; every
    message has exactly one list of tokens. *)
Theorem resolver_priority (U : Unicode) (message : pystr) :
  let lower_msg := lower U message in
  let upper_msg := upper U message in
  let no_keyword :=
    forall k t, (k, t) ∈ market_data.KEYWORD_TO_TICKER -> ~ occurs_in k lower_msg in
  (forall pre keyword ticker post,
     market_data.KEYWORD_TO_TICKER = pre ++ (keyword, ticker) :: post ->
     occurs_in keyword lower_msg ->
     (forall k t, (k, t) ∈ pre -> ~ occurs_in k lower_msg) ->
     extract_ticker_from_message U message = ticker) /\
  (no_keyword -> has_cashtag upper_msg ->
   exists symbol,
     captured_symbol upper_msg symbol /\
     extract_ticker_from_message U message = symbol) /\
  (no_keyword ->
   forall symbol,
     captured_symbol upper_msg symbol ->
     extract_ticker_from_message U message = symbol) /\
  (no_keyword -> ~ has_cashtag upper_msg ->
   forall words pre word post clean,
     tokens_of message words ->
     words = pre ++ word :: post ->
     letters_only (upper U word) clean ->
     qualifies clean ->
     (forall w c, w ∈ pre -> letters_only (upper U w) c -> ~ qualifies c) ->
     extract_ticker_from_message U message = clean) /\
  (no_keyword -> ~ has_cashtag upper_msg ->
   forall words,
     tokens_of message words ->
     (forall w c, w ∈ words -> letters_only (upper U w) c -> ~ qualifies c) ->
     extract_ticker_from_message U message = py "UNKNOWN") /\
  (exists words,
     tokens_of message words /\
     forall words', tokens_of message words' -> words' = words).
Proof.
  intros lower_msg upper_msg no_keyword.
  unfold extract_ticker_from_message.
  fold lower_msg. fold upper_msg.
  split; [|split; [|split; [|split; [|split]]]].
  - intros pre keyword ticker post -> Hocc Hpre.
    rewrite (keyword_loop_first lower_msg pre keyword ticker post Hocc Hpre).
    reflexivity.
  - intros Hno Hcash.
    rewrite (keyword_loop_none lower_msg _ Hno).
    destruct (search_cashtag upper_msg) as [symbol|] eqn:Es.
    + exists symbol. split; [apply search_cashtag_sound; exact Es | reflexivity].
    + apply search_cashtag_none in Es. contradiction.
  - intros Hno symbol Hcap.
    rewrite (keyword_loop_none lower_msg _ Hno).
    rewrite (search_cashtag_complete _ _ Hcap). reflexivity.
  - intros Hno Hcash words pre word post clean Htok Hwords Hclean Hq Hpre.
    rewrite (keyword_loop_none lower_msg _ Hno).
    apply search_cashtag_none in Hcash. rewrite Hcash.
    rewrite (tokens_of_split _ _ Htok), Hwords.
    apply letters_only_filter in Hclean. fold (clean_word U word) in Hclean. subst clean.
    rewrite (word_loop_first U pre word post Hq); [reflexivity|].
    intros w Hw. apply (Hpre w _ Hw). apply letters_only_filter. reflexivity.
  - intros Hno Hcash words Htok Hall.
    rewrite (keyword_loop_none lower_msg _ Hno).
    apply search_cashtag_none in Hcash. rewrite Hcash.
    rewrite (tokens_of_split _ _ Htok).
    rewrite (word_loop_none U words); [reflexivity|].
    intros w Hw. apply (Hall w _ Hw). apply letters_only_filter. reflexivity.
  - exists (split (sub_punctuation message)). split.
    + apply split_from_tokens.
    + intros words' Htok. symmetry. apply tokens_of_split, Htok.
Qed.

(** Checking by computation that no keyword occurs and no token qualifies. *)
Lemma no_keyword_check (lower_msg : pystr) (items : list (pystr * pystr)) :
  forallb (fun kt => negb (contains (fst kt) lower_msg)) items = true ->
  forall k t, (k, t) ∈ items -> ~ occurs_in k lower_msg.
Proof.
  intros Hall k t Hin. apply contains_false.
  rewrite forallb_forall in Hall.
  apply list_elem_of_In, Hall in Hin. apply negb_true_iff in Hin. exact Hin.
Qed.

Lemma no_candidate_check (U : Unicode) (words : list pystr) :
  forallb (fun w => negb (is_candidate (clean_word U w))) words = true ->
  forall w c, w ∈ words -> letters_only (upper U w) c -> ~ qualifies c.
Proof.
  intros Hall w c Hin Hc. apply letters_only_filter in Hc. subst c.
  apply is_candidate_false.
  rewrite forallb_forall in Hall.
  apply list_elem_of_In, Hall in Hin. apply negb_true_iff in Hin. exact Hin.
Qed.

(** The tokens of a message, by computation. *)
Lemma tokens_check (message : pystr) (words : list pystr) :
  split (sub_punctuation message) = words -> tokens_of message words.
Proof. intros <-. apply split_from_tokens. Qed.

Lemma resolver_priority_witness :
  extract_ticker_from_message plain_unicode (py "btc o dogecoin") = py "BTC-USD" /\
  (exists symbol,
     captured_symbol (upper plain_unicode (py "precio de $ibm-usd")) symbol /\
     extract_ticker_from_message plain_unicode (py "precio de $ibm-usd") = symbol) /\
  extract_ticker_from_message plain_unicode (py "precio de $ibm-usd") = py "IBM-USD" /\
  extract_ticker_from_message plain_unicode (py "hoy, hola;amigo") = py "HOLA" /\
  extract_ticker_from_message plain_unicode (py "que hay hoy") = py "UNKNOWN".
Proof.
  split; [|split; [|split; [|split]]].
  - destruct (resolver_priority plain_unicode (py "btc o dogecoin")) as (H & _).
    apply (H (take 22 market_data.KEYWORD_TO_TICKER) (py "btc") (py "BTC-USD")
             (drop 23 market_data.KEYWORD_TO_TICKER)).
    + vm_compute. reflexivity.
    + exists [], (py " o dogecoin"). vm_compute. reflexivity.
    + apply no_keyword_check. vm_compute. reflexivity.
  - destruct (resolver_priority plain_unicode (py "precio de $ibm-usd")) as (_ & H & _).
    apply H.
    + apply no_keyword_check. vm_compute. reflexivity.
    + exists (py "PRECIO DE "), 73%N, (py "BM-USD"). split; vm_compute; reflexivity.
  - destruct (resolver_priority plain_unicode (py "precio de $ibm-usd"))
      as (_ & _ & H & _).
    apply H.
    + apply no_keyword_check. vm_compute. reflexivity.
    + exists (py "PRECIO DE "), (py "IBM"), (py "-USD").
      split; [vm_compute; reflexivity|].
      split; [apply search_cashtag_none; vm_compute; reflexivity|].
      split; [vm_compute; lia|].
      split; [repeat constructor|].
      split; [right; intros (c & r & [= <- <-] & Hc); discriminate|].
      left. split; [exists []; reflexivity | reflexivity].
  - destruct (resolver_priority plain_unicode (py "hoy, hola;amigo"))
      as (_ & _ & _ & H & _).
    apply (H ltac:(apply no_keyword_check; vm_compute; reflexivity)
             ltac:(apply search_cashtag_none; vm_compute; reflexivity)
             [py "hoy"; py "hola"; py "amigo"] [py "hoy"] (py "hola") [py "amigo"]).
    + apply tokens_check. vm_compute. reflexivity.
    + reflexivity.
    + apply letters_only_filter. vm_compute. reflexivity.
    + apply is_candidate_spec. vm_compute. reflexivity.
    + apply no_candidate_check. vm_compute. reflexivity.
  - destruct (resolver_priority plain_unicode (py "que hay hoy"))
      as (_ & _ & _ & _ & H & _).
    apply (H ltac:(apply no_keyword_check; vm_compute; reflexivity)
             ltac:(apply search_cashtag_none; vm_compute; reflexivity)
             [py "que"; py "hay"; py "hoy"]).
    + apply tokens_check. vm_compute. reflexivity.
    + apply no_candidate_check. vm_compute. reflexivity.
Defined.

End resolver_priority_facts.

(** * Further properties of the resolver *)

Section resolver_shape_facts.
Import ai_advisor.

Lemma keyword_loop_some (lower_msg : pystr) (items : list (pystr * pystr)) (t : pystr) :
  keyword_loop items lower_msg = Some t ->
  exists k, (k, t) ∈ items /\ occurs_in k lower_msg.
Proof.
  induction items as [|[k t'] items IH]; simpl; [discriminate|].
  destruct (contains k lower_msg) eqn:Ek.
  - intros [= ->]. exists k. split; [left | apply contains_spec; exact Ek].
  - intros H. destruct (IH H) as (k' & Hin & Hocc).
    exists k'. split; [right; exact Hin | exact Hocc].
Qed.

Lemma word_loop_some (U : Unicode) (words : list pystr) (c : pystr) :
  word_loop U words = Some c ->
  exists w, w ∈ words /\ c = clean_word U w /\ is_candidate c = true.
Proof.
  induction words as [|w words IH]; simpl; [discriminate|].
  destruct (is_candidate (clean_word U w)) eqn:Ec.
  - intros [= <-]. exists w. split; [left | auto].
  - intros H. destruct (IH H) as (w' & Hin & Hc).
    exists w'. split; [right; exact Hin | exact Hc].
Qed.

Lemma mapping_tickers_nonempty :
  Forall (fun kt => snd kt <> []) market_data.KEYWORD_TO_TICKER.
Proof. repeat (constructor; [vm_compute; discriminate|]). constructor. Qed.

(** X1.  The resolver never returns the empty string.  Its answer is the ticker
    of a keyword occurring in the lowercased message, or one to five
    capitals with an optional "-USD", or two to five capitals outside the
    stop-word set, or "UNKNOWN". *)
Theorem resolver_output_shape (U : Unicode) (message : pystr) :
  let r := extract_ticker_from_message U message in
  r <> [] /\
  ((exists k, (k, r) ∈ market_data.KEYWORD_TO_TICKER /\ occurs_in k (lower U message)) \/
   cashtag_shape r \/ ticker_word r \/ r = py "UNKNOWN").
Proof.
  unfold extract_ticker_from_message.
  destruct (keyword_loop market_data.KEYWORD_TO_TICKER (lower U message)) as [t|] eqn:Ek.
  { apply keyword_loop_some in Ek as (k & Hin & Hocc). split.
    - pose proof mapping_tickers_nonempty as Hne.
      rewrite Forall_forall in Hne. apply (Hne (k, t) Hin).
    - left. exists k. auto. }
  destruct (search_cashtag (upper U message)) as [sym|] eqn:Es.
  { apply search_cashtag_sound in Es
      as (pre & letters & rest & _ & _ & Hlen & Hall & _ & Hsuf).
    assert (Hshape : cashtag_shape sym).
    { exists letters. split; [exact Hlen|]. split; [exact Hall|].
      destruct Hsuf as [(_ & ->)|(_ & ->)]; auto. }
    split; [|right; left; exact Hshape].
    destruct letters as [|l letters]; [simpl in Hlen; lia|].
    destruct Hsuf as [(_ & ->)|(_ & ->)]; discriminate. }
  destruct (word_loop U (split (sub_punctuation message))) as [c|] eqn:Ew.
  { apply word_loop_some in Ew as (w & _ & -> & Hc).
    apply is_candidate_spec in Hc as (Hlen & Hstop).
    split.
    - intros Hnil. rewrite Hnil in Hlen. unfold len in Hlen. simpl in Hlen. lia.
    - right. right. left. split; [exact Hlen|]. split; [|exact Hstop].
      unfold clean_word. apply Forall_forall. intros x Hx.
      apply list_elem_of_filter in Hx as [Hx _].
      destruct (is_AZ x); [reflexivity | contradiction]. }
  split; [vm_compute; discriminate | do 3 right; reflexivity].
Qed.

Lemma mapping_tickers_fixed (U : Unicode) :
  Forall (fun kt =>
            (pystr_eqb (snd kt) [] || pystr_eqb (snd kt) (py "UNKNOWN")) = false /\
            default (upper U (snd kt))
              (dict_get market_data.KEYWORD_TO_TICKER (lower U (snd kt))) = snd kt)
         market_data.KEYWORD_TO_TICKER.
Proof. repeat (constructor; [split; vm_compute; reflexivity|]). constructor. Qed.

(** X2.  A ticker the resolver takes from the keyword mapping is looked up under
    that same symbol: [get_market_data] maps it to itself, whatever its
    case-folded form hits in the mapping. *)
Theorem mapping_ticker_lookup (U : Unicode) (yf : YFinance) (k t : pystr) :
  (k, t) ∈ market_data.KEYWORD_TO_TICKER ->
  market_data.get_market_data U yf t = market_data._get_yfinance_data U yf t.
Proof.
  intros Hin. pose proof (mapping_tickers_fixed U) as Hall.
  rewrite Forall_forall in Hall. destruct (Hall _ Hin) as (Hguard & Hsame).
  unfold market_data.get_market_data. cbn [snd] in Hguard, Hsame.
  rewrite Hguard, Hsame. reflexivity.
Qed.

Lemma mapping_ticker_lookup_witness :
  market_data.get_market_data plain_unicode (flat_market 2 100) (py "BTC-USD")
  = market_data._get_yfinance_data plain_unicode (flat_market 2 100) (py "BTC-USD").
Proof.
  apply (mapping_ticker_lookup plain_unicode (flat_market 2 100) (py "bitcoin")).
  unfold market_data.KEYWORD_TO_TICKER. apply list_elem_of_In.
  vm_compute. do 21 right. left. reflexivity.
Defined.

End resolver_shape_facts.

(** * Further properties of the market accessor *)

Section market_facts.
Import market_data.

Lemma price_change_last (init : Observations) (t : Timestamp) (p : Q) :
  price_change (init ++ [(t, p)])
  = inr {| pc_price := p;
           pc_prev_price := previous_close init p;
           pc_change := (p - previous_close init p)%Q;
           pc_change_pct :=
             (if Qeq_bool (previous_close init p) 0 then 0
              else (p - previous_close init p) / previous_close init p * 100)%Q |}.
Proof.
  unfold price_change, iloc_neg. rewrite rev_unit. cbn [lookup list_lookup pred bind ret].
  match goal with
  | |- bind ?c _ = _ => assert (Hprev : c = inr (previous_close init p))
  end.
  { unfold previous_close, len. rewrite length_app. simpl length.
    destruct init as [|x init _] using rev_ind.
    - reflexivity.
    - rewrite length_app. simpl length.
      rewrite Z.geb_leb.
      replace (2 <=? Z.of_nat (length init + 1 + 1)) with true
        by (symmetry; apply Z.leb_le; lia).
      rewrite rev_unit, last_snoc. destruct x as [t' q]. reflexivity. }
  rewrite Hprev. cbn [bind].
  destruct (Qeq_bool (previous_close init p) 0) eqn:E; cbn [negb bind ret].
  - reflexivity.
  - rewrite py_div_nonzero; [reflexivity|].
    intros Hz. apply Qeq_bool_iff in Hz. congruence.
Qed.

Lemma info_name (U : Unicode) (yf : YFinance) (symbol : pystr) :
  try_except
    (let! info := info yf symbol in
     ret (match info !! py "longName" with
          | Some ((_ :: _) as n) => n
          | _ => match info !! py "shortName" with
                 | Some ((_ :: _) as n) => n
                 | _ => upper U symbol
                 end
          end))
    (fun _ => ret (upper U symbol))
  = inr (display_name U yf symbol).
Proof. unfold display_name. destruct (info yf symbol); reflexivity. Qed.

Lemma fetch_with_closes (U : Unicode) (yf : YFinance) (symbol : pystr)
    (hist : DataFrame) (init : Observations) (t : Timestamp) (p : Q) :
  history yf symbol (py "2d") = inr hist ->
  dropna (Close hist) = init ++ [(t, p)] ->
  _get_yfinance_data U yf symbol
  = inr (MarketSnapshot (snapshot_of U yf symbol p (previous_close init p))).
Proof.
  intros Hh Hd. unfold _get_yfinance_data. rewrite Hh. cbn [bind].
  assert (He : df_empty hist = false).
  { unfold df_empty. destruct (Close hist); [|reflexivity].
    destruct init; discriminate. }
  rewrite He. cbv zeta. rewrite Hd.
  assert (Hl : (len (init ++ [(t, p)]) <? 1) = false).
  { apply Z.ltb_ge. unfold len. rewrite length_app. simpl. lia. }
  rewrite Hl, price_change_last. cbn [bind].
  rewrite info_name. reflexivity.
Qed.

Lemma fetch_without_closes (U : Unicode) (yf : YFinance) (symbol : pystr) :
  (forall e, history yf symbol (py "2d") = inl e ->
     _get_yfinance_data U yf symbol
     = inr (MarketError (py "No se pudo obtener datos para '" ++ symbol ++ py "'"))) /\
  (forall hist, history yf symbol (py "2d") = inr hist -> Close hist = [] ->
     _get_yfinance_data U yf symbol
     = inr (MarketError (py "No se encontraron datos para '" ++ symbol ++ py "'"))) /\
  (forall hist, history yf symbol (py "2d") = inr hist ->
     Close hist <> [] -> dropna (Close hist) = [] ->
     _get_yfinance_data U yf symbol
     = inr (MarketError (py "No hay datos de cierre para '" ++ symbol ++ py "'"))).
Proof.
  unfold _get_yfinance_data. split; [|split].
  - intros e ->. reflexivity.
  - intros hist -> Hc. cbn [bind]. unfold df_empty. rewrite Hc. reflexivity.
  - intros hist -> Hc Hd. cbn [bind]. unfold df_empty.
    destruct (Close hist) eqn:E; [contradiction|]. cbv zeta. rewrite Hd. reflexivity.
Qed.

Ltac split8 := split; [split | split; [split | split; [split | split]]].

(** Two messages that differ in their fixed beginning. *)
Ltac message_clash :=
  let H := fresh "H" in
  intros H; injection H as H; vm_compute in H; discriminate.

(** X3.  The single-ticker fetch never raises, and each of its three error
    messages has one cause: the catch-all message only a failing fetch, the
    "no data" message only an empty frame, the "no closing data" message
    only a frame whose closes are all NaN.  With at least one close it
    returns a snapshot. *)
Theorem single_fetch_outcomes (U : Unicode) (yf : YFinance) (symbol : pystr) :
  exists d,
    _get_yfinance_data U yf symbol = inr d /\
    (d = MarketError (py "No se pudo obtener datos para '" ++ symbol ++ py "'") <->
     exists e, history yf symbol (py "2d") = inl e) /\
    (d = MarketError (py "No se encontraron datos para '" ++ symbol ++ py "'") <->
     exists hist, history yf symbol (py "2d") = inr hist /\ Close hist = []) /\
    (d = MarketError (py "No hay datos de cierre para '" ++ symbol ++ py "'") <->
     exists hist, history yf symbol (py "2d") = inr hist /\
                  Close hist <> [] /\ dropna (Close hist) = []) /\
    (has_error d = false <->
     exists hist, history yf symbol (py "2d") = inr hist /\ dropna (Close hist) <> []).
Proof.
  destruct (fetch_without_closes U yf symbol) as (Hraise & Hempty & Hnan).
  destruct (history yf symbol (py "2d")) as [e|hist] eqn:Eh.
  { eexists. split; [apply (Hraise e eq_refl)|]. split8.
    - intros _. eauto.
    - intros _. reflexivity.
    - message_clash.
    - intros (h & Hh & _). discriminate.
    - message_clash.
    - intros (h & Hh & _). discriminate.
    - cbn. discriminate.
    - intros (h & Hh & _). discriminate. }
  destruct (Close hist) as [|row rows] eqn:Ec.
  { eexists. split; [apply (Hempty hist eq_refl Ec)|]. split8.
    - message_clash.
    - intros (e & He). discriminate.
    - intros _. exists hist. auto.
    - intros _. reflexivity.
    - message_clash.
    - intros (h & [= <-] & Hne & _). congruence.
    - cbn. discriminate.
    - intros (h & [= <-] & Hne). rewrite Ec in Hne. exfalso. apply Hne. reflexivity. }
  destruct (dropna (Close hist)) as [|x closes _] eqn:Ed using rev_ind.
  { eexists. split; [apply (Hnan hist eq_refl); [congruence | exact Ed]|]. split8.
    - message_clash.
    - intros (e & He). discriminate.
    - message_clash.
    - intros (h & [= <-] & Hc). congruence.
    - intros _. exists hist. split; [reflexivity|]. split; [congruence | exact Ed].
    - intros _. reflexivity.
    - cbn. discriminate.
    - intros (h & [= <-] & Hne). congruence. }
  destruct x as [t p].
  eexists. split; [apply (fetch_with_closes U yf symbol hist closes t p Eh Ed)|]. split8.
  - discriminate.
  - intros (e & He). discriminate.
  - discriminate.
  - intros (h & [= <-] & Hc). congruence.
  - discriminate.
  - intros (h & [= <-] & _ & Hd). rewrite Ed in Hd. destruct closes; discriminate.
  - intros _. exists hist. split; [reflexivity|]. rewrite Ed. destruct closes; discriminate.
  - intros _. reflexivity.
Qed.

Lemma single_fetch_outcomes_witness :
  _get_yfinance_data plain_unicode offline_market (py "aapl")
    = inr (MarketError (py "No se pudo obtener datos para 'aapl'")) /\
  _get_yfinance_data plain_unicode (flat_market 0 100) (py "aapl")
    = inr (MarketError (py "No se encontraron datos para 'aapl'")) /\
  _get_yfinance_data plain_unicode gap_market (py "aapl")
    = inr (MarketError (py "No hay datos de cierre para 'aapl'")) /\
  (exists d, _get_yfinance_data plain_unicode (flat_market 2 100) (py "aapl") = inr d /\
             has_error d = false).
Proof.
  split; [|split; [|split]].
  - destruct (single_fetch_outcomes plain_unicode offline_market (py "aapl"))
      as (d & -> & H & _).
    f_equal. apply H. eexists. reflexivity.
  - destruct (single_fetch_outcomes plain_unicode (flat_market 0 100) (py "aapl"))
      as (d & -> & _ & H & _).
    f_equal. apply H. eexists. split; reflexivity.
  - destruct (single_fetch_outcomes plain_unicode gap_market (py "aapl"))
      as (d & -> & _ & _ & H & _).
    f_equal. apply H. eexists. split; [reflexivity|]. split; [discriminate | reflexivity].
  - destruct (single_fetch_outcomes plain_unicode (flat_market 2 100) (py "aapl"))
      as (d & Hd & _ & _ & _ & H).
    exists d. split; [exact Hd|]. apply H. eexists. split; [reflexivity | discriminate].
Defined.

Lemma single_fetch_total (U : Unicode) (yf : YFinance) (symbol : pystr) :
  exists d, _get_yfinance_data U yf symbol = inr d.
Proof.
  unfold _get_yfinance_data.
  match goal with
  | |- context [try_except ?b (fun e => ret ?h)] => apply (try_except_total b (fun _ => h))
  end.
Qed.

(** The quote of one asset in a grouped download. *)
Lemma batch_quote_grouped (frames : gmap pystr DataFrame) (asset : Asset) :
  let tl := map a_ticker TOP_ASSETS in
  match frames !! a_ticker asset with
  | None => exists e, batch_quote tl (Grouped frames) asset = inl e
  | Some f =>
    match dropna (Close f) with
    | [] => batch_quote tl (Grouped frames) asset = inr None
    | _ :: _ =>
      exists q, batch_quote tl (Grouped frames) asset = inr (Some q) /\
                q_ticker q = a_ticker asset /\ q_name q = a_name asset /\
                q_category q = a_category asset /\ q_currency q = py "USD"
    end
  end.
Proof.
  intros tl. unfold batch_quote. change (len tl >? 1) with true. cbv iota.
  destruct (frames !! a_ticker asset) as [f|]; cbn [bind ret raise].
  2:{ eexists. reflexivity. }
  destruct (dropna (Close f)) as [|c closes] eqn:Ed; [reflexivity|].
  destruct (price_change_total (c :: closes)) as (pc & Hpc); [discriminate|].
  assert (Hl : (len (c :: closes) <? 1) = false).
  { apply Z.ltb_ge. unfold len. simpl length. lia. }
  rewrite Hl, Hpc. cbn [bind ret]. eexists. repeat split; reflexivity.
Qed.

Lemma omap_fmap_sublist {A B C} (g : A -> option B) (f : B -> C) (h : A -> C)
    (l : list A) :
  (forall x y, g x = Some y -> f y = h x) ->
  sublist (f <$> omap g l) (h <$> l).
Proof.
  intros Hgh. induction l as [|x l IH]; simpl; [constructor|].
  destruct (g x) as [y|] eqn:Eg; simpl.
  - rewrite (Hgh x y Eg). apply sublist_skip. exact IH.
  - apply sublist_cons. exact IH.
Qed.

(** X5.  The dashboard list from a grouped batch download: the call never
    raises; an asset of the curated list gets a quote exactly when the
    download has a frame for it with at least one close that is not NaN,
    and is silently left out otherwise; the quotes keep the curated order
    and carry the curated name and category, so there are at most nine. *)
Theorem top_assets_batch (U : Unicode) (yf : YFinance) (frames : gmap pystr DataFrame) :
  download yf (map a_ticker TOP_ASSETS) (py "2d") = inr (Grouped frames) ->
  exists results,
    get_top_assets U yf = inr results /\
    sublist (entry_ticker <$> results) (a_ticker <$> TOP_ASSETS) /\
    (length results <= 9)%nat /\
    (forall entry, entry ∈ results ->
       exists q asset,
         entry = BatchQuote q /\ asset ∈ TOP_ASSETS /\
         q_ticker q = a_ticker asset /\ q_name q = a_name asset /\
         q_category q = a_category asset /\ q_currency q = py "USD") /\
    (forall asset, asset ∈ TOP_ASSETS ->
       (exists q, BatchQuote q ∈ results /\ q_ticker q = a_ticker asset) <->
       (exists f, frames !! a_ticker asset = Some f /\ dropna (Close f) <> [])).
Proof.
  intros Hdl. unfold get_top_assets. rewrite Hdl. cbn [bind].
  rewrite batch_loop. unfold try_except. rewrite app_nil_l.
  set (tl := map a_ticker TOP_ASSETS).
  set (pick := fun asset => match batch_quote tl (Grouped frames) asset with
                            | inr (Some q) => Some (BatchQuote q)
                            | _ => None
                            end).
  assert (Hpick : forall asset entry, pick asset = Some entry ->
    exists q f, entry = BatchQuote q /\
      q_ticker q = a_ticker asset /\ q_name q = a_name asset /\
      q_category q = a_category asset /\ q_currency q = py "USD" /\
      frames !! a_ticker asset = Some f /\ dropna (Close f) <> []).
  { intros asset entry. unfold pick.
    pose proof (batch_quote_grouped frames asset) as Hq. cbv zeta in Hq. fold tl in Hq.
    destruct (frames !! a_ticker asset) as [f|].
    - destruct (dropna (Close f)) as [|c closes] eqn:Ed.
      + rewrite Hq. discriminate.
      + destruct Hq as (q & -> & H1 & H2 & H3 & H4). intros [= <-].
        exists q, f. rewrite Ed. repeat split; auto; discriminate.
    - destruct Hq as (e & ->). discriminate. }
  eexists. split; [reflexivity|].
  assert (Hsub : sublist (entry_ticker <$> omap pick TOP_ASSETS) (a_ticker <$> TOP_ASSETS)).
  { apply omap_fmap_sublist. intros asset entry Hp.
    destruct (Hpick _ _ Hp) as (q & f & -> & Ht & _). exact Ht. }
  split; [exact Hsub|]. split.
  { apply sublist_length in Hsub. rewrite !length_fmap in Hsub. exact Hsub. }
  split.
  { intros entry Hin. apply list_elem_of_omap in Hin as (asset & Hin & Hp).
    destruct (Hpick _ _ Hp) as (q & f & -> & H1 & H2 & H3 & H4 & _).
    exists q, asset. split; [reflexivity|]. auto 10. }
  intros asset Hin. split.
  - intros (q & Hq & Ht). apply list_elem_of_omap in Hq as (asset' & _ & Hp).
    destruct (Hpick _ _ Hp) as (q' & f & [= <-] & Ht' & _ & _ & _ & Hf & Hd).
    exists f. rewrite <- Ht, Ht'. auto.
  - intros (f & Hf & Hd).
    pose proof (batch_quote_grouped frames asset) as Hq. cbv zeta in Hq. fold tl in Hq.
    rewrite Hf in Hq. destruct (dropna (Close f)) as [|c closes]; [contradiction|].
    destruct Hq as (q & Hq & Ht & _). exists q. split; [|exact Ht].
    apply list_elem_of_omap. exists asset. split; [exact Hin|].
    unfold pick. rewrite Hq. reflexivity.
Qed.

Lemma top_assets_batch_witness :
  exists results,
    get_top_assets plain_unicode apple_only = inr results /\
    entry_ticker <$> results = [py "AAPL"].
Proof.
  destruct (top_assets_batch plain_unicode apple_only _ eq_refl)
    as (results & Hrun & _).
  exists results. split; [exact Hrun|].
  vm_compute in Hrun. injection Hrun as <-. reflexivity.
Defined.

Lemma fallback_loop (U : Unicode) (yf : YFinance) (assets : list Asset) :
  forall results,
  for_each assets
    (fun asset results =>
       let! item := _get_yfinance_data U yf (a_ticker asset) in
       match item with
       | MarketSnapshot s =>
         ret (results ++ [FallbackItem
                {| source := source s; ticker := ticker s; name := name s;
                   price := price s; change := change s;
                   change_percent := change_percent s; currency := currency s;
                   category := Some (a_category asset) |}])
       | MarketError _ => ret results
       end)
    results
  = inr (results ++
         omap (fun asset =>
                 match _get_yfinance_data U yf (a_ticker asset) with
                 | inr (MarketSnapshot s) =>
                   Some (FallbackItem (with_category (a_category asset) s))
                 | _ => None
                 end) assets).
Proof.
  induction assets as [|a assets IH]; intros results; simpl.
  - rewrite app_nil_r. reflexivity.
  - destruct (single_fetch_total U yf (a_ticker a)) as (d & ->). cbn [bind].
    destruct d as [err|s]; cbn [bind ret]; rewrite IH.
    + reflexivity.
    + rewrite <- app_assoc. reflexivity.
Qed.

(** X6.  The dashboard list when the batch download fails: the call still never
    raises and falls back to one single fetch per curated asset; every
    asset whose fetch gives a snapshot is listed with that snapshot tagged
    with the curated category, the others are left out, and nothing else is
    listed. *)
Theorem top_assets_fallback (U : Unicode) (yf : YFinance) (e : PyExc) :
  download yf (map a_ticker TOP_ASSETS) (py "2d") = inl e ->
  exists results,
    get_top_assets U yf = inr results /\
    (length results <= 9)%nat /\
    (forall asset s,
       asset ∈ TOP_ASSETS ->
       _get_yfinance_data U yf (a_ticker asset) = inr (MarketSnapshot s) ->
       FallbackItem (with_category (a_category asset) s) ∈ results) /\
    (forall entry, entry ∈ results ->
       exists asset s,
         asset ∈ TOP_ASSETS /\
         _get_yfinance_data U yf (a_ticker asset) = inr (MarketSnapshot s) /\
         entry = FallbackItem (with_category (a_category asset) s)).
Proof.
  intros Hdl. unfold get_top_assets. rewrite Hdl. cbn [bind try_except].
  rewrite fallback_loop, app_nil_l.
  eexists. split; [reflexivity|]. split; [|split].
  - match goal with
    | |- (length (omap ?g ?l) <= _)%nat =>
      pose proof (omap_fmap_sublist g (fun _ => tt) (fun _ => tt) l (fun _ _ _ => eq_refl))
        as Hsub
    end.
    apply sublist_length in Hsub. rewrite !length_fmap in Hsub. exact Hsub.
  - intros asset s Hin Hs. apply list_elem_of_omap. exists asset.
    split; [exact Hin|]. rewrite Hs. reflexivity.
  - intros entry Hin. apply list_elem_of_omap in Hin as (asset & Hin & Hp).
    destruct (_get_yfinance_data U yf (a_ticker asset)) as [x|[err|s]] eqn:Eg;
      try discriminate.
    injection Hp as <-. exists asset, s. auto.
Qed.

Lemma top_assets_fallback_witness :
  exists results s,
    get_top_assets plain_unicode bitcoin_only = inr results /\
    results = [FallbackItem s] /\
    ticker s = py "BTC-USD" /\ category s = Some (py "Cripto").
Proof.
  destruct (top_assets_fallback plain_unicode bitcoin_only _ eq_refl)
    as (results & Hrun & _).
  exists results. vm_compute in Hrun. injection Hrun as <-.
  eexists. split; [vm_compute; reflexivity|]. split; [reflexivity|].
  split; reflexivity.
Defined.

End market_facts.

(** * Further properties of rounding *)

Lemma round_half_even_bounds (x : Q) :
  let k := round_half_even x in
  let n := Qnum x in
  let d := Z.pos (Qden x) in
  ((2 * k - 1) * d <= 2 * n <= (2 * k + 1) * d)%Z /\
  ((2 * n = (2 * k + 1) * d)%Z -> Z.even k = true) /\
  ((2 * n = (2 * k - 1) * d)%Z -> Z.even k = true).
Proof.
  unfold round_half_even.
  set (n := Qnum x). set (d := Z.pos (Qden x)).
  assert (Hd : (0 < d)%Z) by (unfold d; lia).
  pose proof (Z.div_mod n d ltac:(lia)) as Hdm.
  pose proof (Z.mod_pos_bound n d Hd) as Hr.
  set (q := (n / d)%Z) in *. set (r := (n mod d)%Z) in *.
  destruct (2 * r ?= d)%Z eqn:E.
  - apply Z.compare_eq in E.
    destruct (Z.even q) eqn:Eq; cbv zeta.
    + split; [nia|]. split; [intros _; exact Eq | intros H; nia].
    + assert (Ho : Z.even (q + 1) = true).
      { rewrite Z.add_1_r, Z.even_succ, <- Z.negb_even, Eq. reflexivity. }
      split; [nia|]. split; [intros H; nia | intros _; exact Ho].
  - pose proof (proj1 (Z.compare_lt_iff _ _) E) as E'. cbv zeta.
    split; [nia|]. split; intros H; nia.
  - pose proof (proj1 (Z.compare_gt_iff _ _) E) as E'. cbv zeta.
    split; [nia|]. split; intros H; nia.
Qed.

Lemma round_half_even_monotone (x y : Q) :
  (x <= y)%Q -> (round_half_even x <= round_half_even y)%Z.
Proof.
  intros Hxy. unfold Qle in Hxy.
  pose proof (round_half_even_bounds x) as (Hx & _ & Hx2).
  pose proof (round_half_even_bounds y) as (Hy & Hy1 & _).
  cbv zeta in *.
  set (a := round_half_even x) in *. set (b := round_half_even y) in *.
  set (n := Qnum x) in *. set (d := Z.pos (Qden x)) in *.
  set (m := Qnum y) in *. set (e := Z.pos (Qden y)) in *.
  assert (Hd : (0 < d)%Z) by (unfold d; lia).
  assert (He : (0 < e)%Z) by (unfold e; lia).
  destruct (Z_le_gt_dec a b) as [Hle|Hgt]; [exact Hle|exfalso].
  assert (H1 : (2 * n * e >= (2 * b + 1) * d * e)%Z) by nia.
  assert (H2 : (2 * m * d <= (2 * b + 1) * e * d)%Z) by nia.
  assert (Hab : a = (b + 1)%Z) by nia.
  assert (Htx : (2 * n = (2 * a - 1) * d)%Z) by nia.
  assert (Hty : (2 * m = (2 * b + 1) * e)%Z) by nia.
  specialize (Hx2 Htx). specialize (Hy1 Hty).
  rewrite Hab, Z.add_1_r, Z.even_succ, <- Z.negb_even, Hy1 in Hx2. discriminate.
Qed.

Lemma py_round_monotone (x y : Q) (n : nat) :
  (x <= y)%Q -> (py_round x n <= py_round y n)%Q.
Proof.
  intros Hxy. unfold py_round.
  set (s := Z.to_pos (10 ^ Z.of_nat n)).
  assert (Hk : (round_half_even (Qred (x * inject_Z (Z.pos s)))
                <= round_half_even (Qred (y * inject_Z (Z.pos s))))%Z).
  { apply round_half_even_monotone. rewrite !Qred_correct.
    apply Qmult_le_compat_r; [exact Hxy|]. unfold Qle; simpl. lia. }
  set (a := round_half_even (Qred (x * inject_Z (Z.pos s)))) in *.
  set (b := round_half_even (Qred (y * inject_Z (Z.pos s)))) in *.
  rewrite (Qred_correct (a # s)), (Qred_correct (b # s)).
  unfold Qle; simpl. nia.
Qed.

Lemma py_round_nonneg (x : Q) (n : nat) : (0 <= x)%Q -> (0 <= py_round x n)%Q.
Proof.
  intros Hx. pose proof (py_round_monotone _ _ n Hx) as H.
  rewrite (py_round_zero 0 n) in H by reflexivity. exact H.
Qed.

Lemma py_round_nonpos (x : Q) (n : nat) : (x <= 0)%Q -> (py_round x n <= 0)%Q.
Proof.
  intros Hx. pose proof (py_round_monotone _ _ n Hx) as H.
  rewrite (py_round_zero 0 n) in H by reflexivity. exact H.
Qed.

(** ** Compound growth *)

Lemma compound_nonneg (q : Q) (m : nat) : (0 <= q)%Q -> (0 <= compound q m)%Q.
Proof.
  intros Hq. induction m as [|m IH]; cbn [compound]; [discriminate|].
  apply Qmult_le_0_compat; assumption.
Qed.

Lemma compound_ge_1 (q : Q) (m : nat) : (1 <= q)%Q -> (1 <= compound q m)%Q.
Proof.
  intros Hq. induction m as [|m IH]; cbn [compound]; [apply Qle_refl|].
  apply Qle_trans with (1 * compound q m)%Q.
  - rewrite Qmult_1_l. exact IH.
  - apply Qmult_le_compat_r; [exact Hq|].
    apply Qle_trans with 1%Q; [discriminate | exact IH].
Qed.

Lemma compound_step_up (q : Q) (m : nat) :
  (1 <= q)%Q -> (compound q m <= compound q (S m))%Q.
Proof.
  intros Hq. cbn [compound]. rewrite <- (Qmult_1_l (compound q m)) at 1.
  apply Qmult_le_compat_r; [exact Hq|].
  apply compound_nonneg. apply Qle_trans with 1%Q; [discriminate | exact Hq].
Qed.

Lemma compound_step_down (q : Q) (m : nat) :
  (0 <= q)%Q -> (q <= 1)%Q -> (compound q (S m) <= compound q m)%Q.
Proof.
  intros H0 H1. cbn [compound]. rewrite <- (Qmult_1_l (compound q m)) at 2.
  apply Qmult_le_compat_r; [exact H1 | apply compound_nonneg, H0].
Qed.

Lemma compound_le_1 (q : Q) (m : nat) :
  (0 <= q)%Q -> (q <= 1)%Q -> (compound q m <= 1)%Q.
Proof.
  intros H0 H1. induction m as [|m IH]; [apply Qle_refl|].
  apply Qle_trans with (compound q m); [apply compound_step_down; assumption | exact IH].
Qed.

(** * Further properties of the projection calculator *)

Section calculator_facts.
Import calculator.
Context (U : Unicode) (I : Interp) (yf : YFinance) (pd : Pandas).

(** The entries the loop appends, in closed form. *)
Lemma loop_closed_form (amount avg : Q) (ms : list Z) : forall cv0 bd0 st',
  for_each ms (project_month amount avg) (cv0, bd0) = inr st' ->
  exists new,
    snd st' = bd0 ++ new /\
    forall j e, new !! j = Some e ->
      let v := (cv0 * compound (1 + avg) (S j))%Q in
      value e = py_round v 2 /\
      gain e = py_round (v - amount) 2 /\
      gain_pct e = py_round ((v - amount) / amount * 100) 2.
Proof.
  induction ms as [|m ms IH]; intros cv0 bd0 st'; simpl.
  - intros [= <-]. exists []. rewrite app_nil_r. split; [reflexivity|].
    intros j e Hj. discriminate.
  - intros H. bind_inv H. destruct a as [cv1 bd1].
    apply project_month_inv in Ha as (Hnz & -> & ->).
    apply IH in H as (new & Hsnd & Hnew).
    eexists (_ :: new). split; [rewrite Hsnd, <- app_assoc; reflexivity|].
    intros [|j] e Hj; cbv zeta.
    + injection Hj as <-. cbn [value gain gain_pct compound].
      assert (Hv : (cv0 * (1 + avg) == cv0 * ((1 + avg) * 1))%Q) by ring.
      repeat split; apply py_round_proper; rewrite Hv; reflexivity.
    + cbn [lookup list_lookup] in Hj. destruct (Hnew j e Hj) as (H1 & H2 & H3).
      assert (Hv : (cv0 * (1 + avg) * compound (1 + avg) (S j)
                    == cv0 * compound (1 + avg) (S (S j)))%Q).
      { cbn [compound]. ring. }
      rewrite H1, H2, H3.
      repeat split; apply py_round_proper; rewrite Hv; reflexivity.
Qed.

(** The entry of month [i + 1] of a returned projection. *)
Lemma breakdown_entry (ticker : pystr) (amount : Q) (months : Z)
    (avg : Q) (p : Projection) :
  computed_average yf pd (strip (upper U ticker)) avg ->
  calculate_projection U I yf pd ticker amount months = inr (ProjectionResult p) ->
  forall i e,
    monthly_breakdown p !! i = Some e ->
    let v := value_after amount avg (S i) in
    month e = Z.of_nat (S i) /\
    value e = py_round v 2 /\
    gain e = py_round (v - amount) 2 /\
    gain_pct e = py_round ((v - amount) / amount * 100) 2.
Proof.
  intros (period & Havg) Hrun i e Hi.
  apply calculate_projection_inv in Hrun as (avg' & period' & Havg' & Hrun).
  rewrite Havg in Havg'. injection Havg' as <- <-.
  apply project_inv in Hrun as (st & e' & p' & Hloop & _ & [= <-] & Hbd & _).
  pose proof (loop_months amount avg _ _ _ Hloop) as Hidx. simpl in Hidx.
  apply loop_closed_form in Hloop as (new & Hsnd & Hnew). simpl in Hsnd.
  rewrite Hbd in Hi. cbv zeta. split.
  - assert (Hm : (month <$> snd st) !! i = Some (month e)).
    { rewrite list_lookup_fmap, Hi. reflexivity. }
    rewrite Hidx in Hm. apply lookup_seqZ in Hm. lia.
  - rewrite Hsnd in Hi. apply (Hnew i e Hi).
Qed.

(** With a positive amount, the gain and its percentage follow the sign of
    the running value's distance from the amount, and grow with it. *)
Lemma entry_order (amount v w : Q) :
  (0 < amount)%Q -> (v <= w)%Q ->
  (py_round v 2 <= py_round w 2)%Q /\
  (py_round (v - amount) 2 <= py_round (w - amount) 2)%Q /\
  (py_round ((v - amount) / amount * 100) 2
   <= py_round ((w - amount) / amount * 100) 2)%Q.
Proof.
  intros Hpos Hvw. split; [|split]; apply py_round_monotone.
  - exact Hvw.
  - apply Qplus_le_compat; [exact Hvw | apply Qle_refl].
  - apply Qmult_le_compat_r; [|discriminate].
    unfold Qdiv. apply Qmult_le_compat_r.
    + apply Qplus_le_compat; [exact Hvw | apply Qle_refl].
    + apply Qlt_le_weak, Qinv_lt_0_compat, Hpos.
Qed.

(** X8.  A non-negative average return never shows a loss: every entry of the
    breakdown has a non-negative gain and gain percentage, and value, gain
    and percentage never decrease from one month to the next.  An average
    between -100 % and zero never shows a gain, and the three never
    increase. *)
Theorem breakdown_monotone (ticker : pystr) (amount : Q) (months : Z)
    (avg : Q) (p : Projection) :
  computed_average yf pd (strip (upper U ticker)) avg ->
  (0 < amount)%Q ->
  calculate_projection U I yf pd ticker amount months = inr (ProjectionResult p) ->
  forall i e,
    monthly_breakdown p !! i = Some e ->
    ((0 <= avg)%Q ->
     (0 <= gain e)%Q /\ (0 <= gain_pct e)%Q /\
     forall e', monthly_breakdown p !! S i = Some e' ->
       (value e <= value e')%Q /\ (gain e <= gain e')%Q /\ (gain_pct e <= gain_pct e')%Q) /\
    ((-1 <= avg)%Q -> (avg <= 0)%Q ->
     (gain e <= 0)%Q /\ (gain_pct e <= 0)%Q /\
     forall e', monthly_breakdown p !! S i = Some e' ->
       (value e' <= value e)%Q /\ (gain e' <= gain e)%Q /\ (gain_pct e' <= gain_pct e)%Q).
Proof.
  intros Havg Hpos Hrun i e Hi.
  destruct (breakdown_entry _ _ _ _ _ Havg Hrun i e Hi) as (_ & Hv & Hg & Hp).
  assert (Hzero : py_round ((amount - amount) / amount * 100) 2 = 0%Q
                  /\ py_round (amount - amount) 2 = 0%Q).
  { split; apply py_round_zero; [|ring].
    unfold Qdiv. assert (Hd : (amount - amount == 0)%Q) by ring.
    rewrite Hd. ring. }
  destruct Hzero as (Hzp & Hzg).
  split.
  - intros Hup.
    assert (H1 : (1 <= 1 + avg)%Q).
    { rewrite <- (Qplus_0_r 1) at 1. apply Qplus_le_compat; [apply Qle_refl | exact Hup]. }
    assert (Hbase : (amount <= value_after amount avg (S i))%Q).
    { unfold value_after. rewrite <- (Qmult_1_r amount) at 1.
      apply Qmult_le_l; [exact Hpos | apply compound_ge_1, H1]. }
    destruct (entry_order amount _ _ Hpos Hbase) as (_ & Hg0 & Hp0).
    rewrite Hzg in Hg0. rewrite Hzp in Hp0.
    split; [rewrite Hg; exact Hg0|]. split; [rewrite Hp; exact Hp0|].
    intros e' Hi'.
    destruct (breakdown_entry _ _ _ _ _ Havg Hrun (S i) e' Hi') as (_ & Hv' & Hg' & Hp').
    rewrite Hv, Hg, Hp, Hv', Hg', Hp'.
    apply entry_order; [exact Hpos|].
    unfold value_after. apply Qmult_le_l; [exact Hpos | apply compound_step_up, H1].
  - intros Hlow Hdown.
    assert (H0 : (0 <= 1 + avg)%Q).
    { apply Qle_trans with (1 + -1)%Q; [discriminate|].
      apply Qplus_le_compat; [apply Qle_refl | exact Hlow]. }
    assert (H1 : (1 + avg <= 1)%Q).
    { rewrite <- (Qplus_0_r 1) at 2. apply Qplus_le_compat; [apply Qle_refl | exact Hdown]. }
    assert (Hbase : (value_after amount avg (S i) <= amount)%Q).
    { unfold value_after. rewrite <- (Qmult_1_r amount) at 2.
      apply Qmult_le_l; [exact Hpos | apply compound_le_1; assumption]. }
    destruct (entry_order amount _ _ Hpos Hbase) as (_ & Hg0 & Hp0).
    rewrite Hzg in Hg0. rewrite Hzp in Hp0.
    split; [rewrite Hg; exact Hg0|]. split; [rewrite Hp; exact Hp0|].
    intros e' Hi'.
    destruct (breakdown_entry _ _ _ _ _ Havg Hrun (S i) e' Hi') as (_ & Hv' & Hg' & Hp').
    rewrite Hv, Hg, Hp, Hv', Hg', Hp'.
    apply entry_order; [exact Hpos|].
    unfold value_after. apply Qmult_le_l; [exact Hpos | apply compound_step_down; assumption].
Qed.

(** X10.  Outside the range the request schema allows, the calculator answers
    with an error result instead of a projection: for a horizon of zero or
    fewer months the breakdown is empty and indexing its last entry fails,
    and for an amount of zero the gain percentage divides by zero.  Both
    surface as the calculator's own error message with the exception text. *)
Theorem degenerate_projection (ticker : pystr) (amount : Q) (months : Z) (avg : Q) :
  computed_average yf pd (strip (upper U ticker)) avg ->
  let t := strip (upper U ticker) in
  (months <= 0 ->
   calculate_projection U I yf pd ticker amount months
   = inr (ErrorResult (py "No se pudo calcular la proyección para " ++ t
                       ++ py ": " ++ py "list index out of range"))) /\
  (1 <= months -> (amount == 0)%Q ->
   calculate_projection U I yf pd ticker amount months
   = inr (ErrorResult (py "No se pudo calcular la proyección para " ++ t
                       ++ py ": " ++ py "float division by zero"))).
Proof.
  intros (period & Havg) t. fold t in Havg.
  unfold calculate_projection, projection_body. fold t. rewrite Havg. cbn [bind].
  unfold project. split.
  - intros Hm. rewrite seqZ_nil by exact Hm. reflexivity.
  - intros Hm Hz. rewrite seqZ_cons by lia. cbn [for_each].
    unfold project_month at 1, py_div.
    apply Qeq_bool_iff in Hz. rewrite Hz. reflexivity.
Qed.

End calculator_facts.

Section calculator_fact_runs.
Import calculator.

Lemma breakdown_monotone_witness :
  exists p e,
    calculate_projection plain_unicode plain_interp (flat_market 40 100)
      (coarse_pandas (1 # 10)) (py "aapl") 1000 3 = inr (ProjectionResult p) /\
    monthly_breakdown p !! 1%nat = Some e /\
    (0 <= gain e)%Q /\ (0 <= gain_pct e)%Q.
Proof.
  eexists. eexists. split; [vm_compute; reflexivity|]. split; [reflexivity|].
  destruct (breakdown_monotone plain_unicode plain_interp (flat_market 40 100)
              (coarse_pandas (1 # 10)) (py "aapl") 1000 3 (1 # 10) _
              ltac:(eexists; vm_compute; reflexivity) ltac:(reflexivity)
              ltac:(vm_compute; reflexivity) 1%nat _ eq_refl) as (Hup & _).
  destruct (Hup ltac:(discriminate)) as (H1 & H2 & _).
  split; [exact H1 | exact H2].
Defined.

Lemma degenerate_projection_witness :
  calculate_projection plain_unicode plain_interp (flat_market 40 100)
    (coarse_pandas (1 # 10)) (py "aapl") 100 0
  = inr (ErrorResult
           (py "No se pudo calcular la proyección para AAPL: list index out of range")) /\
  calculate_projection plain_unicode plain_interp (flat_market 40 100)
    (coarse_pandas (1 # 10)) (py "aapl") 0 6
  = inr (ErrorResult
           (py "No se pudo calcular la proyección para AAPL: float division by zero")).
Proof.
  destruct (degenerate_projection plain_unicode plain_interp (flat_market 40 100)
              (coarse_pandas (1 # 10)) (py "aapl") 100 0 (1 # 10)
              ltac:(eexists; vm_compute; reflexivity)) as (H1 & _).
  destruct (degenerate_projection plain_unicode plain_interp (flat_market 40 100)
              (coarse_pandas (1 # 10)) (py "aapl") 0 6 (1 # 10)
              ltac:(eexists; vm_compute; reflexivity)) as (_ & H2).
  split.
  - rewrite H1 by lia. vm_compute. reflexivity.
  - rewrite H2 by (lia || reflexivity). vm_compute. reflexivity.
Defined.

End calculator_fact_runs.


(** * Further properties of the endpoints *)

Section endpoint_facts.
Import main.


(** A comprehension depends on its element expression only at the elements
    it visits. *)
Lemma comprehension_ext {A B} (f g : A -> Exc B) (xs : list A) :
  (forall x, x ∈ xs -> f x = g x) -> comprehension f xs = comprehension g xs.
Proof.
  induction xs as [|x xs IH]; intros H; [reflexivity|].
  cbn [comprehension]. rewrite (H x) by apply list_elem_of_here.
  rewrite IH; [reflexivity|]. intros y Hy. apply H, list_elem_of_further, Hy.
Qed.

(** The prompt of the risk test reads the first five answers only. *)
Lemma risk_test_prompt_take (answers : list pystr) (user_name : option pystr) :
  5 <= len answers ->
  ai_advisor.risk_test_prompt (take 5 answers) user_name
  = ai_advisor.risk_test_prompt answers user_name.
Proof.
  intros Hlen. unfold ai_advisor.risk_test_prompt.
  assert (Hl : len (take 5 answers) = 5).
  { unfold len in *. rewrite length_take. lia. }
  rewrite Hl. replace (Z.min (len answers) 5) with 5 by lia.
  change (Z.min 5 5) with 5.
  match goal with
  | |- bind (comprehension ?f _) _ = bind (comprehension ?g _) _ =>
    rewrite (comprehension_ext f g)
  end; [reflexivity|].
  intros i Hi. apply elem_of_seqZ in Hi.
  assert (Hget : getitem (take 5 answers) i = getitem answers i).
  { unfold getitem. rewrite lookup_take_lt by lia. reflexivity. }
  rewrite Hget. reflexivity.
Qed.

(** X13.  [POST /api/risk-test/evaluate] rejects fewer than five answers with a
    400 that reports how many it received.  With five or more it always
    answers 200, and answers beyond the fifth play no part in the result. *)
Theorem risk_test_endpoint (ai : GenAI) (json : Json) (request : RiskTestEvaluateRequest) :
  (len (answers request) < 5 ->
   respond (evaluate_risk_test ai json request)
   = Error 400 (py "Se necesitan 5 respuestas, se recibieron "
                ++ str_of_int (len (answers request)))) /\
  (5 <= len (answers request) ->
   exists r,
     respond (evaluate_risk_test ai json request) = Ok r /\
     evaluate_risk_test ai json
       {| answers := take 5 (answers request); user_name := user_name request |}
     = inr r).
Proof.
  unfold evaluate_risk_test. split.
  - intros Hlen. apply Z.ltb_lt in Hlen. rewrite Hlen. reflexivity.
  - intros Hlen.
    assert (Hl : len (take 5 (answers request)) = 5).
    { unfold len in *. rewrite length_take. lia. }
    cbn [answers user_name]. rewrite Hl.
    replace (len (answers request) <? 5) with false by (symmetry; apply Z.ltb_ge; lia).
    change (5 <? 5) with false. cbv iota.
    unfold ai_advisor.evaluate_risk_profile, ai_advisor.evaluate_body.
    rewrite risk_test_prompt_take by exact Hlen.
    match goal with
    | |- context [try_except ?b (fun e => ret ?h)] =>
      destruct (try_except_total b (fun _ => h)) as (r & Hr)
    end.
    exists r. rewrite Hr. split; reflexivity.
Qed.

Lemma risk_test_endpoint_witness :
  respond (evaluate_risk_test (canned_llm (py "{}")) empty_object_json
             {| answers := replicate 4 (py "a"); user_name := None |})
  = Error 400 (py "Se necesitan 5 respuestas, se recibieron 4") /\
  exists r,
    respond (evaluate_risk_test (canned_llm (py "{}")) empty_object_json
               {| answers := replicate 7 (py "a"); user_name := None |}) = Ok r /\
    evaluate_risk_test (canned_llm (py "{}")) empty_object_json
      {| answers := replicate 5 (py "a"); user_name := None |} = inr r.
Proof.
  split.
  - destruct (risk_test_endpoint (canned_llm (py "{}")) empty_object_json
                {| answers := replicate 4 (py "a"); user_name := None |}) as (H & _).
    rewrite H by (vm_compute; reflexivity). vm_compute. reflexivity.
  - destruct (risk_test_endpoint (canned_llm (py "{}")) empty_object_json
                {| answers := replicate 7 (py "a"); user_name := None |}) as (_ & H).
    apply H. vm_compute. discriminate.
Defined.

End endpoint_facts.

(** * Further properties of the advisor *)

Section advisor_facts.
Import ai_advisor.

Lemma occurs_in_refl (k : pystr) : occurs_in k k.
Proof. exists [], []. rewrite app_nil_r. reflexivity. Qed.

Lemma occurs_in_after (k a s : pystr) : occurs_in k s -> occurs_in k (a ++ s).
Proof. intros (pre & post & ->). exists (a ++ pre), post. rewrite <- app_assoc. reflexivity. Qed.

Lemma occurs_in_before (k s b : pystr) : occurs_in k s -> occurs_in k (s ++ b).
Proof.
  intros (pre & post & ->). exists pre, (post ++ b). rewrite <- !app_assoc. reflexivity.
Qed.

(** What occurs in a part occurs in the joined text. *)
Lemma occurs_in_join (sep : pystr) (parts : list pystr) : forall (i : nat) (p k : pystr),
  parts !! i = Some p -> occurs_in k p -> occurs_in k (join sep parts).
Proof.
  induction parts as [|x r IH]; intros [|i] p k Hi Hk; try discriminate.
  - injection Hi as ->. destruct r; cbn [join]; [exact Hk | apply occurs_in_before, Hk].
  - cbn [lookup list_lookup] in Hi. destruct r as [|y r']; [discriminate|].
    change (join sep (x :: y :: r')) with (x ++ sep ++ join sep (y :: r')).
    apply occurs_in_after, occurs_in_after, (IH i p k Hi Hk).
Qed.

(** X14.  The chat advisor never raises: its reply is the text of the model or,
    when the call fails, the apology that quotes the exception.  The prompt
    it sends carries the client's profile, the guidance for that profile
    (a fixed fallback line for a profile outside the three known ones), the
    user's message in double quotes and the market context; a market dict
    with an error is treated as no market data at all. *)
Theorem advisor_reply (ai : GenAI) (user_message user_profile : pystr)
    (md : option market_data.MarketData) :
  let guidance := default (py "Perfil Moderado.") (dict_get PROFILE_GUIDANCE user_profile) in
  (exists prompt,
     get_unified_analysis ai user_message user_profile md
     = inr (match generate_content ai MODEL_NAME prompt with
            | inr text => text
            | inl e =>
              Some (py "Lo siento, tuve un problema procesando tu consulta. Por favor intenta de nuevo. (Error: "
                    ++ exc_str e ++ py ")")
            end) /\
     occurs_in (py "PERFIL DEL CLIENTE: " ++ user_profile) prompt /\
     occurs_in (py "GUÍA DE PERFIL: " ++ guidance) prompt /\
     occurs_in (py "MENSAJE DEL USUARIO: " ++ dquote ++ user_message ++ dquote) prompt /\
     occurs_in (market_context md) prompt) /\
  (forall err,
     get_unified_analysis ai user_message user_profile
       (Some (market_data.MarketError err))
     = get_unified_analysis ai user_message user_profile None).
Proof.
  intros guidance. split.
  2:{ intros err. unfold get_unified_analysis, market_context. cbv beta iota zeta.
      reflexivity. }
  exists (advisor_prompt user_message user_profile guidance (market_context md)).
  split.
  { unfold get_unified_analysis, try_except. cbv zeta. fold guidance.
    destruct (generate_content ai MODEL_NAME _); reflexivity. }
  unfold advisor_prompt.
  split; [eapply occurs_in_join with (i := 3%nat); [reflexivity | apply occurs_in_refl]|].
  split; [eapply occurs_in_join with (i := 4%nat); [reflexivity | apply occurs_in_refl]|].
  split; [eapply occurs_in_join with (i := 6%nat); [reflexivity | apply occurs_in_refl]|].
  eapply occurs_in_join with (i := 8%nat); [reflexivity | apply occurs_in_refl].
Qed.

(** ** Cleaning the response of the risk test *)

Lemma fence_chars : py "```" = [96; 96; 96]%N.
Proof. vm_compute. reflexivity. Qed.

Lemma json_fence_chars : py "```json" = [96; 96; 96; 106; 115; 111; 110]%N.
Proof. vm_compute. reflexivity. Qed.

Lemma startswith_fence_inv (p s : pystr) :
  startswith (96 :: 96 :: 96 :: p)%N s = true -> exists s', s = (96 :: 96 :: 96 :: s')%N.
Proof.
  destruct s as [|a [|b [|c s']]]; cbn [startswith]; intros H;
    repeat match goal with
           | H : _ && _ = true |- _ => apply andb_true_iff in H as [? H]
           | H : (_ =? _)%N = true |- _ => apply N.eqb_eq in H
           end; try discriminate.
  subst. eauto.
Qed.

(** A backquote at the head of the output stood at the head of the input. *)
Lemma sub_fences_head (r o : pystr) :
  sub_fences 0 r = (96 :: o)%N -> exists r', r = (96 :: r')%N.
Proof.
  destruct r as [|c r]; [discriminate|]. cbn [sub_fences].
  rewrite json_fence_chars, fence_chars.
  destruct (startswith [96; 96; 96; 106; 115; 111; 110]%N (c :: r)) eqn:Ej.
  { apply startswith_fence_inv in Ej as (s' & [= -> ->]). eauto. }
  destruct (startswith [96; 96; 96]%N (c :: r)) eqn:Ef.
  { apply startswith_fence_inv in Ef as (s' & [= -> ->]). eauto. }
  intros [= -> _]. eauto.
Qed.

(** No fence is left, nor formed, by the removal. *)
Lemma sub_fences_clean (text : pystr) : forall skip,
  contains [96; 96; 96]%N (sub_fences skip text) = false.
Proof.
  induction text as [|c r IH]; intros skip.
  - destruct skip; reflexivity.
  - cbn [sub_fences]. destruct skip as [|k]; [|apply IH].
    rewrite json_fence_chars, fence_chars.
    destruct (startswith [96; 96; 96; 106; 115; 111; 110]%N (c :: r)) eqn:Ej; [apply IH|].
    destruct (startswith [96; 96; 96]%N (c :: r)) eqn:Ef; [apply IH|].
    cbn [contains]. rewrite IH, orb_false_r.
    destruct (startswith [96; 96; 96]%N (c :: sub_fences 0 r)) eqn:E; [|reflexivity].
    exfalso.
    apply startswith_fence_inv in E as (o & [= -> Eo]).
    destruct (sub_fences_head _ _ Eo) as (r' & ->).
    cbn [sub_fences] in Eo. rewrite json_fence_chars, fence_chars in Eo.
    destruct (startswith [96; 96; 96; 106; 115; 111; 110]%N (96 :: r')%N) eqn:Ej'.
    { apply startswith_fence_inv in Ej' as (s' & [= ->]). discriminate. }
    destruct (startswith [96; 96; 96]%N (96 :: r')%N) eqn:Ef'.
    { apply startswith_fence_inv in Ef' as (s' & [= ->]). discriminate. }
    injection Eo as Eo.
    destruct (sub_fences_head _ _ Eo) as (r'' & ->). discriminate.
Qed.

Lemma lstrip_suffix (s : pystr) : exists pre, s = pre ++ lstrip s.
Proof.
  induction s as [|c r (pre & IH)]; [exists []; reflexivity|].
  cbn [lstrip]. destruct (is_space c).
  - exists (c :: pre). cbn. rewrite <- IH. reflexivity.
  - exists []. reflexivity.
Qed.

Lemma lstrip_head (s : pystr) (c : N) (r : pystr) :
  lstrip s = c :: r -> is_space c = false.
Proof.
  induction s as [|a s IH]; [discriminate|]. cbn [lstrip].
  destruct (is_space a) eqn:E; [exact IH|]. intros [= <- _]. exact E.
Qed.

(** The stripped text lies inside the original, between what was stripped. *)
Lemma strip_infix (s : pystr) : exists pre post, s = pre ++ strip s ++ post.
Proof.
  destruct (lstrip_suffix s) as (pre & Hs).
  destruct (lstrip_suffix (rev (lstrip s))) as (pre' & Hr).
  exists pre, (rev pre'). unfold strip.
  rewrite <- rev_app_distr, <- Hr, rev_involutive. exact Hs.
Qed.

Lemma occurs_in_strip (k s : pystr) : occurs_in k (strip s) -> occurs_in k s.
Proof.
  intros Hk. destruct (strip_infix s) as (pre & post & Hs). rewrite Hs.
  apply occurs_in_after, occurs_in_before, Hk.
Qed.

(** X15.  The text handed to the JSON decoder contains no code fence, with or
    without the [json] tag, and neither starts nor ends with whitespace:
    removing fences cannot form a new one from the backquotes around it. *)
Theorem cleaned_response_shape (response_text : pystr) :
  let text := clean_response response_text in
  ~ occurs_in (py "```") text /\
  (forall c r, text = c :: r -> is_space c = false) /\
  (forall c r, text = r ++ [c] -> is_space c = false).
Proof.
  intros text. subst text. unfold clean_response. split; [|split].
  - intros Hk. apply occurs_in_strip in Hk. rewrite fence_chars in Hk.
    apply contains_spec in Hk. rewrite sub_fences_clean in Hk. discriminate.
  - intros c r H. set (s := sub_fences 0 (strip response_text)) in *.
    unfold strip in H.
    destruct (lstrip_suffix (rev (lstrip s))) as (pre' & Hr).
    apply (f_equal (@rev _)) in Hr. rewrite rev_involutive, rev_app_distr, H in Hr.
    cbn in Hr. apply (lstrip_head s c (r ++ rev pre')). exact Hr.
  - intros c r H. set (s := sub_fences 0 (strip response_text)) in *.
    unfold strip in H. apply (f_equal (@rev _)) in H.
    rewrite rev_involutive, rev_unit in H.
    apply (lstrip_head _ _ _ H).
Qed.

Lemma cleaned_response_shape_witness :
  clean_response (py " ```json {} ``` ") = py "{}" /\
  is_space 123 = false /\ is_space 125 = false.
Proof.
  destruct (cleaned_response_shape (py " ```json {} ``` ")) as (_ & Hhead & Hlast).
  split; [vm_compute; reflexivity|]. split.
  - apply (Hhead 123%N [125%N]). vm_compute. reflexivity.
  - apply (Hlast 125%N [123%N]). vm_compute. reflexivity.
Defined.

End advisor_facts.

(** * Further properties of authentication *)

Section auth_facts.
Import router_auth auth.

(** What [login] does once the three checks have passed. *)
Lemma login_checks_passed (C : Crypto) (form : OAuth2PasswordRequestForm) (db : Session)
    (u : models.User) (h : pystr) :
  first_by_email db (username form) = Some u ->
  models.password_hash u = Some h -> h <> [] ->
  checkpw C (password form) h = inr true ->
  login C form db
  = (let! token :=
       create_access_token C {[ py "sub" := PStr (str_of_int (models.id u)) ]}
         (Some ACCESS_TOKEN_EXPIRE_MINUTES) in
     ret {| access_token := token; token_type := py "bearer";
            user_id := models.id u; name := models.name u |}).
Proof.
  intros Hu Hh Hne Hpw. unfold login. rewrite Hu, Hh.
  destruct h as [|c h]; [contradiction|]. cbn [no_hash from_option id].
  unfold verify_password. rewrite Hpw. reflexivity.
Qed.

(** X16.  A successful login and the use of its token.  With the right password
    for a registered user, [login] answers with a bearer token for the
    claims [sub], the user's id in decimal, and [exp], 24 hours after the
    current time, together with the user's id and name.  When decoding that
    token gives back the subject, [get_current_user] returns the very user
    who logged in. *)
Theorem login_round_trip (I : Interp) (C : Crypto) (form : OAuth2PasswordRequestForm)
    (db : Session) (u : models.User) (h token : pystr) (payload : gmap pystr PyValue) :
  first_by_email db (username form) = Some u ->
  models.password_hash u = Some h -> h <> [] ->
  checkpw C (password form) h = inr true ->
  jwt_encode C
    (<[py "exp" := PDatetime (utcnow C + 86400)]>
       {[ py "sub" := PStr (str_of_int (models.id u)) ]})
    SECRET_KEY ALGORITHM = inr token ->
  jwt_decode C token SECRET_KEY [ALGORITHM] = inr payload ->
  payload !! py "sub" = Some (PStr (str_of_int (models.id u))) ->
  int_of I (PStr (str_of_int (models.id u))) = inr (models.id u) ->
  first_by_id db (models.id u) = Some u ->
  login C form db
  = inr {| access_token := token; token_type := py "bearer";
           user_id := models.id u; name := models.name u |} /\
  get_current_user I C token db = inr u.
Proof.
  intros Hu Hh Hne Hpw Henc Hdec Hsub Hint Hid. split.
  - rewrite (login_checks_passed C form db u h Hu Hh Hne Hpw).
    unfold create_access_token, ACCESS_TOKEN_EXPIRE_MINUTES.
    change (60 * delta_or_default (Some (60 * 24))) with 86400.
    rewrite Henc. reflexivity.
  - unfold get_current_user. rewrite Hdec. cbn [bind]. rewrite Hsub.
    cbn [from_option id try_except_JWTError ret bind]. rewrite Hint. cbn [bind].
    rewrite Hid. reflexivity.
Qed.

Lemma login_round_trip_witness :
  login ana_crypto {| username := py "ana@example.com"; password := py "secreto" |}
    two_users
  = inr {| access_token := py "token-1"; token_type := py "bearer";
           user_id := 1; name := py "Ana" |} /\
  (exists u, get_current_user plain_interp ana_crypto (py "token-1") two_users = inr u /\
             models.name u = py "Ana").
Proof.
  destruct (login_round_trip plain_interp ana_crypto
              {| username := py "ana@example.com"; password := py "secreto" |}
              two_users ana (py "hash-of-secreto") (py "token-1")
              ({[ py "sub" := PStr (py "1"); py "exp" := PInt 86400 ]}
                 : gmap pystr PyValue)
              ltac:(vm_compute; reflexivity) eq_refl ltac:(vm_compute; discriminate)
              ltac:(vm_compute; reflexivity) ltac:(vm_compute; reflexivity)
              ltac:(vm_compute; reflexivity) ltac:(vm_compute; reflexivity)
              ltac:(vm_compute; reflexivity) ltac:(vm_compute; reflexivity))
    as (H1 & H2).
  split; [exact H1|]. eexists. split; [exact H2 | reflexivity].
Defined.

(** X17.  What the handlers do not catch.  An exception of the password check,
    an exception of the token decoder that is no [JWTError], and a subject
    that [int] rejects all leave the function as they are, so the request
    ends in a server error and not in the 401 of a failed authentication. *)
Theorem auth_uncaught_errors (I : Interp) (C : Crypto) :
  (forall form db u h e,
     first_by_email db (username form) = Some u ->
     models.password_hash u = Some h -> h <> [] ->
     checkpw C (password form) h = inl e ->
     login C form db = inl e) /\
  (forall token db cls msg,
     jwt_decode C token SECRET_KEY [ALGORITHM] = inl (Exception cls msg) ->
     get_current_user I C token db = inl (Exception cls msg)) /\
  (forall token db payload sub e,
     jwt_decode C token SECRET_KEY [ALGORITHM] = inr payload ->
     payload !! py "sub" = Some sub -> sub <> PNone ->
     int_of I sub = inl e ->
     get_current_user I C token db = inl e).
Proof.
  split; [|split].
  - intros form db u h e Hu Hh Hne Hpw. unfold login. rewrite Hu, Hh.
    destruct h as [|c h]; [contradiction|]. cbn [no_hash from_option id].
    unfold verify_password. rewrite Hpw. reflexivity.
  - intros token db cls msg Hdec. unfold get_current_user. rewrite Hdec. reflexivity.
  - intros token db payload sub e Hdec Hsub Hne Hint.
    unfold get_current_user. rewrite Hdec. cbn [bind]. rewrite Hsub.
    cbn [from_option id].
    destruct sub; try contradiction; cbn [try_except_JWTError ret bind];
      rewrite Hint; reflexivity.
Qed.

Lemma auth_uncaught_errors_witness :
  main.respond (login strict_crypto
                  {| username := py "ana@example.com"; password := py "secreto" |}
                  two_users)
  = main.Error 500 (py "Internal Server Error") /\
  main.respond (get_current_user plain_interp strict_crypto (py "token-1") two_users)
  = main.Error 500 (py "Internal Server Error") /\
  main.respond (get_current_user plain_interp ana_crypto (py "token-x") two_users)
  = main.Error 500 (py "Internal Server Error").
Proof.
  destruct (auth_uncaught_errors plain_interp strict_crypto) as (Hpw & Hdec & _).
  destruct (auth_uncaught_errors plain_interp ana_crypto) as (_ & _ & Hint).
  split; [|split].
  - rewrite (Hpw {| username := py "ana@example.com"; password := py "secreto" |}
               two_users ana (py "hash-of-secreto")
               (Exception (py "ValueError") (py "Invalid salt"))
               ltac:(vm_compute; reflexivity) eq_refl ltac:(vm_compute; discriminate)
               eq_refl).
    reflexivity.
  - rewrite (Hdec (py "token-1") two_users (py "KeyError") (py "'alg'") eq_refl).
    reflexivity.
  - assert (Hd : jwt_decode ana_crypto (py "token-x") SECRET_KEY [ALGORITHM]
                 = inr {[ py "sub" := PStr (py "abc") ]}) by (vm_compute; reflexivity).
    rewrite (Hint (py "token-x") two_users _ (PStr (py "abc"))
               (Exception (py "ValueError") (py "invalid literal for int()"))
               Hd ltac:(vm_compute; reflexivity)
               ltac:(discriminate) ltac:(vm_compute; reflexivity)).
    reflexivity.
Defined.

End auth_facts.

(** * Registration, users and profiles *)

Section storage_facts.


Lemma find_app_new {A} (f : A -> bool) (l : list A) (x : A) :
  List.find f l = None -> f x = true -> List.find f (l ++ [x]) = Some x.
Proof.
  induction l as [|y l IH]; cbn [List.find app].
  - intros _ ->. reflexivity.
  - destruct (f y); [discriminate | exact IH].
Qed.


(** A stored user is found by the email it was stored with, if that email
    was free. *)
Lemma stored_user_by_email (db db' : Database) (nu : NewUser) (u : models.User) (e : pystr) :
  user_stored db nu db' u -> n_email nu = Some e ->
  first_by_email (session db) e = None ->
  first_by_email (session db') e = Some u.
Proof.
  intros (Hrows & _ & _ & Hemail & _) He Hfree. unfold first_by_email in *.
  rewrite Hrows. apply find_app_new; [exact Hfree|].
  apply bool_decide_eq_true. congruence.
Qed.


(** X18.  Registration followed by login.  For an email that is still free, a
    password that hashes to a non-empty hash and an insert that stores the
    row, [register] commits the row and answers with a token for the new
    user's id.  The user can then log in with the same email and password,
    with the same outcome, and a second registration with that email is
    refused with 409, leaving the database as it is.  The row stays
    committed even when creating the token fails. *)
Theorem register_then_login (B : Bcrypt) (C : Crypto) (O : Orm)
    (data : RegisterRequest) (db db' : Database) (h : pystr) (user : models.User) :
  first_by_email (session db) (r_email data) = None ->
  hash_password B (r_password data) = inr h -> h <> [] ->
  insert_user O db (registered_row data h) = inr (db', user) ->
  user_stored db (registered_row data h) db' user ->
  checkpw C (r_password data) h = inr true ->
  let outcome :=
    let! token :=
      auth.create_access_token C {[ py "sub" := PStr (str_of_int (models.id user)) ]}
        (Some auth.ACCESS_TOKEN_EXPIRE_MINUTES) in
    ret {| router_auth.access_token := token;
           router_auth.token_type := py "bearer";
           router_auth.user_id := models.id user;
           router_auth.name := r_name data |} in
  register B C O data db = (db', outcome) /\
  router_auth.login C
    {| router_auth.username := r_email data; router_auth.password := r_password data |}
    (session db') = outcome /\
  register B C O data db'
  = (db', inl (HTTPException 409 (py "Este email ya está registrado") None)).
Proof.
  intros Hfree Hhash Hne Hins Hstored Hpw outcome.
  pose proof (stored_user_by_email db db' _ user (r_email data) Hstored eq_refl Hfree)
    as Hfound.
  destruct Hstored as (_ & _ & Hname & _ & _ & _ & Hph & _).
  cbn [registered_row n_name n_password_hash] in Hname, Hph.
  split; [|split].
  - unfold register. rewrite Hfree, Hhash. cbn [bind]. rewrite Hins.
    subst outcome. rewrite Hname. reflexivity.
  - rewrite (login_checks_passed C
               {| router_auth.username := r_email data;
                  router_auth.password := r_password data |}
               (session db') user h Hfound Hph Hne Hpw).
    subst outcome. rewrite Hname. reflexivity.
  - unfold register. rewrite Hfound. reflexivity.
Qed.






End storage_facts.

(** ** The database in memory keeps its promises *)




Section storage_fact_runs.

Lemma register_then_login_witness :
  exists db',
    register marking_bcrypt eva_crypto (list_orm 100)
      {| r_name := py "Eva"; r_email := py "eva@example.com"; r_password := py "clave";
         r_age := None; r_monthly_income := None |} two_users_db
    = (db', inr {| router_auth.access_token := py "token-3";
                   router_auth.token_type := py "bearer";
                   router_auth.user_id := 3; router_auth.name := py "Eva" |}) /\
    router_auth.login eva_crypto
      {| router_auth.username := py "eva@example.com";
         router_auth.password := py "clave" |} (session db')
    = inr {| router_auth.access_token := py "token-3";
             router_auth.token_type := py "bearer";
             router_auth.user_id := 3; router_auth.name := py "Eva" |}.
Proof.
  pose (data := {| r_name := py "Eva"; r_email := py "eva@example.com";
                   r_password := py "clave"; r_age := None; r_monthly_income := None |}).
  pose (user := {| models.id := 3; models.name := py "Eva";
                   models.email := Some (py "eva@example.com");
                   models.age := None; models.monthly_income := None;
                   models.password_hash := Some (py "hash-of-clave");
                   models.created_at := 100 |}).
  pose (db' := {| session := {| users := users two_users ++ [user] |};
                  profiles := profiles two_users_db |}).
  assert (Hstored : user_stored two_users_db (registered_row data (py "hash-of-clave"))
                      db' user).
  { split; [reflexivity|]. split; [reflexivity|]. split; [reflexivity|].
    split; [reflexivity|]. split; [reflexivity|]. split; [reflexivity|].
    split; [reflexivity|]. repeat constructor; vm_compute; discriminate. }
  destruct (register_then_login marking_bcrypt eva_crypto (list_orm 100) data
              two_users_db db' (py "hash-of-clave") user
              ltac:(vm_compute; reflexivity) ltac:(vm_compute; reflexivity)
              ltac:(vm_compute; discriminate) ltac:(vm_compute; reflexivity)
              Hstored ltac:(vm_compute; reflexivity)) as (Hreg & Hlogin & _).
  exists db'. split.
  - fold data. rewrite Hreg. vm_compute. reflexivity.
  - change (py "eva@example.com") with (r_email data).
    change (py "clave") with (r_password data).
    rewrite Hlogin. vm_compute. reflexivity.
Defined.




End storage_fact_runs.
